(** * Greenhouse monitor: the synthetic data generator, the status
      classifier and the dashboard component

    A shallow embedding of [generateHistoricalData] and [PlantDashboard]
    (src/App.tsx, whose line numbers the comments give), and the properties
    of the specification proved on it.

    - [Math.random ()] and [new Date ()] read the host: a [Host] gives the
      k-th value each returns, and a [World] counts the reads and the
      stamps given out, so that the generator is a function of the host and
      of the world it starts in.
    - A Number is the rational it stands for.  A draw is a double of
      [[0,1)], and [Math.random () * n] is the product of two doubles: the
      exact product rounded to the nearest double ([Number.multiply]).
      The measurements are the integers [Math.floor (...) + c].
    - A [Date] is its time value (milliseconds, UTC).  The calendar follows
      ECMAScript's definitions ([Day], [YearFromTime], [MakeDay],
      [LocalTime], [UTC], ...); the offset of local time from UTC is the
      host's [LocalTZA (t, isUTC)], which depends on the time, as where
      clocks change for the summer.
    - The objects whose identity the component compares (the array of the
      set and the readings, in the dependencies of its effects) carry a
      stamp taken at their creation.
    - A render is a call of the component function.  After a render the
      effects whose dependencies changed run in the order of their
      declaration, on the values of that render, and the component renders
      again when they changed a hook; an event is its handler followed by
      these renders, if it changed a hook.  React skips an update that
      changes no hook, and the host tells whether it calls the component
      once more before it does.  A render or a handler that reads a
      property of [undefined] ends in [Crashed]. *)

From Stdlib Require Import String ZArith QArith Qround Qpower.
From Stdlib Require Import List Sorted Lia Lqa Bool Arith.
Import ListNotations.

Open Scope Z_scope.

(** ** ECMAScript dates *)

Module JSDate.

Definition msPerSecond : Z := 1000.
Definition msPerMinute : Z := 60000.
Definition msPerHour : Z := 3600000.
Definition msPerDay : Z := 86400000.

Definition Day (t : Z) : Z := t / msPerDay.
Definition TimeWithinDay (t : Z) : Z := t mod msPerDay.

Definition DaysInYear (y : Z) : Z :=
  if negb (y mod 4 =? 0) then 365
  else if negb (y mod 100 =? 0) then 366
  else if negb (y mod 400 =? 0) then 365
  else 366.

Definition DayFromYear (y : Z) : Z :=
  365 * (y - 1970) + (y - 1969) / 4 - (y - 1901) / 100 + (y - 1601) / 400.

(** The year [t] falls in, the largest [y] with
    [msPerDay * DayFromYear y <= t]: an estimate from the mean length of a
    year, moved by one year when it misses (see [YearFromTime_spec]). *)
Definition YearFromTime (t : Z) : Z :=
  let y := 1970 + Day t * 400 / 146097 in
  if Day t <? DayFromYear y then y - 1
  else if DayFromYear (y + 1) <=? Day t then y + 1
  else y.

Definition InLeapYear (t : Z) : Z :=
  if DaysInYear (YearFromTime t) =? 366 then 1 else 0.

Definition DayWithinYear (t : Z) : Z := Day t - DayFromYear (YearFromTime t).

Definition MonthFromTime (t : Z) : Z :=
  let d := DayWithinYear t in
  let leap := InLeapYear t in
  if d <? 31 then 0
  else if d <? 59 + leap then 1
  else if d <? 90 + leap then 2
  else if d <? 120 + leap then 3
  else if d <? 151 + leap then 4
  else if d <? 181 + leap then 5
  else if d <? 212 + leap then 6
  else if d <? 243 + leap then 7
  else if d <? 273 + leap then 8
  else if d <? 304 + leap then 9
  else if d <? 334 + leap then 10
  else 11.

Definition DateFromTime (t : Z) : Z :=
  let d := DayWithinYear t in
  let leap := InLeapYear t in
  match MonthFromTime t with
  | 0 => d + 1
  | 1 => d - 30
  | 2 => d - 58 - leap
  | 3 => d - 89 - leap
  | 4 => d - 119 - leap
  | 5 => d - 150 - leap
  | 6 => d - 180 - leap
  | 7 => d - 211 - leap
  | 8 => d - 242 - leap
  | 9 => d - 272 - leap
  | 10 => d - 303 - leap
  | _ => d - 333 - leap
  end.

Definition HourFromTime (t : Z) : Z := (t / msPerHour) mod 24.

Definition MakeTime (hour min sec ms : Z) : Z :=
  hour * msPerHour + min * msPerMinute + sec * msPerSecond + ms.

(** Day number, within its year, of the first day of month [mn] (0..11). *)
Definition monthStart (mn leap : Z) : Z :=
  match mn with
  | 0 => 0
  | 1 => 31
  | 2 => 59 + leap
  | 3 => 90 + leap
  | 4 => 120 + leap
  | 5 => 151 + leap
  | 6 => 181 + leap
  | 7 => 212 + leap
  | 8 => 243 + leap
  | 9 => 273 + leap
  | 10 => 304 + leap
  | _ => 334 + leap
  end.

(** [MakeDay]: the day number of the first day of month [mn] of year [ym],
    moved by [date - 1] days; [date] may be zero or negative. *)
Definition MakeDay (year month date : Z) : Z :=
  let ym := year + month / 12 in
  let mn := month mod 12 in
  let leap := if DaysInYear ym =? 366 then 1 else 0 in
  DayFromYear ym + monthStart mn leap + date - 1.

Definition MakeDate (day time : Z) : Z := day * msPerDay + time.

Section LocalTimeZone.

(** [LocalTZA (t, isUTC)]: the offset of local time from UTC, in
    milliseconds, at the time value [t] when [isUTC], and for the local
    time [t] otherwise. *)
Variable LocalTZA : Z -> bool -> Z.

Definition LocalTime (t : Z) : Z := t + LocalTZA t true.
Definition UTC (t : Z) : Z := t - LocalTZA t false.

(** [Date.prototype.getDate], [getHours], [setDate] and [setHours] on the
    time value [tv] of a date object. *)
Definition getDate (tv : Z) : Z := DateFromTime (LocalTime tv).
Definition getHours (tv : Z) : Z := HourFromTime (LocalTime tv).

Definition setDate (tv date : Z) : Z :=
  let t := LocalTime tv in
  UTC (MakeDate (MakeDay (YearFromTime t) (MonthFromTime t) date)
                (TimeWithinDay t)).

Definition setHours (tv hour min sec ms : Z) : Z :=
  let t := LocalTime tv in
  UTC (MakeDate (Day t) (MakeTime hour min sec ms)).

(** The local calendar day a date object falls on. *)
Definition localDay (tv : Z) : Z := Day (LocalTime tv).

End LocalTimeZone.

End JSDate.

(** ** ECMAScript numbers *)

Module Number.

(** [2 ^ e], for any integer [e]. *)
Definition pow2 (e : Z) : Q := (2 # 1) ^ e.

(** The binary exponent of a positive rational [q]: the [e] with
    [2 ^ e <= q < 2 ^ (e + 1)] (see [exponent_spec]). *)
Definition exponent (q : Q) : Z :=
  let e := Z.log2 (Qnum q) - Z.log2 (Z.pos (Qden q)) in
  if Qle_bool (pow2 e) q then e else e - 1.

(** The distance between the doubles around a positive [q]: they have 53
    significant bits, and exponent -1022 below [2 ^ -1022]. *)
Definition ulp (q : Q) : Q := pow2 (Z.max (exponent q) (-1022) - 52).

(** The integer nearest to [y], the even one of two at the same
    distance. *)
Definition roundHalfEven (y : Q) : Z :=
  let f := Qfloor y in
  match Qcompare (y - inject_Z f) (1 # 2) with
  | Lt => f
  | Gt => f + 1
  | Eq => if Z.even f then f else f + 1
  end.

(** The Number value of a rational: the double nearest to it, the one
    with an even significand of two at the same distance.  (A magnitude
    that rounds beyond the largest double would be an infinity: the
    program computes none.) *)
Definition round (q : Q) : Q :=
  match Qcompare q 0 with
  | Eq => 0
  | Gt => inject_Z (roundHalfEven (q / ulp q)) * ulp q
  | Lt => - (inject_Z (roundHalfEven (- q / ulp (- q))) * ulp (- q))
  end.

(** A rational that is a double. *)
Definition isNumber (q : Q) : Prop := round q == q.

(** [x * y] on Numbers: the exact product, rounded. *)
Definition multiply (x y : Q) : Q := round (x * y).

End Number.

(** ** The host: random numbers, the clock, object identities *)

(** What the program reads from its host.  [random k] is the value of the
    k-th call of [Math.random ()], [clock k] the time value of the k-th
    [new Date ()], [LocalTZA] the offset of local time; the two formatting
    functions stand for
    [toLocaleTimeString ('en-US', {hour: '2-digit', minute: '2-digit'})]
    and [toLocaleDateString ('en-US', {month: 'short', day: 'numeric'})].
    [callsAgain k] tells whether React calls the component once more
    before it skips the k-th update that changes no hook. *)
Record Host : Type := {
  random : nat -> Q;
  clock : nat -> Z;
  LocalTZA : Z -> bool -> Z;
  toLocaleTimeString : Z -> string;
  toLocaleDateString : Z -> string;
  callsAgain : nat -> bool
}.

(** [Math.random ()] returns a Number of [[0,1)]. *)
Definition random_in_range (h : Host) : Prop :=
  forall k : nat,
    Number.isNumber (random h k) /\
    (0 <= random h k)%Q /\ (random h k < 1)%Q.

Record World : Type := {
  random_calls : nat;   (* calls of Math.random () so far *)
  clock_reads : nat;    (* dates taken from the clock so far *)
  next_ident : nat;     (* the next stamp *)
  skipped : nat         (* updates React skipped so far *)
}.

Definition M (A : Type) : Type := World -> A * World.

Definition ret {A : Type} (a : A) : M A := fun w => (a, w).

Definition bind {A B : Type} (m : M A) (k : A -> M B) : M B :=
  fun w => let (a, w') := m w in k a w'.

Declare Scope host_scope.
Delimit Scope host_scope with host.
Notation "x <- m ;; k" := (bind m (fun x => k))
  (at level 61, m at next level, right associativity) : host_scope.
Notation "m ;; k" := (bind m (fun _ => k))
  (at level 61, right associativity) : host_scope.
Open Scope host_scope.

Section HostCalls.

Variable host : Host.

(** [Math.random ()] *)
Definition Math_random : M Q := fun w =>
  (random host (random_calls w),
   {| random_calls := S (random_calls w);
      clock_reads := clock_reads w;
      next_ident := next_ident w;
      skipped := skipped w |}).

(** [new Date ()] *)
Definition new_Date : M Z := fun w =>
  (clock host (clock_reads w),
   {| random_calls := random_calls w;
      clock_reads := S (clock_reads w);
      next_ident := next_ident w;
      skipped := skipped w |}).

(** React about to skip an update: does it call the component first? *)
Definition React_callsAgain : M bool := fun w =>
  (callsAgain host (skipped w),
   {| random_calls := random_calls w;
      clock_reads := clock_reads w;
      next_ident := next_ident w;
      skipped := S (skipped w) |}).

End HostCalls.

(** The stamp of a new object or array. *)
Definition allocate : M nat := fun w =>
  (next_ident w,
   {| random_calls := random_calls w;
      clock_reads := clock_reads w;
      next_ident := S (next_ident w);
      skipped := skipped w |}).

Definition Math_floor (x : Q) : Z := Qfloor x.

(** ** Data model *)

Record PlantData : Type := {
  object_id : nat;          (* stamp of the object *)
  datetime : Z;             (* time value of the Date *)
  displayTime : string;
  displayDate : string;
  temperature : Z;
  humidity : Z;
  soilMoisture : Z
}.

Record DayData : Type := {
  label : string;
  value : string;
  data : list PlantData
}.

(** A [DayData[]] with the identity of the array. *)
Record DayArray : Type := {
  array_id : nat;
  items : list DayData
}.

Inductive PlantStatus : Type := Healthy | NeedsWater | TooHot | LowHumidity.
Inductive MetricType : Type := Temperature | Humidity | SoilMoisture.

(** [array.push (x)] *)
Definition push {A : Type} (array : list A) (x : A) : list A := array ++ [x].

(** ** Loops *)

(** Iterations a loop [for (i = ..; i < stop; i += step)] has left, at most. *)
Definition iterations_left (stop i : Z) : nat := Z.to_nat (stop - i).

(** [for (let i = ..; i < stop; i += step) body], from [i] on, with the
    variables the body updates in [s]; [n] bounds the iterations. *)
Fixpoint for_upto {S : Type} (n : nat) (i stop step : Z)
  (body : Z -> S -> M S) (s : S) : M S :=
  match n with
  | O => ret s
  | S n' =>
      if i <? stop
      then s' <- body i s ;; for_upto n' (i + step) stop step body s'
      else ret s
  end.

(** The loop itself: [iterations_left] iterations are enough
    (see [for_loop_unfold]). *)
Definition for_loop {S : Type} (start stop step : Z)
  (body : Z -> S -> M S) (s : S) : M S :=
  for_upto (iterations_left stop start) start stop step body s.

(** ** generateHistoricalData *)

Section Generator.

Variable host : Host.

(** The object literal pushed by the inner loop: lines 59 to 69. *)
Definition newReading (date hour : Z) : M PlantData :=
  let datetime := JSDate.setHours (LocalTZA host) date hour 0 0 0 in
  id <- allocate ;;
  t <- Math_random host ;;
  h <- Math_random host ;;
  s <- Math_random host ;;
  ret {| object_id := id;
         datetime := datetime;
         displayTime := toLocaleTimeString host datetime;
         displayDate := toLocaleDateString host datetime;
         temperature := Math_floor (Number.multiply t 10) + 65;
         humidity := Math_floor (Number.multiply h 20) + 50;
         soilMoisture := Math_floor (Number.multiply s 30) + 40 |}.

(** The body of the outer loop: lines 52 to 76. *)
Definition newDay (now dayOffset : Z) : M DayData :=
  let date :=
    JSDate.setDate (LocalTZA host) now
      (JSDate.getDate (LocalTZA host) now - dayOffset) in
  let dayStr := toLocaleDateString host date in
  dayData <- for_loop 0 24 2
               (fun hour dayData =>
                  r <- newReading date hour ;; ret (push dayData r)) [] ;;
  ret {| label := dayStr; value := dayStr; data := dayData |}.

Definition generateHistoricalData : M DayArray :=
  id <- allocate ;;
  now <- new_Date host ;;
  days <- for_loop 0 7 1
            (fun dayOffset days =>
               d <- newDay now dayOffset ;; ret (push days d)) [] ;;
  ret {| array_id := id; items := days |}.

End Generator.

(** ** The dashboard component *)

(** The values of the six [useState] hooks of [PlantDashboard]. *)
Record State : Type := {
  allDaysData : DayArray;
  selectedDayIndex : nat;
  plantData : list PlantData;
  selectedMetric : MetricType;
  plantStatus : PlantStatus;
  dayPickerVisible : bool
}.

Definition setAllDaysData (v : DayArray) (s : State) : State :=
  {| allDaysData := v;
     selectedDayIndex := selectedDayIndex s;
     plantData := plantData s;
     selectedMetric := selectedMetric s;
     plantStatus := plantStatus s;
     dayPickerVisible := dayPickerVisible s |}.

Definition setSelectedDayIndex (v : nat) (s : State) : State :=
  {| allDaysData := allDaysData s;
     selectedDayIndex := v;
     plantData := plantData s;
     selectedMetric := selectedMetric s;
     plantStatus := plantStatus s;
     dayPickerVisible := dayPickerVisible s |}.

Definition setPlantData (v : list PlantData) (s : State) : State :=
  {| allDaysData := allDaysData s;
     selectedDayIndex := selectedDayIndex s;
     plantData := v;
     selectedMetric := selectedMetric s;
     plantStatus := plantStatus s;
     dayPickerVisible := dayPickerVisible s |}.

Definition setSelectedMetric (v : MetricType) (s : State) : State :=
  {| allDaysData := allDaysData s;
     selectedDayIndex := selectedDayIndex s;
     plantData := plantData s;
     selectedMetric := v;
     plantStatus := plantStatus s;
     dayPickerVisible := dayPickerVisible s |}.

Definition setPlantStatus (v : PlantStatus) (s : State) : State :=
  {| allDaysData := allDaysData s;
     selectedDayIndex := selectedDayIndex s;
     plantData := plantData s;
     selectedMetric := selectedMetric s;
     plantStatus := v;
     dayPickerVisible := dayPickerVisible s |}.

Definition setDayPickerVisible (v : bool) (s : State) : State :=
  {| allDaysData := allDaysData s;
     selectedDayIndex := selectedDayIndex s;
     plantData := plantData s;
     selectedMetric := selectedMetric s;
     plantStatus := plantStatus s;
     dayPickerVisible := v |}.

(** [array[array.length - 1]]: [None] is [undefined]. *)
Definition lastItem {A : Type} (array : list A) : option A :=
  nth_error array (List.length array - 1).

(** [item[selectedMetric]] *)
Definition metricOf (m : MetricType) (item : PlantData) : Z :=
  match m with
  | Temperature => temperature item
  | Humidity => humidity item
  | SoilMoisture => soilMoisture item
  end.

Record ChartInfo : Type := { title : string; unit : string }.

Definition getChartInfo (m : MetricType) : ChartInfo :=
  match m with
  | Temperature => {| title := "Temperature"; unit := "°F" |}
  | Humidity => {| title := "Humidity"; unit := "%" |}
  | SoilMoisture => {| title := "Soil Moisture"; unit := "%" |}
  end.

(** Red, green and blue of the chart's line. *)
Definition chartColor (m : MetricType) : Z * Z * Z :=
  match m with
  | Temperature => (239, 68, 68)
  | Humidity => (59, 130, 246)
  | SoilMoisture => (120, 53, 15)
  end.

(** What a render puts on the screen. *)
Record Screen : Type := {
  shownTemperature : Z;
  shownHumidity : Z;
  shownSoilMoisture : Z;
  shownDay : string;
  chartInfo : ChartInfo;
  chartLabels : list string;
  chartValues : list Z;
  chartLine : Z * Z * Z;
  pickerItems : list (nat * string)
}.

(** A render: the state its closures hold, [currentData] and the screen. *)
Record Render : Type := {
  closure : State;
  currentData : PlantData;
  screen : Screen
}.

(** Lines 91 and 120 to 343, for the hook values [s]; [None] is a
    [TypeError] ([currentData] or [allDaysData[selectedDayIndex]] is
    [undefined]).  The items of the day picker are there while the modal is
    visible. *)
Definition render (s : State) : option Render :=
  match lastItem (plantData s),
        nth_error (items (allDaysData s)) (selectedDayIndex s) with
  | Some currentData, Some day =>
      Some {| closure := s;
              currentData := currentData;
              screen :=
                {| shownTemperature := temperature currentData;
                   shownHumidity := humidity currentData;
                   shownSoilMoisture := soilMoisture currentData;
                   shownDay := label day;
                   chartInfo := getChartInfo (selectedMetric s);
                   chartLabels := map displayTime (plantData s);
                   chartValues :=
                     map (metricOf (selectedMetric s)) (plantData s);
                   chartLine := chartColor (selectedMetric s);
                   pickerItems :=
                     if dayPickerVisible s
                     then combine (seq 0 (List.length (items (allDaysData s))))
                                  (map label (items (allDaysData s)))
                     else [] |} |}
  | _, _ => None
  end.

(** [useState (initial)]: the hook's value, [initial] at the first render. *)
Definition useState {A : Type} (hooks : option State) (hook : State -> A)
  (initial : A) : A :=
  match hooks with
  | Some s => hook s
  | None => initial
  end.

(** The first effect: lines 94 to 96. *)
Definition dayEffect (r : Render) (s : State) : option State :=
  match nth_error (items (allDaysData (closure r)))
                  (selectedDayIndex (closure r)) with
  | Some day => Some (setPlantData (data day) s)
  | None => None
  end.

(** The second effect: lines 99 to 111. *)
Definition statusEffect (currentData : PlantData) (s : State) : State :=
  let temperature := temperature currentData in
  let humidity := humidity currentData in
  let soilMoisture := soilMoisture currentData in
  if soilMoisture <? 45 then setPlantStatus NeedsWater s
  else if temperature >? 75 then setPlantStatus TooHot s
  else if humidity <? 55 then setPlantStatus LowHumidity s
  else setPlantStatus Healthy s.

(** The dependencies each effect had at the last committed render
    ([selectedDayIndex] and the identity of [allDaysData]; the identity of
    [currentData]); [None] before the first. *)
Record Deps : Type := {
  dayDeps : option (nat * nat);
  statusDeps : option nat
}.

Definition sameDayDeps (a b : nat * nat) : bool :=
  Nat.eqb (fst a) (fst b) && Nat.eqb (snd a) (snd b).

(** An effect runs after the first render, and after a later one when one
    of its dependencies is not the same as at the render before. *)
Definition depsChanged {A : Type} (same : A -> A -> bool)
  (before : option A) (now : A) : bool :=
  match before with
  | None => true
  | Some d => negb (same d now)
  end.

(** The hooks of a mounted component between two events. *)
Record Fiber : Type := {
  state : State;
  deps : Deps
}.

Inductive Outcome : Type :=
| Settled (f : Fiber) (shown : Screen)
| Crashed        (* an uncaught TypeError *)
| Unsettled.     (* still rendering after the renders allowed *)

Inductive Event : Type :=
| PressRefresh
| PressMetric (m : MetricType)
| PressDaySelector
| PressDay (index : nat)
| ClosePicker.

(** [Object.is] on the values of the hooks.  Numbers, strings and
    booleans are the same when they are equal.  An array or an object is
    the same as itself only: the array of the set and the readings are
    told apart by their stamps, and a sequence of readings by the readings
    it holds, each reading being pushed into one array.  Two values with
    the same stamps are compared further, so that only equal values are
    the same. *)
Fixpoint sameList {A : Type} (same : A -> A -> bool) (l l' : list A)
  : bool :=
  match l, l' with
  | [], [] => true
  | x :: l, x' :: l' => same x x' && sameList same l l'
  | _, _ => false
  end.

Definition sameReading (a b : PlantData) : bool :=
  Nat.eqb (object_id a) (object_id b) && Z.eqb (datetime a) (datetime b)
  && String.eqb (displayTime a) (displayTime b)
  && String.eqb (displayDate a) (displayDate b)
  && Z.eqb (temperature a) (temperature b)
  && Z.eqb (humidity a) (humidity b)
  && Z.eqb (soilMoisture a) (soilMoisture b).

Definition sameDay (a b : DayData) : bool :=
  String.eqb (label a) (label b) && String.eqb (value a) (value b)
  && sameList sameReading (data a) (data b).

Definition sameDays (a b : DayArray) : bool :=
  Nat.eqb (array_id a) (array_id b) && sameList sameDay (items a) (items b).

Definition sameMetric (a b : MetricType) : bool :=
  match a, b with
  | Temperature, Temperature | Humidity, Humidity
  | SoilMoisture, SoilMoisture => true
  | _, _ => false
  end.

Definition sameStatus (a b : PlantStatus) : bool :=
  match a, b with
  | Healthy, Healthy | NeedsWater, NeedsWater | TooHot, TooHot
  | LowHumidity, LowHumidity => true
  | _, _ => false
  end.

(** No setter changed a hook: each of the six hooks of [b] is the same as
    in [a]. *)
Definition sameHooks (a b : State) : bool :=
  sameDays (allDaysData a) (allDaysData b)
  && Nat.eqb (selectedDayIndex a) (selectedDayIndex b)
  && sameList sameReading (plantData a) (plantData b)
  && sameMetric (selectedMetric a) (selectedMetric b)
  && sameStatus (plantStatus a) (plantStatus b)
  && Bool.eqb (dayPickerVisible a) (dayPickerVisible b).

Section Component.

Variable host : Host.

(** Lines 83 to 91 of the component function: the arguments of the
    [useState] calls are evaluated at every render. *)
Definition PlantDashboard (hooks : option State) : M (option Render) :=
  initialData <- generateHistoricalData host ;;
  let allDaysData := useState hooks allDaysData initialData in
  let selectedDayIndex := useState hooks selectedDayIndex 0%nat in
  match nth_error (items allDaysData) 0 with
  | None => ret None
  | Some day0 =>
      let plantData := useState hooks plantData (data day0) in
      let selectedMetric := useState hooks selectedMetric Temperature in
      let plantStatus := useState hooks plantStatus Healthy in
      let dayPickerVisible := useState hooks dayPickerVisible false in
      ret (render {| allDaysData := allDaysData;
                     selectedDayIndex := selectedDayIndex;
                     plantData := plantData;
                     selectedMetric := selectedMetric;
                     plantStatus := plantStatus;
                     dayPickerVisible := dayPickerVisible |})
  end.

(** The effects of a committed render, in the order of their declaration:
    the new hook values and dependencies, and whether an effect ran. *)
Definition runEffects (r : Render) (d : Deps)
  : option (State * Deps * bool) :=
  let s := closure r in
  let dayNow := (selectedDayIndex s, array_id (allDaysData s)) in
  let statusNow := object_id (currentData r) in
  let runDay := depsChanged sameDayDeps (dayDeps d) dayNow in
  let runStatus := depsChanged Nat.eqb (statusDeps d) statusNow in
  match (if runDay then dayEffect r s else Some s) with
  | None => None
  | Some s1 =>
      let s2 := if runStatus then statusEffect (currentData r) s1 else s1 in
      Some (s2,
            {| dayDeps := Some dayNow; statusDeps := Some statusNow |},
            runDay || runStatus)
  end.

(** Setters were called and changed no hook.  React skips the update: it
    renders no child and runs no effect, but "in some cases React may still
    need to call your component before skipping", a call whose result is
    dropped.  [false] is a [TypeError] in that call. *)
Definition skippedUpdate (s : State) : M bool :=
  again <- React_callsAgain host ;;
  if again
  then r <- PlantDashboard (Some s) ;;
       ret (match r with Some _ => true | None => false end)
  else ret true.

(** Render, commit, run the effects, and render again when they changed a
    hook; at most [renders] times. *)
Fixpoint commit (renders : nat) (hooks : option State) (d : Deps)
  : M Outcome :=
  match renders with
  | O => ret Unsettled
  | S renders' =>
      r <- PlantDashboard hooks ;;
      match r with
      | None => ret Crashed
      | Some r =>
          match runEffects r d with
          | None => ret Crashed
          | Some (s, d', ran) =>
              if sameHooks (closure r) s
              then ok <- (if ran then skippedUpdate s else ret true) ;;
                   ret (if ok
                        then Settled {| state := s; deps := d' |} (screen r)
                        else Crashed)
              else commit renders' (Some s) d'
          end
      end
  end.

Definition mount (renders : nat) : M Outcome :=
  commit renders None {| dayDeps := None; statusDeps := None |}.

(** Lines 114 to 118; [None] is the [TypeError] of
    [newData[selectedDayIndex].data] on a missing bucket. *)
Definition refreshData (s : State) : M (option State) :=
  newData <- generateHistoricalData host ;;
  let s1 := setAllDaysData newData s in
  match nth_error (items newData) (selectedDayIndex s) with
  | Some day => ret (Some (setPlantData (data day) s1))
  | None => ret None
  end.

(** The [onPress] handlers (and [onRequestClose] of the modal). *)
Definition handle (e : Event) (s : State) : M (option State) :=
  match e with
  | PressRefresh => refreshData s
  | PressMetric m => ret (Some (setSelectedMetric m s))
  | PressDaySelector => ret (Some (setDayPickerVisible true s))
  | PressDay index =>
      ret (Some (setDayPickerVisible false (setSelectedDayIndex index s)))
  | ClosePicker => ret (Some (setDayPickerVisible false s))
  end.

(** An event on a mounted component: the handler, then the renders when
    the handler changed a hook; when it changed none the update is skipped
    and the screen stays, which is the render of the hooks. *)
Definition dispatch (renders : nat) (e : Event) (f : Fiber) : M Outcome :=
  s <- handle e (state f) ;;
  match s with
  | None => ret Crashed
  | Some s =>
      if sameHooks (state f) s
      then ok <- skippedUpdate s ;;
           ret (match render s with
                | Some r => if ok then Settled f (screen r) else Crashed
                | None => Crashed
                end)
      else commit renders (Some s) (deps f)
  end.

End Component.

(** The events the screen rendered from [s] offers: a day of the picker can
    be pressed when the picker lists it. *)
Definition offers (s : State) (e : Event) : Prop :=
  match render s with
  | None => False
  | Some r =>
      match e with
      | PressDay index => In index (map fst (pickerItems (screen r)))
      | ClosePicker => dayPickerVisible s = true
      | _ => True
      end
  end.

(** The states of the dashboard: the mounted component and every state an
    offered event leads to, with the world they are reached in. *)
Inductive reachable (host : Host) : Fiber -> World -> Prop :=
| reachable_mount (renders : nat) (w w' : World) (f : Fiber) (shown : Screen) :
    mount host renders w = (Settled f shown, w') ->
    reachable host f w'
| reachable_event (renders : nat) (e : Event) (f f' : Fiber) (w w' : World)
    (shown : Screen) :
    reachable host f w ->
    offers (state f) e ->
    dispatch host renders e f w = (Settled f' shown, w') ->
    reachable host f' w'.

(** ** Auxiliary definitions for the properties *)

(** The values the variable of a loop takes. *)
Fixpoint indices_upto (n : nat) (i stop step : Z) : list Z :=
  match n with
  | O => []
  | S n' => if i <? stop then i :: indices_upto n' (i + step) stop step else []
  end.

Definition loop_indices (start stop step : Z) : list Z :=
  indices_upto (iterations_left stop start) start stop step.

(** One result for each index, in order. *)
Fixpoint collect {A : Type} (f : Z -> M A) (l : list Z) : M (list A) :=
  match l with
  | [] => ret []
  | i :: l' => x <- f i ;; xs <- collect f l' ;; ret (x :: xs)
  end.

Definition hours : list Z := [0; 2; 4; 6; 8; 10; 12; 14; 16; 18; 20; 22].
Definition dayOffsets : list Z := [0; 1; 2; 3; 4; 5; 6].

(** The date of the bucket [dayOffset] days back. *)
Definition bucketDate (host : Host) (now dayOffset : Z) : Z :=
  JSDate.setDate (LocalTZA host) now
    (JSDate.getDate (LocalTZA host) now - dayOffset).

(** The world in which the generator enters its outer loop. *)
Definition afterSetup (w : World) : World :=
  {| random_calls := random_calls w;
     clock_reads := S (clock_reads w);
     next_ident := S (next_ident w);
     skipped := skipped w |}.

(** A number from 0 to 99 in decimal, on two digits when [pad]. *)
Definition digit (n : Z) : string :=
  match n with
  | 0 => "0" | 1 => "1" | 2 => "2" | 3 => "3" | 4 => "4"
  | 5 => "5" | 6 => "6" | 7 => "7" | 8 => "8" | _ => "9"
  end.

Definition decimal (pad : bool) (n : Z) : string :=
  if (n <? 10) && negb pad then digit n
  else (digit (n / 10) ++ digit (n mod 10))%string.

Definition monthShort (month : Z) : string :=
  match month with
  | 0 => "Jan" | 1 => "Feb" | 2 => "Mar" | 3 => "Apr" | 4 => "May"
  | 5 => "Jun" | 6 => "Jul" | 7 => "Aug" | 8 => "Sep" | 9 => "Oct"
  | 10 => "Nov" | _ => "Dec"
  end.

(** A month and a day, as in "Nov 1", for a local time. *)
Definition shortDate (t : Z) : string :=
  (monthShort (JSDate.MonthFromTime t) ++ " "
   ++ decimal false (JSDate.DateFromTime t))%string.

(** Hour and minute on the 12-hour clock, as in "02:00 PM", for a local
    time. *)
Definition shortTime (t : Z) : string :=
  let hour := JSDate.HourFromTime t in
  let minute := (t / JSDate.msPerMinute) mod 60 in
  let hour12 := if hour mod 12 =? 0 then 12 else hour mod 12 in
  let half := if hour <? 12 then " AM"%string else " PM"%string in
  (decimal true hour12 ++ ":" ++ decimal true minute ++ half)%string.

(** A host to run the program on: draws that go through [[0,1)] in steps
    of 47/128, a clock that starts on 1 November 2026 at noon (UTC), local
    time one hour ahead of UTC all year, and a React that skips an update
    without calling the component. *)
Definition sampleHost : Host :=
  {| random := fun k => (47 * Z.of_nat k mod 128) # 128;
     clock := fun k => 1793534400000 + 1000 * Z.of_nat k;
     LocalTZA := fun _ _ => 3600000;
     toLocaleTimeString := fun tv => shortTime (tv + 3600000);
     toLocaleDateString := fun tv => shortDate (tv + 3600000);
     callsAgain := fun _ => false |}.

(** A host all of whose draws are [x]. *)
Definition constantHost (x : Q) : Host :=
  {| random := fun _ => x;
     clock := clock sampleHost;
     LocalTZA := LocalTZA sampleHost;
     toLocaleTimeString := toLocaleTimeString sampleHost;
     toLocaleDateString := toLocaleDateString sampleHost;
     callsAgain := callsAgain sampleHost |}.

Definition startWorld : World :=
  {| random_calls := 0; clock_reads := 0; next_ident := 0; skipped := 0 |}.

Definition noReading : PlantData :=
  {| object_id := 0; datetime := 0;
     displayTime := EmptyString; displayDate := EmptyString;
     temperature := 0; humidity := 0; soilMoisture := 0 |}.

Definition noDay : DayData :=
  {| label := EmptyString; value := EmptyString; data := [] |}.

(** The reading [hourIndex] of the bucket [dayIndex] of a generated set. *)
Definition readingAt (days : DayArray) (dayIndex hourIndex : nat)
  : PlantData :=
  nth hourIndex (data (nth dayIndex (items days) noDay)) noReading.

(** The status the second effect sets for a reading. *)
Definition statusOf (reading : PlantData) : PlantStatus :=
  plantStatus
    (statusEffect reading
       {| allDaysData := {| array_id := 0; items := [] |};
          selectedDayIndex := 0;
          plantData := [];
          selectedMetric := Temperature;
          plantStatus := Healthy;
          dayPickerVisible := false |}).

(** One render of a mounted component and its effects, without the host:
    the new hooks and dependencies, whether an effect ran, and the screen. *)
Definition pass (s : State) (d : Deps)
  : option (State * Deps * bool * Screen) :=
  match nth_error (items (allDaysData s)) 0 with
  | None => None
  | Some _ =>
      match render s with
      | None => None
      | Some r =>
          match runEffects r d with
          | None => None
          | Some (s', d', ran) => Some (s', d', ran, screen r)
          end
      end
  end.

(** [commit] without the host. *)
Fixpoint settle (renders : nat) (s : State) (d : Deps) : Outcome :=
  match renders with
  | O => Unsettled
  | S renders' =>
      match pass s d with
      | None => Crashed
      | Some (s', d', ran, shown) =>
          if sameHooks s s'
          then Settled {| state := s'; deps := d' |} shown
          else settle renders' s' d'
      end
  end.

(** [dispatch] after the handler, without the host: the hooks the handler
    leaves are [s]. *)
Definition resume (renders : nat) (s : State) (f : Fiber) : Outcome :=
  if sameHooks (state f) s
  then match render s with
       | Some r => Settled f (screen r)
       | None => Crashed
       end
  else settle renders s (deps f).

(** The hooks of the first render, for the generated set [initialData]
    and its first bucket. *)
Definition initialState (initialData : DayArray) (day0 : DayData) : State :=
  {| allDaysData := initialData;
     selectedDayIndex := 0;
     plantData := data day0;
     selectedMetric := Temperature;
     plantStatus := Healthy;
     dayPickerVisible := false |}.

Definition noDeps : Deps := {| dayDeps := None; statusDeps := None |}.

(** The selected day is a bucket of the generated set, which has seven. *)
Definition in_bounds (s : State) : Prop :=
  (selectedDayIndex s < length (items (allDaysData s)))%nat /\
  length (items (allDaysData s)) = 7%nat.

(** A component at rest: its last render succeeded and the dependencies
    of the effects are those of that render. *)
Definition quiescent (f : Fiber) : Prop :=
  exists r : Render,
    render (state f) = Some r /\
    dayDeps (deps f)
    = Some (selectedDayIndex (state f), array_id (allDaysData (state f))) /\
    statusDeps (deps f) = Some (object_id (currentData r)).

(** The active reading sequence is the selected bucket, and no bucket is
    empty. *)
Definition coherent (f : Fiber) : Prop :=
  quiescent f /\
  (exists day : DayData,
     nth_error (items (allDaysData (state f))) (selectedDayIndex (state f))
     = Some day /\
     plantData (state f) = data day) /\
  Forall (fun day => data day <> []) (items (allDaysData (state f))).

(** The fiber of an outcome, when the component settled. *)
Definition settledFiber (o : Outcome) : Fiber :=
  match o with
  | Settled f _ => f
  | _ => {| state := initialState {| array_id := 0; items := [] |} noDay;
            deps := noDeps |}
  end.

(** The screen of an outcome, when the component settled. *)
Definition settledScreen (o : Outcome) : option Screen :=
  match o with
  | Settled _ shown => Some shown
  | _ => None
  end.

(** The dashboard mounted on the sample host, and after some events:
    the day selector pressed, the fifth day of the picker pressed. *)
Abbreviation sampleMounted := (mount sampleHost 3 startWorld).
Abbreviation sampleFiber := (settledFiber (fst sampleMounted)).

Abbreviation sampleOpened :=
  (dispatch sampleHost 3 PressDaySelector sampleFiber (snd sampleMounted)).
Abbreviation sampleOpenedFiber := (settledFiber (fst sampleOpened)).

Abbreviation sampleDay4 :=
  (dispatch sampleHost 3 (PressDay 4) sampleOpenedFiber (snd sampleOpened)).
Abbreviation sampleDay4Fiber := (settledFiber (fst sampleDay4)).

(** The identities of the readings of a set, bucket after bucket. *)
Definition readingIds (days : DayArray) : list nat :=
  flat_map (fun day => map object_id (data day)) (items days).

(** The readings of a set. *)
Definition readings (days : DayArray) : list PlantData :=
  flat_map data (items days).

(** The objects of the set are distinct and were allocated in [w]. *)
Definition allocated (f : Fiber) (w : World) : Prop :=
  NoDup (readingIds (allDaysData (state f))) /\
  Forall (fun id => (id < next_ident w)%nat)
    (readingIds (allDaysData (state f))).

(** The status is the one of the last reading of the active sequence. *)
Definition status_tracks (s : State) : Prop :=
  exists cur : PlantData,
    lastItem (plantData s) = Some cur /\ plantStatus s = statusOf cur.

(** What the renders after an event need, to leave the status on the last
    reading of the active sequence: distinct objects, an active sequence
    that is a bucket of the set, and a status that is the one of the
    reading the second effect last saw, when this reading is in the set. *)
Definition well_identified (s : State) (d : Deps) : Prop :=
  NoDup (readingIds (allDaysData s)) /\
  (exists (k : nat) (day : DayData),
     nth_error (items (allDaysData s)) k = Some day /\
     plantData s = data day) /\
  (forall r : PlantData,
     In r (readings (allDaysData s)) ->
     statusDeps d = Some (object_id r) ->
     plantStatus s = statusOf r).

(** The offset of local time from UTC is [offset], at most a day, at every
    time from eight days before [now] to two days after it: the clocks are
    not changed in these days. *)
Definition steadyOffset (host : Host) (offset now : Z) : Prop :=
  - JSDate.msPerDay <= offset <= JSDate.msPerDay /\
  forall (t : Z) (isUTC : bool),
    now - 8 * JSDate.msPerDay <= t <= now + 2 * JSDate.msPerDay ->
    LocalTZA host t isUTC = offset.

(** The time value of 8 March 2026, 7:00 UTC, when the clocks of New York
    go from 2:00 to 3:00. *)
Definition springForward : Z :=
  JSDate.MakeDate (JSDate.MakeDay 2026 2 8) (7 * JSDate.msPerHour).

(** A host in New York, where local time is five hours behind UTC until
    [springForward] and four hours from then on; a local time the clocks
    skip is read with the offset before the change.  Its clock starts on
    8 March 2026 at 17:00 UTC. *)
Definition newYorkHost : Host :=
  {| random := random sampleHost;
     clock := fun k => springForward + 10 * JSDate.msPerHour
                       + 1000 * Z.of_nat k;
     LocalTZA := fun t isUTC =>
       if t <? (if isUTC then springForward
                else springForward - 4 * JSDate.msPerHour)
       then -5 * JSDate.msPerHour else -4 * JSDate.msPerHour;
     toLocaleTimeString := fun tv =>
       shortTime (tv + (if tv <? springForward
                        then -5 * JSDate.msPerHour
                        else -4 * JSDate.msPerHour));
     toLocaleDateString := fun tv =>
       shortDate (tv + (if tv <? springForward
                        then -5 * JSDate.msPerHour
                        else -4 * JSDate.msPerHour));
     callsAgain := callsAgain sampleHost |}.

(** The double nearest to 0.7. *)
Definition seven_tenths : Q := 3152519739159347 # 4503599627370496.

(** A draw for the k-th value out of [n]: a multiple of 1/1024 whose
    product with [n] lies between [k] and [k + 1]. *)
Definition drawFor (n k : Z) : Q :=
  ((1024 * (2 * k + 1)) / (2 * n) + 1) # 1024.


(** ** Further parts of the component *)

Record StatusInfo : Type := { icon : string; color : string }.

(** Lines 156 to 169. *)
Definition getStatusInfo (status : PlantStatus) : StatusInfo :=
  match status with
  | Healthy => {| icon := "check-circle"; color := "#22c55e" |}
  | NeedsWater => {| icon := "water-alert"; color := "#f97316" |}
  | TooHot => {| icon := "thermometer-high"; color := "#ef4444" |}
  | LowHumidity => {| icon := "water-percent-alert"; color := "#eab308" |}
  end.

(** Line 290: the suffix of the chart's vertical axis. *)
Definition yAxisSuffix (m : MetricType) : string :=
  match m with
  | Temperature => "°F"
  | _ => "%"
  end.

(** Lines 295 and 296: the colour of the legend's square. *)
Definition legendColor (m : MetricType) : string :=
  match m with
  | Temperature => "#ef4444"
  | Humidity => "#3b82f6"
  | SoilMoisture => "#92400e"
  end.

(** A button of the metric toggle: lines 233 to 258. *)
Record MetricButton : Type := {
  className : string;
  textClassName : string;
  caption : string;
  onPress : Event
}.

Definition metricButtons (m : MetricType) : list MetricButton :=
  [ {| className :=
         ("mr-2 py-1 px-3 rounded-full "
          ++ match m with Temperature => "bg-red-500" | _ => "bg-gray-200" end)
         %string;
       textClassName :=
         match m with Temperature => "text-white" | _ => "text-gray-800" end;
       caption := "Temperature";
       onPress := PressMetric Temperature |};
    {| className :=
         ("mr-2 py-1 px-3 rounded-full "
          ++ match m with Humidity => "bg-blue-500" | _ => "bg-gray-200" end)
         %string;
       textClassName :=
         match m with Humidity => "text-white" | _ => "text-gray-800" end;
       caption := "Humidity";
       onPress := PressMetric Humidity |};
    {| className :=
         ("py-1 px-3 rounded-full "
          ++ match m with
             | SoilMoisture => "bg-amber-800"
             | _ => "bg-gray-200"
             end)%string;
       textClassName :=
         match m with SoilMoisture => "text-white" | _ => "text-gray-800" end;
       caption := "Soil Moisture";
       onPress := PressMetric SoilMoisture |} ].

(** Lines 324 and 332: the row [index] of the day picker is highlighted
    and carries the check mark when [index === selectedDayIndex]. *)
Definition pickerRowChecked (s : State) (index : nat) : bool :=
  Nat.eqb index (selectedDayIndex s).

(** ** Further auxiliary definitions *)

(** The three measurements drawn from the draws [c], [c + 1], [c + 2]. *)
Definition measurementsFrom (host : Host) (c : nat) : Z * Z * Z :=
  (Math_floor (Number.multiply (random host c) 10) + 65,
   Math_floor (Number.multiply (random host (1 + c)) 20) + 50,
   Math_floor (Number.multiply (random host (2 + c)) 30) + 40).

Definition measurements (r : PlantData) : Z * Z * Z :=
  (temperature r, humidity r, soilMoisture r).

(** A set the generator returned. *)
Definition generated (host : Host) (days : DayArray) : Prop :=
  exists w : World, days = fst (generateHistoricalData host w).

(** The host formats a date by its local calendar day, whatever the time
    of day. *)
Definition dates_by_day (host : Host) : Prop :=
  forall t1 t2 : Z,
    JSDate.localDay (LocalTZA host) t1 = JSDate.localDay (LocalTZA host) t2 ->
    toLocaleDateString host t1 = toLocaleDateString host t2.

(** The value of a hexadecimal digit. *)
Definition hexDigit (c : Ascii.ascii) : option Z :=
  let n := Z.of_nat (Ascii.nat_of_ascii c) in
  if (48 <=? n) && (n <=? 57) then Some (n - 48)
  else if (97 <=? n) && (n <=? 102) then Some (n - 87)
  else None.

Definition hexByte (a b : Ascii.ascii) : option Z :=
  match hexDigit a, hexDigit b with
  | Some x, Some y => Some (16 * x + y)
  | _, _ => None
  end.

(** Red, green and blue of a colour written [#rrggbb]. *)
Definition hexColor (s : string) : option (Z * Z * Z) :=
  match s with
  | String c (String r1 (String r2 (String g1 (String g2
      (String b1 (String b2 EmptyString)))))) =>
      match hexByte r1 r2, hexByte g1 g2, hexByte b1 b2 with
      | Some r, Some g, Some b =>
          if Ascii.eqb c (Ascii.ascii_of_nat 35) then Some (r, g, b)
          else None
      | _, _, _ => None
      end
  | _ => None
  end.

(** The last class of a class name: what follows its last space. *)
Fixpoint lastWord (acc s : string) : string :=
  match s with
  | EmptyString => acc
  | String c s' =>
      if Ascii.eqb c (Ascii.ascii_of_nat 32) then lastWord EmptyString s'
      else lastWord (acc ++ String c EmptyString)%string s'
  end.

(** A button of the toggle stands out when its background is not the grey
    one. *)
Definition highlighted (b : MetricButton) : bool :=
  negb (String.eqb (lastWord EmptyString (className b)) "bg-gray-200").

(** The generator can produce the value [v] in the field [field]: some
    host whose draws are doubles of [0, 1) and some call have it in a
    reading. *)
Definition produces (field : PlantData -> Z) (v : Z) : Prop :=
  exists host w day r,
    random_in_range host /\
    In day (items (fst (generateHistoricalData host w))) /\
    In r (data day) /\ field r = v.

(** The screen [shown] presents the selected day of the hooks [s]: the
    last reading of its bucket, its label, the chart of the selected
    metric over its readings, and the rows of the day picker while the
    picker is visible. *)
Definition presents (s : State) (shown : Screen) : Prop :=
  exists (day : DayData) (cur : PlantData),
    nth_error (items (allDaysData s)) (selectedDayIndex s) = Some day /\
    lastItem (data day) = Some cur /\
    shownTemperature shown = temperature cur /\
    shownHumidity shown = humidity cur /\
    shownSoilMoisture shown = soilMoisture cur /\
    shownDay shown = label day /\
    chartInfo shown = getChartInfo (selectedMetric s) /\
    chartLine shown = chartColor (selectedMetric s) /\
    chartLabels shown = map displayTime (data day) /\
    chartValues shown = map (metricOf (selectedMetric s)) (data day) /\
    List.length (chartValues shown) = 12%nat /\
    pickerItems shown
    = (if dayPickerVisible s
       then combine (seq 0 7) (map label (items (allDaysData s)))
       else []).

(** The host formats a time by its local time of day, whatever the day. *)
Definition times_by_clock (host : Host) : Prop :=
  forall t1 t2 : Z,
    JSDate.TimeWithinDay (JSDate.LocalTime (LocalTZA host) t1)
    = JSDate.TimeWithinDay (JSDate.LocalTime (LocalTZA host) t2) ->
    toLocaleTimeString host t1 = toLocaleTimeString host t2.

(** * Properties *)

(** ** The calendar *)

Module JSDateFacts.
Import JSDate.

Lemma DayFromYear_estimate (d q : Z) :
  146097 * q <= 400 * d < 146097 * q + 146097 ->
  DayFromYear (1970 + q - 1) <= d < DayFromYear (1970 + q + 2).
Proof.
  unfold DayFromYear; intros H.
  Z.to_euclidean_division_equations; lia.
Qed.

(** [YearFromTime t] is the year [t] falls in. *)
Lemma YearFromTime_spec (t : Z) :
  DayFromYear (YearFromTime t) <= Day t < DayFromYear (YearFromTime t + 1).
Proof.
  unfold YearFromTime; cbv zeta.
  generalize (Day t); intros d.
  assert (B : 146097 * (d * 400 / 146097) <= 400 * d
              < 146097 * (d * 400 / 146097) + 146097)
    by (Z.to_euclidean_division_equations; lia).
  apply DayFromYear_estimate in B; revert B.
  generalize (d * 400 / 146097); intros q B.
  destruct (Z.ltb_spec d (DayFromYear (1970 + q))) as [L | L].
  - replace (1970 + q - 1 + 1) with (1970 + q) by lia; lia.
  - destruct (Z.leb_spec (DayFromYear (1970 + q + 1)) d) as [U | U].
    + replace (1970 + q + 1 + 1) with (1970 + q + 2) by lia; lia.
    + lia.
Qed.

Lemma DayFromYear_succ (y : Z) :
  DayFromYear (y + 1) = DayFromYear y + DaysInYear y.
Proof.
  unfold DayFromYear, DaysInYear.
  destruct (Z.eqb_spec (y mod 4) 0); cbn [negb];
    [destruct (Z.eqb_spec (y mod 100) 0); cbn [negb];
       [destruct (Z.eqb_spec (y mod 400) 0); cbn [negb]|]|];
    Z.to_euclidean_division_equations; lia.
Qed.

Lemma DayWithinYear_range (t : Z) :
  0 <= DayWithinYear t < DaysInYear (YearFromTime t).
Proof.
  unfold DayWithinYear.
  pose proof (YearFromTime_spec t) as H.
  rewrite DayFromYear_succ in H; lia.
Qed.

Lemma InLeapYear_days (t : Z) :
  DaysInYear (YearFromTime t) = 365 + InLeapYear t.
Proof.
  unfold InLeapYear, DaysInYear.
  repeat match goal with
         | |- context [negb (?a =? ?b)] =>
             destruct (Z.eqb_spec a b); cbn [negb]
         end; reflexivity.
Qed.

Lemma MonthFromTime_range (t : Z) : 0 <= MonthFromTime t <= 11.
Proof.
  unfold MonthFromTime; cbv zeta.
  repeat match goal with
         | |- context [?a <? ?b] => destruct (Z.ltb_spec a b)
         end; lia.
Qed.

(** The day of the month counts from the first day of the month. *)
Lemma DateFromTime_monthStart (t : Z) :
  DateFromTime t
  = DayWithinYear t - monthStart (MonthFromTime t) (InLeapYear t) + 1.
Proof.
  unfold DateFromTime, MonthFromTime; cbv zeta.
  repeat match goal with
         | |- context [?a <? ?b] => destruct (Z.ltb_spec a b)
         end; unfold monthStart; cbv beta iota; lia.
Qed.

Lemma DateFromTime_range (t : Z) : 1 <= DateFromTime t <= 31.
Proof.
  pose proof (DayWithinYear_range t) as R.
  rewrite InLeapYear_days in R.
  assert (L : 0 <= InLeapYear t <= 1)
    by (unfold InLeapYear; destruct (_ =? _); lia).
  unfold DateFromTime, MonthFromTime; cbv zeta.
  repeat match goal with
         | |- context [?a <? ?b] => destruct (Z.ltb_spec a b)
         end; cbv beta iota; lia.
Qed.

(** The day [MakeDay] finds for a date of the month of [t]. *)
Lemma MakeDay_same_month (t date : Z) :
  MakeDay (YearFromTime t) (MonthFromTime t) date
  = Day t - DateFromTime t + date.
Proof.
  pose proof (MonthFromTime_range t) as R.
  unfold MakeDay; cbv zeta.
  rewrite Z.div_small, Z.mod_small by lia.
  rewrite Z.add_0_r, DateFromTime_monthStart.
  fold (InLeapYear t); unfold DayWithinYear; lia.
Qed.

Lemma Day_MakeDate (day time : Z) :
  0 <= time < msPerDay -> Day (MakeDate day time) = day.
Proof.
  unfold Day, MakeDate, msPerDay; intros H.
  Z.to_euclidean_division_equations; lia.
Qed.

Lemma TimeWithinDay_MakeDate (day time : Z) :
  0 <= time < msPerDay -> TimeWithinDay (MakeDate day time) = time.
Proof.
  unfold TimeWithinDay, MakeDate, msPerDay; intros H.
  Z.to_euclidean_division_equations; lia.
Qed.

Lemma HourFromTime_MakeDate (day hour : Z) :
  0 <= hour < 24 -> HourFromTime (MakeDate day (hour * msPerHour)) = hour.
Proof.
  unfold HourFromTime, MakeDate, msPerDay, msPerHour; intros H.
  replace (day * 86400000 + hour * 3600000)
    with ((24 * day + hour) * 3600000) by lia.
  rewrite Z.div_mul by lia.
  Z.to_euclidean_division_equations; lia.
Qed.

Lemma TimeWithinDay_range (t : Z) : 0 <= TimeWithinDay t < msPerDay.
Proof. unfold TimeWithinDay, msPerDay; apply Z.mod_pos_bound; lia. Qed.

Lemma MakeDate_Day (t : Z) : MakeDate (Day t) (TimeWithinDay t) = t.
Proof.
  unfold MakeDate, Day, TimeWithinDay, msPerDay.
  Z.to_euclidean_division_equations; lia.
Qed.

Lemma Day_minus_days (t k : Z) : Day (t - k * msPerDay) = Day t - k.
Proof.
  unfold Day, msPerDay; Z.to_euclidean_division_equations; lia.
Qed.

(** An hour of the day of [t] is less than a day from [t]. *)
Lemma hour_of_day_near (t hour : Z) :
  0 <= hour < 24 ->
  t - msPerDay < MakeDate (Day t) (hour * msPerHour) < t + msPerDay.
Proof.
  unfold MakeDate, Day, msPerDay, msPerHour; intros H.
  Z.to_euclidean_division_equations; lia.
Qed.

Section LocalTimeZone.

(** A time zone whose offset is [offset] from [from] to [to]. *)
Variable tza : Z -> bool -> Z.
Variables offset from to : Z.
Hypothesis steady :
  forall (t : Z) (isUTC : bool), from <= t <= to -> tza t isUTC = offset.

Lemma LocalTime_steady (t : Z) :
  from <= t <= to -> LocalTime tza t = t + offset.
Proof. intros H; unfold LocalTime; now rewrite steady. Qed.

Lemma UTC_steady (t : Z) : from <= t <= to -> UTC tza t = t - offset.
Proof. intros H; unfold UTC; now rewrite steady. Qed.

Lemma localDay_steady (t : Z) :
  from <= t <= to -> localDay tza t = Day (t + offset).
Proof. intros H; unfold localDay; now rewrite LocalTime_steady. Qed.

(** [date.setDate (date.getDate () - k)] goes back [k] days and keeps the
    time of day. *)
Lemma setDate_getDate_minus (tv k : Z) :
  from <= tv <= to ->
  from <= tv + offset - k * msPerDay <= to ->
  setDate tza tv (getDate tza tv - k) = tv - k * msPerDay.
Proof.
  intros H1 H2; unfold setDate, getDate; cbv zeta.
  rewrite (LocalTime_steady tv H1), MakeDay_same_month.
  replace (Day (tv + offset) - DateFromTime (tv + offset)
           + (DateFromTime (tv + offset) - k))
    with (Day (tv + offset) - k) by lia.
  assert (E : MakeDate (Day (tv + offset) - k)
                (TimeWithinDay (tv + offset))
              = tv + offset - k * msPerDay).
  { rewrite <- (MakeDate_Day (tv + offset)) at 3.
    unfold MakeDate; lia. }
  rewrite E, UTC_steady by exact H2; lia.
Qed.

(** [datetime.setHours (hour, 0, 0, 0)] is [hour] o'clock of the same local
    day. *)
Lemma setHours_steady (tv hour : Z) :
  0 <= hour < 24 ->
  from <= tv <= to ->
  from <= tv + offset - msPerDay -> tv + offset + msPerDay <= to ->
  setHours tza tv hour 0 0 0
  = MakeDate (Day (tv + offset)) (hour * msPerHour) - offset.
Proof.
  intros Hh H1 H2 H3; unfold setHours, MakeTime; cbv zeta.
  rewrite (LocalTime_steady tv H1).
  replace (hour * msPerHour + 0 * msPerMinute + 0 * msPerSecond + 0)
    with (hour * msPerHour) by lia.
  pose proof (hour_of_day_near (tv + offset) hour Hh) as N.
  rewrite UTC_steady by lia; reflexivity.
Qed.

End LocalTimeZone.

End JSDateFacts.

(** ** Numbers *)

Module NumberFacts.
Import Number.

Lemma pow2_pos (e : Z) : (0 < pow2 e)%Q.
Proof. apply Qpower_0_lt; reflexivity. Qed.

Lemma pow2_add (a b : Z) : (pow2 (a + b) == pow2 a * pow2 b)%Q.
Proof. apply Qpower_plus; discriminate. Qed.

Lemma pow2_lt (a b : Z) : a < b -> (pow2 a < pow2 b)%Q.
Proof. intros H; apply Qpower_lt_compat_l; [exact H | reflexivity]. Qed.

Lemma pow2_le (a b : Z) : a <= b -> (pow2 a <= pow2 b)%Q.
Proof. intros H; apply Qpower_le_compat_l; [exact H | discriminate]. Qed.

Lemma pow2_lt_inv (a b : Z) : (pow2 a < pow2 b)%Q -> a < b.
Proof.
  intros H; destruct (Z.lt_ge_cases a b) as [L|L]; [exact L|].
  apply pow2_le in L; lra.
Qed.

Lemma pow2_nonneg (e : Z) : 0 <= e -> (pow2 e == inject_Z (2 ^ e))%Q.
Proof. intros H; symmetry; exact (Zpower_Qpower 2 e H). Qed.

(** A positive rational lies between the powers of two that the sizes of
    its numerator and of its denominator give. *)
Lemma exponent_estimate (q : Q) :
  (0 < q)%Q ->
  let e := Z.log2 (Qnum q) - Z.log2 (Z.pos (Qden q)) in
  (pow2 (e - 1) < q)%Q /\ (q < pow2 (e + 1))%Q.
Proof.
  intros H; cbv zeta.
  destruct q as [a b]; cbn [Qnum Qden].
  assert (Ha : 0 < a) by (unfold Qlt in H; cbn in H; lia).
  pose proof (Z.log2_spec a Ha) as [La Ua].
  pose proof (Z.log2_spec (Z.pos b) (Pos2Z.is_pos b)) as [Lb Ub].
  pose proof (Z.log2_nonneg a) as Na.
  pose proof (Z.log2_nonneg (Z.pos b)) as Nb.
  revert La Ua Lb Ub Na Nb.
  generalize (Z.log2 a), (Z.log2 (Z.pos b)); intros la lb La Ua Lb Ub Na Nb.
  assert (Ea : (pow2 la == inject_Z (2 ^ la))%Q) by now apply pow2_nonneg.
  assert (Eb : (pow2 lb == inject_Z (2 ^ lb))%Q) by now apply pow2_nonneg.
  assert (Qa : (inject_Z (2 ^ la) <= inject_Z a)%Q)
    by (rewrite <- Zle_Qle; exact La).
  assert (Qa' : (inject_Z a < 2 * inject_Z (2 ^ la))%Q).
  { replace (2 ^ Z.succ la) with (2 * 2 ^ la) in Ua
      by (rewrite Z.pow_succ_r; lia).
    rewrite Zlt_Qlt, inject_Z_mult in Ua; exact Ua. }
  assert (Qb : (inject_Z (2 ^ lb) <= inject_Z (Z.pos b))%Q)
    by (rewrite <- Zle_Qle; exact Lb).
  assert (Qb' : (inject_Z (Z.pos b) < 2 * inject_Z (2 ^ lb))%Q).
  { replace (2 ^ Z.succ lb) with (2 * 2 ^ lb) in Ub
      by (rewrite Z.pow_succ_r; lia).
    rewrite Zlt_Qlt, inject_Z_mult in Ub; exact Ub. }
  assert (Eq : (a # b == inject_Z a / inject_Z (Z.pos b))%Q)
    by apply Qmake_Qdiv.
  pose proof (pow2_pos la) as Pa; pose proof (pow2_pos lb) as Pb.
  assert (P1 : (pow2 (la - lb - 1) * (2 * pow2 lb) == pow2 la)%Q).
  { replace (la - lb - 1) with (la + (- lb + -1)) by lia.
    rewrite !pow2_add.
    assert (I : (pow2 (- lb) * pow2 lb == 1)%Q)
      by (rewrite <- pow2_add; replace (- lb + lb) with 0 by lia;
          reflexivity).
    change (pow2 (-1)) with (1 # 2)%Q.
    transitivity (pow2 la * (pow2 (- lb) * pow2 lb))%Q; [ring|].
    rewrite I; ring. }
  assert (P2 : (pow2 (la - lb + 1) * pow2 lb == 2 * pow2 la)%Q).
  { replace (la - lb + 1) with (la + (- lb + 1)) by lia.
    rewrite !pow2_add.
    assert (I : (pow2 (- lb) * pow2 lb == 1)%Q)
      by (rewrite <- pow2_add; replace (- lb + lb) with 0 by lia;
          reflexivity).
    change (pow2 1) with 2%Q.
    transitivity (2 * pow2 la * (pow2 (- lb) * pow2 lb))%Q; [ring|].
    rewrite I; ring. }
  pose proof (pow2_pos (la - lb - 1)) as Q1.
  pose proof (pow2_pos (la - lb + 1)) as Q2.
  rewrite Ea in *; rewrite Eb in *.
  revert P1 P2 Q1 Q2.
  generalize (pow2 (la - lb - 1)), (pow2 (la - lb + 1)); intros x1 x2.
  intros P1 P2 Q1 Q2.
  assert (Bp : (0 < inject_Z (Z.pos b))%Q) by lra.
  rewrite Eq; split.
  - apply Qlt_shift_div_l; [exact Bp|]. nra.
  - apply Qlt_shift_div_r; [exact Bp|]. nra.
Qed.

(** The exponent of a positive rational. *)
Lemma exponent_spec (q : Q) :
  (0 < q)%Q ->
  (pow2 (exponent q) <= q)%Q /\ (q < pow2 (exponent q + 1))%Q.
Proof.
  intros H; pose proof (exponent_estimate q H) as [L U].
  unfold exponent; cbv zeta in *.
  revert L U.
  generalize (Z.log2 (Qnum q) - Z.log2 (Z.pos (Qden q))); intros e L U.
  destruct (Qle_bool (pow2 e) q) eqn:E.
  - apply Qle_bool_iff in E; split; assumption.
  - replace (e - 1 + 1) with e by lia.
    split; [lra|].
    apply Qnot_le_lt; intros C; apply Qle_bool_iff in C; congruence.
Qed.

Lemma exponent_unique (q : Q) (e : Z) :
  (pow2 e <= q)%Q -> (q < pow2 (e + 1))%Q -> exponent q = e.
Proof.
  intros L U.
  assert (H : (0 < q)%Q) by (pose proof (pow2_pos e); lra).
  destruct (exponent_spec q H) as [L' U'].
  assert (A : exponent q < e + 1) by (apply pow2_lt_inv; lra).
  assert (B : e < exponent q + 1) by (apply pow2_lt_inv; lra).
  lia.
Qed.

Lemma roundHalfEven_choice (y : Q) :
  (roundHalfEven y = Qfloor y /\ (y - inject_Z (Qfloor y) <= 1 # 2)%Q) \/
  (roundHalfEven y = Qfloor y + 1 /\ (1 # 2 <= y - inject_Z (Qfloor y))%Q).
Proof.
  unfold roundHalfEven; cbv zeta.
  destruct (Qcompare_spec (y - inject_Z (Qfloor y)) (1 # 2)) as [E|E|E].
  - destruct (Z.even (Qfloor y)); [left | right]; split; lra || reflexivity.
  - left; split; [reflexivity | lra].
  - right; split; [reflexivity | lra].
Qed.

Lemma roundHalfEven_nonneg (y : Q) : (0 <= y)%Q -> 0 <= roundHalfEven y.
Proof.
  intros H.
  assert (F : 0 <= Qfloor y)
    by (rewrite <- (Qfloor_Z 0); now apply Qfloor_resp_le).
  destruct (roundHalfEven_choice y) as [[-> _]|[-> _]]; lia.
Qed.

(** A rational more than one half below an integer is rounded below it. *)
Lemma roundHalfEven_below (y : Q) (N : Z) :
  (y < inject_Z N - (1 # 2))%Q -> roundHalfEven y <= N - 1.
Proof.
  intros H.
  pose proof (Qfloor_le y) as F.
  destruct (roundHalfEven_choice y) as [[-> _]|[-> G]].
  - assert (L : (inject_Z (Qfloor y) < inject_Z N)%Q) by lra.
    rewrite <- Zlt_Qlt in L; lia.
  - assert (L : (inject_Z (Qfloor y) < inject_Z (N - 1))%Q).
    { unfold Z.sub; rewrite inject_Z_plus; cbn [inject_Z Z.opp].
      change (inject_Z (-1)) with (-1 # 1)%Q || idtac. lra. }
    rewrite <- Zlt_Qlt in L; lia.
Qed.

Lemma round_positive (q : Q) :
  (0 < q)%Q ->
  round q = (inject_Z (roundHalfEven (q / ulp q)) * ulp q)%Q.
Proof.
  intros H; unfold round.
  destruct (Qcompare_spec q 0) as [E|E|E]; [lra | lra | reflexivity].
Qed.

Lemma round_zero (q : Q) : (q == 0)%Q -> round q = 0%Q.
Proof.
  intros H; unfold round.
  destruct (Qcompare_spec q 0) as [E|E|E]; [reflexivity | lra | lra].
Qed.

Lemma round_nonneg (q : Q) : (0 <= q)%Q -> (0 <= round q)%Q.
Proof.
  intros H; destruct (Qlt_le_dec 0 q) as [P|P].
  - rewrite (round_positive q P).
    pose proof (pow2_pos (Z.max (exponent q) (-1022) - 52)) as U.
    fold (ulp q) in U.
    assert (Z0 : (0 <= q / ulp q)%Q)
      by (apply Qle_shift_div_l; [exact U | lra]).
    apply roundHalfEven_nonneg in Z0.
    rewrite Zle_Qle in Z0.
    apply Qmult_le_0_compat; [exact Z0 | lra].
  - rewrite round_zero; lra.
Qed.

(** A double below one is at most [1 - 2 ^ -53]. *)
Lemma number_below_one (x : Q) :
  isNumber x -> (0 <= x)%Q -> (x < 1)%Q -> (x <= 1 - pow2 (-53))%Q.
Proof.
  intros N L U.
  change (pow2 (-53)) with (1 # 9007199254740992)%Q.
  destruct (Qlt_le_dec x (1 # 2)) as [S|S]; [lra|].
  assert (P : (0 < x)%Q) by lra.
  assert (E : exponent x = -1)
    by (apply exponent_unique; [exact S | exact U]).
  unfold isNumber in N; rewrite (round_positive x P) in N.
  unfold ulp in N; rewrite E in N.
  change (pow2 (Z.max (-1) (-1022) - 52))
    with (1 # 9007199254740992)%Q in N.
  revert N; generalize (roundHalfEven (x / (1 # 9007199254740992))).
  intros m N.
  assert (M : m < 9007199254740992).
  { rewrite Zlt_Qlt.
    change (inject_Z 9007199254740992) with (9007199254740992 # 1)%Q.
    lra. }
  assert (M' : (inject_Z m <= inject_Z 9007199254740991)%Q)
    by (rewrite <- Zle_Qle; lia).
  change (inject_Z 9007199254740991) with (9007199254740991 # 1)%Q in M'.
  lra.
Qed.

(** The product of a double below one with a whole number [n] is rounded
    below [n]: its floor is among [0 .. n - 1]. *)
Lemma floor_of_product (x : Q) (n : Z) :
  isNumber x -> (0 <= x)%Q -> (x < 1)%Q ->
  1 <= n <= 2 ^ 52 ->
  0 <= Qfloor (multiply x (inject_Z n)) <= n - 1.
Proof.
  intros Nx L U Hn.
  pose proof (number_below_one x Nx L U) as B.
  change (pow2 (-53)) with (1 # 9007199254740992)%Q in B.
  assert (Qn : (1 <= inject_Z n)%Q)
    by (change 1%Q with (inject_Z 1); rewrite <- Zle_Qle; lia).
  assert (Qn' : (inject_Z n <= inject_Z (2 ^ 52))%Q)
    by (rewrite <- Zle_Qle; lia).
  change (inject_Z (2 ^ 52)) with (4503599627370496 # 1)%Q in Qn'.
  unfold multiply.
  assert (Y0 : (0 <= x * inject_Z n)%Q) by nra.
  assert (Y1 : (x * inject_Z n
                <= inject_Z n - inject_Z n * (1 # 9007199254740992))%Q)
    by nra.
  revert Y0 Y1; generalize (x * inject_Z n)%Q; intros y Y0 Y1.
  split.
  - rewrite <- (Qfloor_Z 0); apply Qfloor_resp_le, round_nonneg, Y0.
  - destruct (Qlt_le_dec 0 y) as [P|P];
      [|rewrite round_zero by lra; cbn; lia].
    rewrite (round_positive y P).
    destruct (exponent_spec y P) as [El Eu].
    unfold ulp.
    set (e := Z.max (exponent y) (-1022)).
    assert (Pe : (pow2 e < inject_Z n)%Q).
    { unfold e; destruct (Z.max_spec (exponent y) (-1022)) as [[_ ->]|[_ ->]].
      - change (pow2 (-1022)) with (/ inject_Z (2 ^ 1022))%Q.
        assert (I : (/ inject_Z (2 ^ 1022) < 1)%Q) by reflexivity.
        lra.
      - lra. }
    assert (He : e < 52).
    { apply pow2_lt_inv.
      change (pow2 52) with (4503599627370496 # 1)%Q; lra. }
    assert (Eu52 : (pow2 e == pow2 (e - 52) * (4503599627370496 # 1))%Q).
    { change (4503599627370496 # 1)%Q with (pow2 52).
      rewrite <- pow2_add; now replace (e - 52 + 52) with e by lia. }
    assert (EN : (inject_Z (n * 2 ^ (52 - e)) * pow2 (e - 52)
                  == inject_Z n)%Q).
    { rewrite inject_Z_mult, <- pow2_nonneg by lia.
      transitivity (inject_Z n * (pow2 (52 - e) * pow2 (e - 52)))%Q;
        [ring|].
      rewrite <- pow2_add; replace (52 - e + (e - 52)) with 0 by lia.
      change (pow2 0) with 1%Q; ring. }
    pose proof (pow2_pos (e - 52)) as Pu.
    revert Eu52 EN Pu; generalize (pow2 (e - 52)); intros u Eu52 EN Pu.
    clear El Eu.
    revert EN; generalize (n * 2 ^ (52 - e)); intros Nz EN.
    assert (R : roundHalfEven (y / u) <= Nz - 1).
    { apply roundHalfEven_below.
      apply Qlt_shift_div_r; [exact Pu|].
      revert EN; generalize (inject_Z Nz); intros N EN.
      nra. }
    rewrite Zle_Qle in R.
    unfold Z.sub in R; rewrite inject_Z_plus in R.
    change (inject_Z (- (1))) with (- (1))%Q in R.
    revert R EN.
    generalize (inject_Z (roundHalfEven (y / u))).
    generalize (inject_Z Nz); intros N m R EN.
    assert (T : (m * u < inject_Z n)%Q).
    { assert (X : (m * u <= (N + - (1)) * u)%Q)
        by (apply Qmult_le_compat_r; lra).
      assert (X' : ((N + - (1)) * u == N * u - u)%Q) by ring.
      lra. }
    assert (F : Qfloor (m * u) < n).
    { rewrite Zlt_Qlt.
      pose proof (Qfloor_le (m * u)); lra. }
    lia.
Qed.

End NumberFacts.

(** ** Running a host computation *)

Lemma run_bind {A B : Type} (m : M A) (k : A -> M B) (w : World) :
  bind m k w = k (fst (m w)) (snd (m w)).
Proof. unfold bind; destruct (m w); reflexivity. Qed.

Lemma run_ret {A : Type} (a : A) (w : World) : ret a w = (a, w).
Proof. reflexivity. Qed.

Lemma fst_pair {A B : Type} (a : A) (b : B) : fst (a, b) = a.
Proof. reflexivity. Qed.

Lemma snd_pair {A B : Type} (a : A) (b : B) : snd (a, b) = b.
Proof. reflexivity. Qed.

(** ** Loops *)

Section Loops.

Context {S : Type}.
Variables (stop step : Z) (body : Z -> S -> M S).
Hypothesis step_positive : 0 < step.

(** Iterations beyond [iterations_left] are never used. *)
Lemma for_upto_enough (n m : nat) :
  forall (i : Z) (s : S) (w : World),
    (iterations_left stop i <= n)%nat ->
    (iterations_left stop i <= m)%nat ->
    for_upto n i stop step body s w = for_upto m i stop step body s w.
Proof.
  revert m; induction n as [|n IH]; intros [|m] i s w Hn Hm; simpl.
  - reflexivity.
  - destruct (Z.ltb_spec i stop); [unfold iterations_left in *; lia | easy].
  - destruct (Z.ltb_spec i stop); [unfold iterations_left in *; lia | easy].
  - destruct (Z.ltb_spec i stop) as [L | L]; [|reflexivity].
    unfold bind; destruct (body i s w) as [s' w'].
    apply IH; unfold iterations_left in *; lia.
Qed.

(** The equation of the loop: test, body, increment, and again. *)
Lemma for_loop_unfold (i : Z) (s : S) (w : World) :
  for_loop i stop step body s w
  = if i <? stop
    then (s' <- body i s ;; for_loop (i + step) stop step body s') w
    else (s, w).
Proof.
  unfold for_loop.
  destruct (iterations_left stop i) as [|n] eqn:E; simpl.
  - destruct (Z.ltb_spec i stop); [unfold iterations_left in *; lia | easy].
  - destruct (Z.ltb_spec i stop) as [L | L]; [|reflexivity].
    unfold bind; destruct (body i s w) as [s' w'].
    apply for_upto_enough; unfold iterations_left in *; lia.
Qed.

End Loops.

Section PushLoops.

Context {A : Type}.
Variable f : Z -> M A.

Lemma for_upto_push (stop step : Z) (n : nat) :
  forall (i : Z) (array : list A) (w : World),
    for_upto n i stop step (fun i array => x <- f i ;; ret (push array x))
      array w
    = (array ++ fst (collect f (indices_upto n i stop step) w),
       snd (collect f (indices_upto n i stop step) w)).
Proof.
  induction n as [|n IH]; intros i array w; simpl.
  - unfold ret; simpl; now rewrite app_nil_r.
  - destruct (i <? stop); simpl; [|unfold ret; simpl; now rewrite app_nil_r].
    unfold bind, ret; destruct (f i w) as [x w1].
    rewrite IH; unfold push.
    destruct (collect f (indices_upto n (i + step) stop step) w1); simpl.
    now rewrite <- app_assoc.
Qed.

(** A loop that pushes one value for each index fills the array with the
    values for the loop's indices. *)
Lemma for_loop_push (start stop step : Z) (w : World) :
  for_loop start stop step (fun i array => x <- f i ;; ret (push array x))
    [] w
  = collect f (loop_indices start stop step) w.
Proof.
  unfold for_loop, loop_indices; rewrite for_upto_push.
  rewrite app_nil_l; destruct (collect f _ w); reflexivity.
Qed.

Lemma collect_length (l : list Z) :
  forall w : World, length (fst (collect f l w)) = length l.
Proof.
  induction l as [|i l IH]; intros w; simpl; [reflexivity|].
  unfold bind; destruct (f i w) as [x w1].
  specialize (IH w1); destruct (collect f l w1); simpl in *.
  now rewrite IH.
Qed.

(** The k-th value collected is the value of [f] at the k-th index, in some
    world. *)
Lemma collect_Forall2 (l : list Z) :
  forall w : World,
    Forall2 (fun i x => exists w', x = fst (f i w')) l (fst (collect f l w)).
Proof.
  induction l as [|i l IH]; intros w; simpl; [constructor|].
  unfold bind; destruct (f i w) as [x w1] eqn:E.
  specialize (IH w1); destruct (collect f l w1); simpl in *.
  constructor; [exists w; now rewrite E | assumption].
Qed.

Lemma collect_In (l : list Z) (w : World) (x : A) :
  In x (fst (collect f l w)) ->
  exists i w', In i l /\ x = fst (f i w').
Proof.
  intros H; pose proof (collect_Forall2 l w) as F.
  induction F as [|i y l ys [w' ->] F IH]; simpl in *; [easy|].
  destruct H as [<- | H]; [now exists i, w'; split; [left|]|].
  destruct (IH H) as (j & w'' & Hj & ->); exists j, w''; auto.
Qed.

Lemma collect_map {B : Type} (g : A -> B) (h : Z -> B) (l : list Z)
  (w : World) :
  (forall i w', g (fst (f i w')) = h i) ->
  map g (fst (collect f l w)) = map h l.
Proof.
  intros H; pose proof (collect_Forall2 l w) as F.
  induction F as [|i y l ys [w' ->] F IH]; simpl; [reflexivity|].
  now rewrite H, IH.
Qed.

Lemma collect_map_In {B : Type} (g : A -> B) (h : Z -> B) (l : list Z)
  (w : World) :
  (forall i w', In i l -> g (fst (f i w')) = h i) ->
  map g (fst (collect f l w)) = map h l.
Proof.
  intros H; pose proof (collect_Forall2 l w) as F.
  induction F as [|i y l ys [w' ->] F IH]; cbn [map]; [reflexivity|].
  rewrite H, IH; [reflexivity | | now left].
  intros j w'' Hj; apply H; now right.
Qed.

End PushLoops.

(** ** The generator *)

Section GeneratorFacts.

Variable host : Host.

Lemma hour_loop_indices : loop_indices 0 24 2 = hours.
Proof. reflexivity. Qed.

Lemma day_loop_indices : loop_indices 0 7 1 = dayOffsets.
Proof. reflexivity. Qed.

Lemma newDay_data (now dayOffset : Z) (w : World) :
  data (fst (newDay host now dayOffset w))
  = fst (collect (newReading host (bucketDate host now dayOffset)) hours w).
Proof.
  unfold newDay, bucketDate; cbv zeta.
  rewrite run_bind, run_ret, for_loop_push, hour_loop_indices.
  reflexivity.
Qed.

Lemma newDay_label (now dayOffset : Z) (w : World) :
  label (fst (newDay host now dayOffset w))
  = toLocaleDateString host (bucketDate host now dayOffset).
Proof.
  unfold newDay, bucketDate; cbv zeta.
  rewrite run_bind, run_ret; reflexivity.
Qed.

Lemma generateHistoricalData_items (w : World) :
  items (fst (generateHistoricalData host w))
  = fst (collect (newDay host (clock host (clock_reads w))) dayOffsets
           (afterSetup w)).
Proof.
  unfold generateHistoricalData.
  rewrite !run_bind, run_ret, for_loop_push, day_loop_indices.
  reflexivity.
Qed.

Lemma generateHistoricalData_array_id (w : World) :
  array_id (fst (generateHistoricalData host w)) = next_ident w.
Proof.
  unfold generateHistoricalData.
  rewrite !run_bind, run_ret; reflexivity.
Qed.

(** Every reading of the generated set comes from the object literal of the
    inner loop, for a bucket and an hour of the two loops. *)
Lemma generated_reading (w : World) (day : DayData) (r : PlantData) :
  In day (items (fst (generateHistoricalData host w))) ->
  In r (data day) ->
  exists dayOffset hour w',
    In dayOffset dayOffsets /\ In hour hours /\
    r = fst (newReading host
               (bucketDate host (clock host (clock_reads w)) dayOffset)
               hour w').
Proof.
  rewrite generateHistoricalData_items; intros Hd Hr.
  apply collect_In in Hd; destruct Hd as (k & w1 & Hk & ->).
  rewrite newDay_data in Hr.
  apply collect_In in Hr; destruct Hr as (hour & w2 & Hh & ->).
  now exists k, hour, w2.
Qed.

End GeneratorFacts.

(** ** The readings *)

Section ReadingFacts.

Variable host : Host.

Lemma newReading_object_id (date hour : Z) (w : World) :
  object_id (fst (newReading host date hour w)) = next_ident w.
Proof. unfold newReading; cbv zeta; rewrite !run_bind; reflexivity. Qed.

Lemma newReading_datetime (date hour : Z) (w : World) :
  datetime (fst (newReading host date hour w))
  = JSDate.setHours (LocalTZA host) date hour 0 0 0.
Proof. unfold newReading; cbv zeta; rewrite !run_bind; reflexivity. Qed.

Lemma newReading_temperature (date hour : Z) (w : World) :
  temperature (fst (newReading host date hour w))
  = Math_floor (Number.multiply (random host (random_calls w)) 10) + 65.
Proof. unfold newReading; cbv zeta; rewrite !run_bind; reflexivity. Qed.

Lemma newReading_humidity (date hour : Z) (w : World) :
  humidity (fst (newReading host date hour w))
  = Math_floor (Number.multiply (random host (1 + random_calls w)) 20) + 50.
Proof. unfold newReading; cbv zeta; rewrite !run_bind; reflexivity. Qed.

Lemma newReading_soilMoisture (date hour : Z) (w : World) :
  soilMoisture (fst (newReading host date hour w))
  = Math_floor (Number.multiply (random host (2 + random_calls w)) 30) + 40.
Proof. unfold newReading; cbv zeta; rewrite !run_bind; reflexivity. Qed.

End ReadingFacts.

(** [Math.floor (Math.random () * n)] is one of [0 .. n - 1]. *)
Lemma floor_of_draw (x : Q) (n : positive) :
  Number.isNumber x -> (0 <= x)%Q -> (x < 1)%Q ->
  (Z.pos n <=? 2 ^ 52) = true ->
  0 <= Math_floor (Number.multiply x (Z.pos n # 1)) <= Z.pos n - 1.
Proof.
  intros N H0 H1 Hn; apply Z.leb_le in Hn.
  apply (NumberFacts.floor_of_product x (Z.pos n) N H0 H1); lia.
Qed.

(** The ranges the generator draws from: ten, twenty and thirty values. *)
Lemma generated_ranges (host : Host) (w : World) (day : DayData)
  (r : PlantData) :
  random_in_range host ->
  In day (items (fst (generateHistoricalData host w))) ->
  In r (data day) ->
  65 <= temperature r <= 74 /\
  50 <= humidity r <= 69 /\
  40 <= soilMoisture r <= 69.
Proof.
  intros R Hd Hr.
  destruct (generated_reading host w day r Hd Hr)
    as (dayOffset & hour & w' & _ & _ & ->).
  rewrite newReading_temperature, newReading_humidity,
    newReading_soilMoisture.
  pose proof (R (random_calls w')) as (A0 & A1 & A2).
  pose proof (R (1 + random_calls w')%nat) as (B0 & B1 & B2).
  pose proof (R (2 + random_calls w')%nat) as (C0 & C1 & C2).
  clear R.
  pose proof (floor_of_draw _ 10 A0 A1 A2 eq_refl).
  pose proof (floor_of_draw _ 20 B0 B1 B2 eq_refl).
  pose proof (floor_of_draw _ 30 C0 C1 C2 eq_refl).
  lia.
Qed.

(** ** The sample hosts *)

(** The multiples of 1/128 in [[0,1)] are doubles. *)
Lemma isNumber_128 (m : Z) : 0 <= m < 128 -> Number.isNumber (m # 128).
Proof.
  intros H.
  assert (F : forallb
                (fun k => Qeq_bool (Number.round (Z.of_nat k # 128))
                            (Z.of_nat k # 128)) (seq 0 128) = true)
    by (vm_compute; reflexivity).
  rewrite forallb_forall in F.
  specialize (F (Z.to_nat m)); rewrite Z2Nat.id in F by lia.
  apply Qeq_bool_iff, F, in_seq; lia.
Qed.

Lemma sampleHost_in_range : random_in_range sampleHost.
Proof.
  intros k; unfold sampleHost; cbn [random].
  pose proof (Z.mod_pos_bound (47 * Z.of_nat k) 128 ltac:(lia)) as B.
  split; [apply isNumber_128; exact B|].
  unfold Qle, Qlt; cbn [Qnum Qden]; lia.
Qed.

Lemma constantHost_in_range (x : Q) :
  Number.isNumber x -> (0 <= x)%Q -> (x < 1)%Q ->
  random_in_range (constantHost x).
Proof. intros N H0 H1 k; repeat split; assumption. Qed.

Lemma readingAt_In (days : DayArray) (i j : nat) :
  (i < length (items days))%nat ->
  (j < length (data (nth i (items days) noDay)))%nat ->
  In (nth i (items days) noDay) (items days) /\
  In (readingAt days i j) (data (nth i (items days) noDay)).
Proof. intros Hi Hj; split; apply nth_In; assumption. Qed.

(** ** The status classifier *)

(** C1. The status the second effect sets is a function of the reading
    alone, fixed by three thresholds taken in order: soil moisture below 45
    is needs-water; otherwise temperature above 75 is too-hot; otherwise
    humidity below 55 is low-humidity; otherwise healthy.  The effect
    changes no other hook.  In particular soil moisture 40 gives
    needs-water whatever the other fields are, (50, 80) gives too-hot,
    (50, 70, 50) low-humidity and (50, 70, 60) healthy. *)
Theorem status_classifier_thresholds (r : PlantData) (s : State) :
  let status := plantStatus (statusEffect r s) in
  (soilMoisture r < 45 -> status = NeedsWater) /\
  (45 <= soilMoisture r -> 75 < temperature r -> status = TooHot) /\
  (45 <= soilMoisture r -> temperature r <= 75 -> humidity r < 55 ->
   status = LowHumidity) /\
  (45 <= soilMoisture r -> temperature r <= 75 -> 55 <= humidity r ->
   status = Healthy) /\
  (forall s' : State,
     plantStatus (statusEffect r s') = status) /\
  statusEffect r s = setPlantStatus status s /\
  (soilMoisture r = 40 -> status = NeedsWater) /\
  (soilMoisture r = 50 -> temperature r = 80 -> status = TooHot) /\
  (soilMoisture r = 50 -> temperature r = 70 -> humidity r = 50 ->
   status = LowHumidity) /\
  (soilMoisture r = 50 -> temperature r = 70 -> humidity r = 60 ->
   status = Healthy).
Proof.
  cbv zeta; unfold statusEffect.
  destruct (Z.ltb_spec (soilMoisture r) 45);
    [|destruct (Z.gtb_spec (temperature r) 75);
      [|destruct (Z.ltb_spec (humidity r) 55)]];
    cbn [plantStatus setPlantStatus];
    repeat split; intros; try reflexivity; lia.
Qed.

(** ** The generated set *)

(** The shape of a generated set. *)
Lemma generated_shape (host : Host) (w : World) :
  length (items (fst (generateHistoricalData host w))) = 7%nat /\
  Forall (fun day => length (data day) = 12%nat)
    (items (fst (generateHistoricalData host w))).
Proof.
  rewrite generateHistoricalData_items; split.
  - now rewrite collect_length.
  - apply Forall_forall; intros day Hd.
    apply collect_In in Hd; destruct Hd as (k & w' & _ & ->).
    now rewrite newDay_data, collect_length.
Qed.

Lemma generated_nonempty (host : Host) (w : World) :
  Forall (fun day => data day <> [])
    (items (fst (generateHistoricalData host w))).
Proof.
  destruct (generated_shape host w) as [_ F].
  revert F; apply Forall_impl; intros day L E.
  rewrite E in L; discriminate L.
Qed.

(** C3. A call of the generator returns seven buckets of twelve readings
    each. *)
Theorem generated_seven_buckets_of_twelve (host : Host) (w : World) :
  length (items (fst (generateHistoricalData host w))) = 7%nat /\
  Forall (fun day => length (data day) = 12%nat)
    (items (fst (generateHistoricalData host w))).
Proof.
  pose proof (generateHistoricalData_items host w) as I.
  split.
  - rewrite I, collect_length; reflexivity.
  - apply Forall_forall; intros day Hd.
    rewrite I in Hd; apply collect_In in Hd.
    destruct Hd as (k & w' & _ & ->).
    rewrite newDay_data, collect_length; reflexivity.
Qed.

(** C2. Whatever the draws, doubles of [0,1) whose products with 10, 20
    and 30 are rounded as the products of doubles are, a generated reading
    has its temperature in [65,75], its humidity in [50,70] and its soil
    moisture in [40,70]. *)
Theorem generated_measurements_in_range (host : Host) (w : World)
  (day : DayData) (r : PlantData) :
  random_in_range host ->
  In day (items (fst (generateHistoricalData host w))) ->
  In r (data day) ->
  65 <= temperature r <= 75 /\
  50 <= humidity r <= 70 /\
  40 <= soilMoisture r <= 70.
Proof.
  intros R Hd Hr.
  pose proof (generated_ranges host w day r R Hd Hr); lia.
Qed.

Lemma generated_measurements_in_range_witness :
  let days := fst (generateHistoricalData sampleHost startWorld) in
  let day := nth 3 (items days) noDay in
  let r := readingAt days 3 5 in
  random_in_range sampleHost /\ In day (items days) /\ In r (data day) /\
  (65 <= temperature r <= 75 /\
   50 <= humidity r <= 70 /\
   40 <= soilMoisture r <= 70).
Proof.
  cbv zeta.
  destruct (readingAt_In (fst (generateHistoricalData sampleHost startWorld))
              3 5) as [Hd Hr]; [vm_compute; lia | vm_compute; lia |].
  split; [apply sampleHost_in_range|].
  split; [exact Hd|].
  split; [exact Hr|].
  apply (generated_measurements_in_range sampleHost startWorld _ _
           sampleHost_in_range Hd Hr).
Defined.

(** C9. On a generated reading the classifier never answers too-hot: the
    temperature is at most 74, and the status is needs-water, low-humidity
    or healthy. *)
Theorem generated_never_too_hot (host : Host) (w : World) (day : DayData)
  (r : PlantData) (s : State) :
  random_in_range host ->
  In day (items (fst (generateHistoricalData host w))) ->
  In r (data day) ->
  temperature r <= 74 /\
  plantStatus (statusEffect r s) <> TooHot /\
  (plantStatus (statusEffect r s) = NeedsWater \/
   plantStatus (statusEffect r s) = LowHumidity \/
   plantStatus (statusEffect r s) = Healthy).
Proof.
  intros R Hd Hr.
  pose proof (generated_ranges host w day r R Hd Hr) as (T & _ & _).
  clear Hd Hr; unfold statusEffect; cbv zeta.
  destruct (Z.ltb_spec (soilMoisture r) 45);
    [|destruct (Z.gtb_spec (temperature r) 75);
      [lia | destruct (Z.ltb_spec (humidity r) 55)]];
    cbn [plantStatus setPlantStatus];
    (split; [lia | split; [discriminate | tauto]]).
Qed.

Lemma generated_never_too_hot_witness :
  let days := fst (generateHistoricalData sampleHost startWorld) in
  let day := nth 6 (items days) noDay in
  let r := readingAt days 6 11 in
  let s := {| allDaysData := days; selectedDayIndex := 6;
              plantData := data day; selectedMetric := Temperature;
              plantStatus := TooHot; dayPickerVisible := false |} in
  random_in_range sampleHost /\ In day (items days) /\ In r (data day) /\
  (temperature r <= 74 /\
   plantStatus (statusEffect r s) <> TooHot /\
   (plantStatus (statusEffect r s) = NeedsWater \/
    plantStatus (statusEffect r s) = LowHumidity \/
    plantStatus (statusEffect r s) = Healthy)).
Proof.
  cbv zeta.
  destruct (readingAt_In (fst (generateHistoricalData sampleHost startWorld))
              6 11) as [Hd Hr]; [vm_compute; lia | vm_compute; lia |].
  split; [apply sampleHost_in_range|].
  split; [exact Hd|].
  split; [exact Hr|].
  apply (generated_never_too_hot sampleHost startWorld _ _ _
           sampleHost_in_range Hd Hr).
Defined.
(** C8. The upper ends of the stated ranges are never drawn: whatever the
    draws, doubles of [0,1), no generated reading has temperature 75,
    humidity 70 or soil moisture 70; the rounded product of a draw with
    10, 20 or 30 stays below 10, 20 or 30. *)
Theorem generated_upper_ends_never_drawn (host : Host) (w : World)
  (day : DayData) (r : PlantData) :
  random_in_range host ->
  In day (items (fst (generateHistoricalData host w))) ->
  In r (data day) ->
  temperature r <> 75 /\ humidity r <> 70 /\ soilMoisture r <> 70.
Proof.
  intros R Hd Hr.
  pose proof (generated_ranges host w day r R Hd Hr).
  clear Hd Hr; lia.
Qed.

(** The largest double below one. *)
Lemma largest_draw_in_range :
  random_in_range (constantHost (1 - Number.pow2 (-53))).
Proof.
  apply constantHost_in_range.
  - apply Qeq_bool_iff; vm_compute; reflexivity.
  - vm_compute; discriminate.
  - vm_compute; reflexivity.
Qed.

Lemma generated_upper_ends_never_drawn_witness :
  let host := constantHost (1 - Number.pow2 (-53)) in
  let days := fst (generateHistoricalData host startWorld) in
  let day := nth 0 (items days) noDay in
  let r := readingAt days 0 11 in
  random_in_range host /\ In day (items days) /\ In r (data day) /\
  (temperature r, humidity r, soilMoisture r) = (74, 69, 69) /\
  (temperature r <> 75 /\ humidity r <> 70 /\ soilMoisture r <> 70).
Proof.
  cbv zeta.
  destruct (readingAt_In
              (fst (generateHistoricalData
                      (constantHost (1 - Number.pow2 (-53))) startWorld))
              0 11) as [Hd Hr];
    [vm_compute; lia | vm_compute; lia |].
  split; [exact largest_draw_in_range|].
  split; [exact Hd|].
  split; [exact Hr|].
  split; [vm_compute; reflexivity|].
  apply (generated_upper_ends_never_drawn
           (constantHost (1 - Number.pow2 (-53))) startWorld _ _
           largest_draw_in_range Hd Hr).
Defined.

Lemma drawFor_draws (n : positive) :
  (Z.pos n <=? 30) = true ->
  forallb (fun k =>
             Qeq_bool (Number.round (drawFor (Z.pos n) (Z.of_nat k)))
               (drawFor (Z.pos n) (Z.of_nat k))
             && Qle_bool 0 (drawFor (Z.pos n) (Z.of_nat k))
             && negb (Qle_bool 1 (drawFor (Z.pos n) (Z.of_nat k)))
             && (Math_floor
                   (Number.multiply (drawFor (Z.pos n) (Z.of_nat k))
                      (Z.pos n # 1)) =? Z.of_nat k))
    (seq 0 (Pos.to_nat n)) = true ->
  forall k : Z,
    0 <= k < Z.pos n ->
    random_in_range (constantHost (drawFor (Z.pos n) k)) /\
    Math_floor (Number.multiply (drawFor (Z.pos n) k) (Z.pos n # 1)) = k.
Proof.
  intros _ F k Hk.
  rewrite forallb_forall in F.
  specialize (F (Z.to_nat k)); rewrite Z2Nat.id in F by lia.
  assert (I : In (Z.to_nat k) (seq 0 (Pos.to_nat n))) by (apply in_seq; lia).
  apply F in I; clear F.
  apply andb_prop in I; destruct I as [I I4].
  apply andb_prop in I; destruct I as [I I3].
  apply andb_prop in I; destruct I as [I1 I2].
  apply Qeq_bool_iff in I1; apply Qle_bool_iff in I2.
  apply Z.eqb_eq in I4.
  split; [|exact I4].
  apply constantHost_in_range; [exact I1 | exact I2 |].
  apply Qnot_le_lt; intros C; apply Qle_bool_iff in C.
  rewrite C in I3; discriminate I3.
Qed.

Lemma collect_first {A : Type} (f : Z -> M A) (i : Z) (l : list Z)
  (w : World) :
  In (fst (f i w)) (fst (collect f (i :: l) w)).
Proof. cbn [collect]; rewrite !run_bind, run_ret; left; reflexivity. Qed.

(** The first reading of the first bucket. *)
Lemma generated_first_reading (host : Host) (w : World) :
  exists day r,
    In day (items (fst (generateHistoricalData host w))) /\
    In r (data day) /\
    temperature r
    = Math_floor (Number.multiply (random host (random_calls w)) 10) + 65 /\
    humidity r
    = Math_floor (Number.multiply (random host (1 + random_calls w)) 20)
      + 50 /\
    soilMoisture r
    = Math_floor (Number.multiply (random host (2 + random_calls w)) 30)
      + 40.
Proof.
  exists (fst (newDay host (clock host (clock_reads w)) 0 (afterSetup w))),
    (fst (newReading host (bucketDate host (clock host (clock_reads w)) 0)
            0 (afterSetup w))).
  split; [|split].
  - rewrite generateHistoricalData_items; apply collect_first.
  - rewrite newDay_data; apply collect_first.
  - rewrite newReading_temperature, newReading_humidity,
      newReading_soilMoisture; repeat split.
Qed.

(** Every other value of the ranges is drawn. *)
Lemma generated_values_drawn (t h s : Z) :
  65 <= t <= 74 -> 50 <= h <= 69 -> 40 <= s <= 69 ->
  (exists host day r,
     random_in_range host /\
     In day (items (fst (generateHistoricalData host startWorld))) /\
     In r (data day) /\ temperature r = t) /\
  (exists host day r,
     random_in_range host /\
     In day (items (fst (generateHistoricalData host startWorld))) /\
     In r (data day) /\ humidity r = h) /\
  (exists host day r,
     random_in_range host /\
     In day (items (fst (generateHistoricalData host startWorld))) /\
     In r (data day) /\ soilMoisture r = s).
Proof.
  intros Ht Hh Hs; split; [|split].
  - destruct (drawFor_draws 10 eq_refl ltac:(vm_compute; reflexivity)
                (t - 65) ltac:(lia)) as [R E].
    destruct (generated_first_reading (constantHost (drawFor 10 (t - 65)))
                startWorld) as (day & r & Hd & Hr & Er & _ & _).
    exists (constantHost (drawFor 10 (t - 65))), day, r.
    split; [exact R | split; [exact Hd | split; [exact Hr |]]].
    rewrite Er; cbn [constantHost random]; clear Er Hd Hr R.
    change (10%Q) with (Z.pos 10 # 1); rewrite E; lia.
  - destruct (drawFor_draws 20 eq_refl ltac:(vm_compute; reflexivity)
                (h - 50) ltac:(lia)) as [R E].
    destruct (generated_first_reading (constantHost (drawFor 20 (h - 50)))
                startWorld) as (day & r & Hd & Hr & _ & Er & _).
    exists (constantHost (drawFor 20 (h - 50))), day, r.
    split; [exact R | split; [exact Hd | split; [exact Hr |]]].
    rewrite Er; cbn [constantHost random]; clear Er Hd Hr R.
    change (20%Q) with (Z.pos 20 # 1); rewrite E; lia.
  - destruct (drawFor_draws 30 eq_refl ltac:(vm_compute; reflexivity)
                (s - 40) ltac:(lia)) as [R E].
    destruct (generated_first_reading (constantHost (drawFor 30 (s - 40)))
                startWorld) as (day & r & Hd & Hr & _ & _ & Er).
    exists (constantHost (drawFor 30 (s - 40))), day, r.
    split; [exact R | split; [exact Hd | split; [exact Hr |]]].
    rewrite Er; cbn [constantHost random]; clear Er Hd Hr R.
    change (30%Q) with (Z.pos 30 # 1); rewrite E; lia.
Qed.

(** ** The times of the readings *)

Lemma hours_range (hour : Z) : In hour hours -> 0 <= hour < 24.
Proof. unfold hours; cbn [In]; lia. Qed.

Lemma dayOffsets_range (k : Z) : In k dayOffsets -> 0 <= k <= 6.
Proof. unfold dayOffsets; cbn [In]; lia. Qed.

Section SteadyOffset.

Variable host : Host.
Variables offset now : Z.
Hypothesis steady : steadyOffset host offset now.

Lemma steady_localDay :
  JSDate.localDay (LocalTZA host) now = JSDate.Day (now + offset).
Proof.
  destruct steady as [B S].
  apply (JSDateFacts.localDay_steady _ _ _ _ S).
  unfold JSDate.msPerDay; lia.
Qed.

(** The date of bucket [k]: [k] days before [now]. *)
Lemma steady_bucketDate (k : Z) :
  0 <= k <= 6 -> bucketDate host now k = now - k * JSDate.msPerDay.
Proof.
  intros Hk; destruct steady as [B S]; unfold bucketDate.
  apply (JSDateFacts.setDate_getDate_minus _ _ _ _ S);
    unfold JSDate.msPerDay in *; lia.
Qed.

(** The time value of the reading of [hour] o'clock in bucket [k]. *)
Lemma steady_datetime (k hour : Z) :
  0 <= k <= 6 -> 0 <= hour < 24 ->
  JSDate.setHours (LocalTZA host) (bucketDate host now k) hour 0 0 0
  = JSDate.MakeDate (JSDate.Day (now + offset) - k)
      (hour * JSDate.msPerHour) - offset.
Proof.
  intros Hk Hh; rewrite (steady_bucketDate k Hk).
  destruct steady as [B S].
  rewrite (JSDateFacts.setHours_steady _ _ _ _ S);
    [|exact Hh | unfold JSDate.msPerDay in *; lia ..].
  replace (now - k * JSDate.msPerDay + offset)
    with (now + offset - k * JSDate.msPerDay) by lia.
  now rewrite JSDateFacts.Day_minus_days.
Qed.

(** The time values of the readings are in the days the offset is known
    for. *)
Lemma steady_datetime_near (k hour : Z) :
  0 <= k <= 6 -> 0 <= hour < 24 ->
  now - 8 * JSDate.msPerDay
  <= JSDate.MakeDate (JSDate.Day (now + offset) - k)
       (hour * JSDate.msPerHour) - offset
  <= now + 2 * JSDate.msPerDay.
Proof.
  intros Hk Hh; destruct steady as [B _].
  pose proof (JSDateFacts.hour_of_day_near
                (now + offset - k * JSDate.msPerDay) hour Hh) as N.
  rewrite JSDateFacts.Day_minus_days in N.
  unfold JSDate.msPerDay in *; lia.
Qed.

Lemma steady_local_time (k hour : Z) :
  0 <= k <= 6 -> 0 <= hour < 24 ->
  JSDate.LocalTime (LocalTZA host)
    (JSDate.setHours (LocalTZA host) (bucketDate host now k) hour 0 0 0)
  = JSDate.MakeDate (JSDate.localDay (LocalTZA host) now - k)
      (hour * JSDate.msPerHour).
Proof.
  intros Hk Hh; rewrite (steady_datetime k hour Hk Hh), steady_localDay.
  pose proof (steady_datetime_near k hour Hk Hh) as N.
  destruct steady as [_ S].
  rewrite (JSDateFacts.LocalTime_steady _ _ _ _ S) by exact N; lia.
Qed.

(** The local time values of a bucket, hour after hour. *)
Lemma generated_local_times (dayOffset : Z) (w : World) :
  0 <= dayOffset <= 6 ->
  map (fun r => JSDate.LocalTime (LocalTZA host) (datetime r))
    (data (fst (newDay host now dayOffset w)))
  = map (fun hour =>
           JSDate.MakeDate (JSDate.localDay (LocalTZA host) now - dayOffset)
             (hour * JSDate.msPerHour)) hours.
Proof.
  intros Hk; rewrite newDay_data; apply collect_map_In; intros hour w' Hh.
  rewrite newReading_datetime.
  apply steady_local_time; [exact Hk | apply hours_range, Hh].
Qed.

(** The time values of a bucket. *)
Lemma generated_datetimes_of_bucket (dayOffset : Z) (w : World) :
  0 <= dayOffset <= 6 ->
  map datetime (data (fst (newDay host now dayOffset w)))
  = map (fun hour =>
           JSDate.MakeDate (JSDate.Day (now + offset) - dayOffset)
             (hour * JSDate.msPerHour) - offset) hours.
Proof.
  intros Hk; rewrite newDay_data; apply collect_map_In; intros hour w' Hh.
  rewrite newReading_datetime.
  apply steady_datetime; [exact Hk | apply hours_range, Hh].
Qed.

End SteadyOffset.

Lemma sampleHost_steady (now : Z) : steadyOffset sampleHost 3600000 now.
Proof. split; [unfold JSDate.msPerDay; lia | reflexivity]. Qed.




(** ** Renders and effects *)

Lemma statusEffect_sets (r : PlantData) (s : State) :
  statusEffect r s = setPlantStatus (statusOf r) s.
Proof.
  unfold statusOf, statusEffect; cbv zeta.
  destruct (soilMoisture r <? 45); [reflexivity|].
  destruct (temperature r >? 75); [reflexivity|].
  destruct (humidity r <? 55); reflexivity.
Qed.

Lemma state_eta (s : State) :
  {| allDaysData := allDaysData s;
     selectedDayIndex := selectedDayIndex s;
     plantData := plantData s;
     selectedMetric := selectedMetric s;
     plantStatus := plantStatus s;
     dayPickerVisible := dayPickerVisible s |} = s.
Proof. destruct s; reflexivity. Qed.

(** ** The same hooks *)

Lemma sameList_eq {A : Type} (same : A -> A -> bool) (l : list A) :
  (forall x y, In x l -> same x y = true -> x = y) ->
  forall l', sameList same l l' = true -> l = l'.
Proof.
  induction l as [|x l IH]; intros H [|y l'] E; try discriminate E;
    [reflexivity|].
  cbn [sameList] in E; apply andb_prop in E; destruct E as [E1 E2].
  f_equal; [apply H; [now left | exact E1]|].
  apply IH; [|exact E2].
  intros a b Ha; apply H; now right.
Qed.

Lemma sameList_refl {A : Type} (same : A -> A -> bool) (l : list A) :
  (forall x, same x x = true) -> sameList same l l = true.
Proof.
  intros H; induction l as [|x l IH]; [reflexivity|].
  cbn [sameList]; now rewrite H, IH.
Qed.

Lemma sameReading_eq (a b : PlantData) : sameReading a b = true -> a = b.
Proof.
  unfold sameReading; rewrite !andb_true_iff.
  rewrite Nat.eqb_eq, !Z.eqb_eq, !String.eqb_eq.
  destruct a, b; cbn; intros ((((((-> & ->) & ->) & ->) & ->) & ->) & ->).
  reflexivity.
Qed.

Lemma sameReading_refl (a : PlantData) : sameReading a a = true.
Proof.
  unfold sameReading.
  now rewrite Nat.eqb_refl, !Z.eqb_refl, !String.eqb_refl.
Qed.

Lemma sameDay_eq (a b : DayData) : sameDay a b = true -> a = b.
Proof.
  unfold sameDay; rewrite !andb_true_iff, !String.eqb_eq.
  destruct a, b; cbn; intros ((-> & ->) & E); f_equal.
  apply (sameList_eq sameReading); [|exact E].
  intros x y _; apply sameReading_eq.
Qed.

Lemma sameDay_refl (a : DayData) : sameDay a a = true.
Proof.
  unfold sameDay; rewrite !String.eqb_refl.
  now rewrite (sameList_refl _ _ sameReading_refl).
Qed.

Lemma sameDays_eq (a b : DayArray) : sameDays a b = true -> a = b.
Proof.
  unfold sameDays; rewrite andb_true_iff, Nat.eqb_eq.
  destruct a, b; cbn; intros (-> & E); f_equal.
  apply (sameList_eq sameDay); [|exact E].
  intros x y _; apply sameDay_eq.
Qed.

Lemma sameDays_refl (a : DayArray) : sameDays a a = true.
Proof.
  unfold sameDays; rewrite Nat.eqb_refl.
  now rewrite (sameList_refl _ _ sameDay_refl).
Qed.

(** The hooks that are the same are equal. *)
Lemma sameHooks_eq (a b : State) : sameHooks a b = true -> a = b.
Proof.
  unfold sameHooks; rewrite !andb_true_iff, Nat.eqb_eq.
  intros (((((E1 & E2) & E3) & E4) & E5) & E6).
  apply sameDays_eq in E1.
  apply (sameList_eq sameReading) in E3;
    [|intros x y _; apply sameReading_eq].
  apply Bool.eqb_prop in E6.
  destruct a, b; cbn in *; subst; f_equal.
  - destruct selectedMetric0, selectedMetric1; (reflexivity || discriminate).
  - destruct plantStatus0, plantStatus1; (reflexivity || discriminate).
Qed.

Lemma sameHooks_refl (a : State) : sameHooks a a = true.
Proof.
  unfold sameHooks.
  rewrite sameDays_refl, Nat.eqb_refl, (sameList_refl _ _ sameReading_refl),
    Bool.eqb_reflx.
  now destruct (selectedMetric a), (plantStatus a).
Qed.

(** ** Renders *)

Lemma lastItem_nonempty {A : Type} (l : list A) :
  l <> [] -> exists x, lastItem l = Some x.
Proof.
  intros H; unfold lastItem.
  destruct (nth_error l (length l - 1)) as [x|] eqn:E; [now exists x|].
  apply nth_error_None in E.
  destruct l; [easy | cbn [length] in E; lia].
Qed.

Lemma lastItem_Some_nonempty {A : Type} (l : list A) (x : A) :
  lastItem l = Some x -> l <> [].
Proof. intros H ->; discriminate H. Qed.

Lemma nth_error_first {A : Type} (l : list A) (i : nat) (x : A) :
  nth_error l i = Some x -> exists y, nth_error l 0 = Some y.
Proof. destruct l as [|y l]; [now destruct i | now exists y]. Qed.

Lemma render_Some (s : State) (r : Render) :
  render s = Some r ->
  closure r = s /\
  lastItem (plantData s) = Some (currentData r) /\
  (exists day,
     nth_error (items (allDaysData s)) (selectedDayIndex s) = Some day /\
     shownDay (screen r) = label day) /\
  shownTemperature (screen r) = temperature (currentData r) /\
  shownHumidity (screen r) = humidity (currentData r) /\
  shownSoilMoisture (screen r) = soilMoisture (currentData r) /\
  chartInfo (screen r) = getChartInfo (selectedMetric s) /\
  chartValues (screen r) = map (metricOf (selectedMetric s)) (plantData s) /\
  chartLine (screen r) = chartColor (selectedMetric s) /\
  pickerItems (screen r)
  = (if dayPickerVisible s
     then combine (seq 0 (length (items (allDaysData s))))
            (map label (items (allDaysData s)))
     else []).
Proof.
  unfold render.
  destruct (lastItem (plantData s)) as [cur|]; [|discriminate].
  destruct (nth_error (items (allDaysData s)) (selectedDayIndex s))
    as [day|]; [|discriminate].
  intros [= <-]; cbn.
  repeat split; exists day; split; reflexivity.
Qed.

Lemma render_ok (s : State) (cur : PlantData) (day : DayData) :
  lastItem (plantData s) = Some cur ->
  nth_error (items (allDaysData s)) (selectedDayIndex s) = Some day ->
  exists r, render s = Some r /\ closure r = s /\ currentData r = cur.
Proof.
  intros L D; unfold render; rewrite L, D.
  eexists; repeat split.
Qed.

Section ComponentFacts.

Variable host : Host.

(** A render of a mounted component. *)
Lemma PlantDashboard_update (s : State) (w : World) :
  PlantDashboard host (Some s) w
  = (match nth_error (items (allDaysData s)) 0 with
     | None => None
     | Some _ => render s
     end,
     snd (generateHistoricalData host w)).
Proof.
  unfold PlantDashboard; rewrite run_bind; cbn [useState].
  destruct (nth_error (items (allDaysData s)) 0);
    rewrite run_ret; [rewrite state_eta|]; reflexivity.
Qed.

(** The first render. *)
Lemma PlantDashboard_first (w : World) :
  PlantDashboard host None w
  = (match nth_error (items (fst (generateHistoricalData host w))) 0 with
     | None => None
     | Some day0 =>
         render (initialState (fst (generateHistoricalData host w)) day0)
     end,
     snd (generateHistoricalData host w)).
Proof.
  unfold PlantDashboard; rewrite run_bind; cbn [useState].
  destruct (nth_error (items (fst (generateHistoricalData host w))) 0);
    rewrite run_ret; reflexivity.
Qed.

Lemma React_callsAgain_fst (w : World) :
  fst (React_callsAgain host w) = callsAgain host (skipped w).
Proof. reflexivity. Qed.

(** A skipped update of hooks that render does not fail. *)
Lemma skippedUpdate_ok (s : State) (r : Render) (w : World) :
  render s = Some r -> fst (skippedUpdate host s w) = true.
Proof.
  intros R; unfold skippedUpdate.
  rewrite run_bind, React_callsAgain_fst.
  generalize (snd (React_callsAgain host w)); intros w1.
  destruct (callsAgain host (skipped w)); [|reflexivity].
  rewrite run_bind, PlantDashboard_update, run_ret, !fst_pair.
  destruct (render_Some s r R) as (_ & _ & (day & D & _) & _).
  destruct (nth_error_first _ _ _ D) as [day0 ->].
  now rewrite R.
Qed.

Lemma skippedUpdate_failed (s : State) (w : World) :
  render s = None ->
  fst (skippedUpdate host s w) = negb (callsAgain host (skipped w)).
Proof.
  intros R; unfold skippedUpdate.
  rewrite run_bind, React_callsAgain_fst.
  generalize (snd (React_callsAgain host w)); intros w1.
  destruct (callsAgain host (skipped w)); [|reflexivity].
  rewrite run_bind, PlantDashboard_update, run_ret, !fst_pair, R.
  now destruct (nth_error (items (allDaysData s)) 0).
Qed.

Lemma commit_S (renders : nat) (hooks : option State) (d : Deps)
  (w : World) :
  commit host (S renders) hooks d w
  = (r <- PlantDashboard host hooks ;;
     match r with
     | None => ret Crashed
     | Some r =>
         match runEffects r d with
         | None => ret Crashed
         | Some (s, d', ran) =>
             if sameHooks (closure r) s
             then ok <- (if ran then skippedUpdate host s else ret true) ;;
                  ret (if ok
                       then Settled {| state := s; deps := d' |} (screen r)
                       else Crashed)
             else commit host renders (Some s) d'
         end
     end) w.
Proof. reflexivity. Qed.

(** The outcome of the renders that follow one render and its effects. *)
Lemma commit_after (renders : nat) (r : Render) (d : Deps) (w : World) :
  render (closure r) = Some r ->
  fst (match runEffects r d with
       | None => ret Crashed
       | Some (s, d', ran) =>
           if sameHooks (closure r) s
           then ok <- (if ran then skippedUpdate host s else ret true) ;;
                ret (if ok
                     then Settled {| state := s; deps := d' |} (screen r)
                     else Crashed)
           else commit host renders (Some s) d'
       end w)
  = match runEffects r d with
    | None => Crashed
    | Some (s, d', ran) =>
        if sameHooks (closure r) s
        then Settled {| state := s; deps := d' |} (screen r)
        else fst (commit host renders (Some s) d' w)
    end.
Proof.
  intros R.
  destruct (runEffects r d) as [[[s' d'] ran]|]; [|reflexivity].
  destruct (sameHooks (closure r) s') eqn:E; [|reflexivity].
  apply sameHooks_eq in E; rewrite E in R.
  rewrite run_bind, run_ret, fst_pair.
  destruct ran; [|reflexivity].
  now rewrite (skippedUpdate_ok s' r w R).
Qed.

Lemma render_closure (s : State) (r : Render) :
  render s = Some r -> render (closure r) = Some r.
Proof.
  intros R; now rewrite (proj1 (render_Some s r R)).
Qed.

(** The renders of a mounted component do not depend on the host. *)
Lemma commit_settle (renders : nat) :
  forall (s : State) (d : Deps) (w : World),
    fst (commit host renders (Some s) d w) = settle renders s d.
Proof.
  induction renders as [|n IH]; intros s d w; [reflexivity|].
  rewrite commit_S, run_bind, PlantDashboard_update.
  rewrite fst_pair, snd_pair.
  generalize (snd (generateHistoricalData host w)); intros w1.
  cbn [settle]; unfold pass.
  destruct (nth_error (items (allDaysData s)) 0); [|reflexivity].
  destruct (render s) as [r|] eqn:R; [|reflexivity].
  rewrite (commit_after n r d w1 (render_closure s r R)).
  rewrite (proj1 (render_Some s r R)).
  destruct (runEffects r d) as [[[s' d'] ran]|]; [|reflexivity].
  destruct (sameHooks s s'); [reflexivity | apply IH].
Qed.

End ComponentFacts.


(** ** One render and its effects *)

Lemma depsChanged_days_false (before : option (nat * nat)) (now : nat * nat) :
  depsChanged sameDayDeps before now = false <-> before = Some now.
Proof.
  destruct before as [[a b]|], now as [c e]; cbn; [|easy].
  unfold sameDayDeps; cbn [fst snd].
  rewrite negb_false_iff, andb_true_iff, !Nat.eqb_eq.
  split; [intros [-> ->]; reflexivity | intros [= -> ->]; auto].
Qed.

Lemma depsChanged_status_false (before : option nat) (now : nat) :
  depsChanged Nat.eqb before now = false <-> before = Some now.
Proof.
  destruct before as [a|]; cbn; [|easy].
  rewrite negb_false_iff, Nat.eqb_eq.
  split; [intros -> | intros [= ->]]; reflexivity.
Qed.

(** What a pass does, when the selected bucket is there and the active
    sequence has a last reading. *)
Lemma pass_eq (s : State) (d : Deps) (cur : PlantData) (day : DayData) :
  lastItem (plantData s) = Some cur ->
  nth_error (items (allDaysData s)) (selectedDayIndex s) = Some day ->
  exists r,
    render s = Some r /\ currentData r = cur /\
    let dayNow := (selectedDayIndex s, array_id (allDaysData s)) in
    let runDay := depsChanged sameDayDeps (dayDeps d) dayNow in
    let runStatus := depsChanged Nat.eqb (statusDeps d) (object_id cur) in
    let s1 := if runDay then setPlantData (data day) s else s in
    let s2 := if runStatus then setPlantStatus (statusOf cur) s1 else s1 in
    pass s d
    = Some (s2,
            {| dayDeps := Some dayNow; statusDeps := Some (object_id cur) |},
            runDay || runStatus, screen r).
Proof.
  intros L D.
  destruct (render_ok s cur day L D) as (r & R & C & <-).
  exists r; repeat split; [exact R|].
  cbv zeta; unfold pass.
  destruct (nth_error_first _ _ _ D) as [day0 ->].
  rewrite R; unfold runEffects, dayEffect; cbv zeta.
  rewrite C, D.
  destruct (depsChanged sameDayDeps _ _), (depsChanged Nat.eqb _ _);
    rewrite ?statusEffect_sets; reflexivity.
Qed.

(** A pass leaves the set, the selected day, the metric and the picker as
    they are, and records the dependencies of its render. *)
Lemma pass_frame (s s' : State) (d d' : Deps) (ran : bool) (sc : Screen) :
  pass s d = Some (s', d', ran, sc) ->
  allDaysData s' = allDaysData s /\
  selectedDayIndex s' = selectedDayIndex s /\
  selectedMetric s' = selectedMetric s /\
  dayPickerVisible s' = dayPickerVisible s /\
  exists r day,
    render s = Some r /\ sc = screen r /\
    nth_error (items (allDaysData s)) (selectedDayIndex s) = Some day /\
    dayDeps d'
    = Some (selectedDayIndex s, array_id (allDaysData s)) /\
    statusDeps d' = Some (object_id (currentData r)) /\
    plantData s'
    = (if depsChanged sameDayDeps (dayDeps d)
            (selectedDayIndex s, array_id (allDaysData s))
       then data day else plantData s) /\
    plantStatus s'
    = (if depsChanged Nat.eqb (statusDeps d) (object_id (currentData r))
       then statusOf (currentData r) else plantStatus s) /\
    (ran = false -> s' = s /\ d' = d).
Proof.
  intros P.
  assert (exists r, render s = Some r) as [r R].
  { unfold pass in P.
    destruct (nth_error (items (allDaysData s)) 0); [|discriminate].
    destruct (render s) as [r|]; [now exists r | discriminate]. }
  destruct (render_Some s r R) as (_ & L & (day & D & _) & _).
  destruct (pass_eq s d _ day L D) as (r' & R' & C & E).
  rewrite R in R'; injection R' as <-.
  cbv zeta in E; rewrite E in P; clear E.
  injection P as <- <- <- <-.
  destruct (depsChanged sameDayDeps _ _) eqn:E1,
           (depsChanged Nat.eqb _ _) eqn:E2;
    cbn [allDaysData selectedDayIndex selectedMetric dayPickerVisible
         plantData plantStatus setPlantData setPlantStatus orb];
    (split; [reflexivity|]); (split; [reflexivity|]);
    (split; [reflexivity|]); (split; [reflexivity|]);
    exists r, day; rewrite ?E1, ?E2;
    (split; [exact R|]); (split; [reflexivity|]); (split; [exact D|]);
    (split; [reflexivity|]); (split; [reflexivity|]);
    (split; [reflexivity|]); (split; [reflexivity|]);
    intros F; try discriminate F.
  apply depsChanged_days_false in E1; apply depsChanged_status_false in E2.
  destruct d as [d1 d2]; cbn in E1, E2; subst d1 d2; split; reflexivity.
Qed.

(** ** Renders until the component is at rest *)

Lemma settle_frame (renders : nat) :
  forall (s : State) (d : Deps) (f : Fiber) (sc : Screen),
    settle renders s d = Settled f sc ->
    allDaysData (state f) = allDaysData s /\
    selectedDayIndex (state f) = selectedDayIndex s /\
    selectedMetric (state f) = selectedMetric s /\
    dayPickerVisible (state f) = dayPickerVisible s.
Proof.
  induction renders as [|n IH]; intros s d f sc H; [discriminate|].
  cbn [settle] in H.
  destruct (pass s d) as [[[[s' d'] ran] sc']|] eqn:P; [|discriminate].
  apply pass_frame in P; destruct P as (A & B & C & D & _).
  destruct (sameHooks s s').
  - injection H as <- <-; cbn [state]; auto.
  - apply IH in H; rewrite <- A, <- B, <- C, <- D; exact H.
Qed.

(** A settled component is at rest, and its screen is the render of its
    hooks. *)
Lemma settle_quiescent (renders : nat) :
  forall (s : State) (d : Deps) (f : Fiber) (sc : Screen),
    settle renders s d = Settled f sc ->
    quiescent f /\ exists r, render (state f) = Some r /\ screen r = sc.
Proof.
  induction renders as [|n IH]; intros s d f sc H; [discriminate|].
  cbn [settle] in H.
  destruct (pass s d) as [[[[s' d'] ran] sc']|] eqn:P; [|discriminate].
  destruct (sameHooks s s') eqn:E; [|exact (IH _ _ _ _ H)].
  apply sameHooks_eq in E; subst s'.
  injection H as <- <-.
  apply pass_frame in P.
  destruct P as (_ & _ & _ & _ & r & day & R & -> & _ & D1 & D2 & _).
  unfold quiescent; cbn [state deps].
  split; [exists r | exists r]; auto.
Qed.

(** The active sequence of a settled component is the selected bucket,
    when it was so whenever the first effect had nothing to do. *)
Lemma settle_selected_bucket (renders : nat) :
  forall (s : State) (d : Deps) (f : Fiber) (sc : Screen) (day : DayData),
    settle renders s d = Settled f sc ->
    nth_error (items (allDaysData s)) (selectedDayIndex s) = Some day ->
    (dayDeps d = Some (selectedDayIndex s, array_id (allDaysData s)) ->
     plantData s = data day) ->
    plantData (state f) = data day.
Proof.
  induction renders as [|n IH]; intros s d f sc day H D Hs; [discriminate|].
  cbn [settle] in H.
  destruct (pass s d) as [[[[s' d'] ran] sc']|] eqn:P; [|discriminate].
  apply pass_frame in P.
  destruct P as (A & B & _ & _ & r & day' & _ & _ & D' & D1 & _ & Pd & _).
  rewrite D in D'; injection D' as <-.
  assert (plantData s' = data day) as Pd'.
  { rewrite Pd.
    destruct (depsChanged sameDayDeps _ _) eqn:C; [reflexivity|].
    apply Hs, depsChanged_days_false, C. }
  destruct (sameHooks s s').
  - injection H as <- <-; exact Pd'.
  - apply (IH _ _ _ _ day H); [now rewrite A, B | intros _; exact Pd'].
Qed.

Lemma sameDayDeps_refl (x : nat * nat) : sameDayDeps x x = true.
Proof. unfold sameDayDeps; now rewrite !Nat.eqb_refl. Qed.

(** Two renders are enough once the first effect has nothing to do. *)
Lemma settle_day_stable (renders : nat) (s : State) (d : Deps)
  (cur : PlantData) (day : DayData) :
  (2 <= renders)%nat ->
  dayDeps d = Some (selectedDayIndex s, array_id (allDaysData s)) ->
  lastItem (plantData s) = Some cur ->
  nth_error (items (allDaysData s)) (selectedDayIndex s) = Some day ->
  exists f sc, settle renders s d = Settled f sc.
Proof.
  intros N Hd L D.
  destruct renders as [|[|n]]; [lia | lia |].
  cbn [settle].
  destruct (pass_eq s d cur day L D) as (r & _ & _ & ->).
  apply depsChanged_days_false in Hd; rewrite Hd; cbn [orb].
  match goal with
  | |- context [sameHooks s ?s2] => destruct (sameHooks s s2); [eauto|]
  end.
  destruct (depsChanged Nat.eqb _ _).
  - destruct (pass_eq (setPlantStatus (statusOf cur) s)
                {| dayDeps := Some (selectedDayIndex s,
                                    array_id (allDaysData s));
                   statusDeps := Some (object_id cur) |} cur day L D)
      as (r' & _ & _ & ->).
    cbn [dayDeps statusDeps selectedDayIndex allDaysData setPlantStatus
         depsChanged].
    rewrite sameDayDeps_refl, Nat.eqb_refl; cbn [negb orb].
    rewrite sameHooks_refl; eauto.
  - destruct (pass_eq s
                {| dayDeps := Some (selectedDayIndex s,
                                    array_id (allDaysData s));
                   statusDeps := Some (object_id cur) |} cur day L D)
      as (r' & _ & _ & ->).
    cbn [dayDeps statusDeps depsChanged].
    rewrite sameDayDeps_refl, Nat.eqb_refl; cbn [negb orb].
    rewrite sameHooks_refl; eauto.
Qed.

(** Three renders are enough after any event. *)
Lemma settle_three (renders : nat) (s : State) (d : Deps)
  (cur : PlantData) (day : DayData) :
  (3 <= renders)%nat ->
  lastItem (plantData s) = Some cur ->
  nth_error (items (allDaysData s)) (selectedDayIndex s) = Some day ->
  data day <> [] ->
  exists f sc, settle renders s d = Settled f sc.
Proof.
  intros N L D Hday.
  destruct (depsChanged sameDayDeps (dayDeps d)
              (selectedDayIndex s, array_id (allDaysData s))) eqn:C.
  - destruct renders as [|n]; [lia|].
    cbn [settle].
    destruct (pass_eq s d cur day L D) as (r & _ & _ & ->).
    rewrite C; cbn [orb].
    match goal with
    | |- context [sameHooks s ?s2] => destruct (sameHooks s s2); [eauto|]
    end.
    destruct (lastItem_nonempty _ Hday) as [cur' L'].
    match goal with
    | |- context [settle n ?s2 ?d2] =>
        apply (settle_day_stable n s2 d2 cur' day); [lia | | |]
    end;
      destruct (depsChanged Nat.eqb _ _);
      cbn [dayDeps selectedDayIndex allDaysData plantData setPlantStatus
           setPlantData]; auto.
  - apply depsChanged_days_false in C.
    apply (settle_day_stable renders s d cur day); auto; lia.
Qed.

(** ** Renders after a handler *)

Lemma resume_frame (renders : nat) (s : State) (f f' : Fiber)
  (sc : Screen) :
  resume renders s f = Settled f' sc ->
  allDaysData (state f') = allDaysData s /\
  selectedDayIndex (state f') = selectedDayIndex s /\
  selectedMetric (state f') = selectedMetric s /\
  dayPickerVisible (state f') = dayPickerVisible s.
Proof.
  unfold resume; destruct (sameHooks (state f) s) eqn:E;
    [|apply settle_frame].
  apply sameHooks_eq in E; subst s.
  destruct (render (state f)); [|discriminate].
  intros H; injection H as <- _; auto.
Qed.

(** A component at rest is at rest after a handler and the renders that
    follow, and its screen is the render of its hooks. *)
Lemma resume_quiescent (renders : nat) (s : State) (f f' : Fiber)
  (sc : Screen) :
  quiescent f ->
  resume renders s f = Settled f' sc ->
  quiescent f' /\ exists r, render (state f') = Some r /\ screen r = sc.
Proof.
  intros Q; unfold resume; destruct (sameHooks (state f) s) eqn:E;
    [|apply settle_quiescent].
  apply sameHooks_eq in E; subst s.
  destruct (render (state f)) as [r|] eqn:R; [|discriminate].
  intros H; injection H as <- <-; split; [exact Q | now exists r].
Qed.

(** The screen after a handler is the render of the hooks, whatever the
    component was. *)
Lemma resume_screen (renders : nat) (s : State) (f f' : Fiber)
  (sc : Screen) :
  resume renders s f = Settled f' sc ->
  exists r, render (state f') = Some r /\ screen r = sc.
Proof.
  unfold resume; destruct (sameHooks (state f) s) eqn:E;
    [|apply settle_quiescent].
  apply sameHooks_eq in E; subst s.
  destruct (render (state f)) as [r|] eqn:R; [|discriminate].
  intros H; injection H as <- <-; now exists r.
Qed.

Lemma resume_selected_bucket (renders : nat) (s : State) (f f' : Fiber)
  (sc : Screen) (day : DayData) :
  resume renders s f = Settled f' sc ->
  nth_error (items (allDaysData s)) (selectedDayIndex s) = Some day ->
  (dayDeps (deps f) = Some (selectedDayIndex s, array_id (allDaysData s)) ->
   plantData s = data day) ->
  (state f = s -> plantData s = data day) ->
  plantData (state f') = data day.
Proof.
  unfold resume; destruct (sameHooks (state f) s) eqn:E.
  - apply sameHooks_eq in E.
    destruct (render s); [|discriminate].
    intros H _ _ Hs; injection H as <- _; rewrite E; auto.
  - intros H D Hs _; exact (settle_selected_bucket _ _ _ _ _ _ H D Hs).
Qed.

Lemma resume_three (renders : nat) (s : State) (f : Fiber)
  (cur : PlantData) (day : DayData) :
  (3 <= renders)%nat ->
  lastItem (plantData s) = Some cur ->
  nth_error (items (allDaysData s)) (selectedDayIndex s) = Some day ->
  data day <> [] ->
  exists f' sc, resume renders s f = Settled f' sc.
Proof.
  intros N L D Hday; unfold resume.
  destruct (sameHooks (state f) s);
    [|exact (settle_three renders s (deps f) cur day N L D Hday)].
  destruct (render_ok s cur day L D) as (r & -> & _); eauto.
Qed.

Lemma resume_day_stable (renders : nat) (s : State) (f : Fiber)
  (cur : PlantData) (day : DayData) :
  (2 <= renders)%nat ->
  dayDeps (deps f) = Some (selectedDayIndex s, array_id (allDaysData s)) ->
  lastItem (plantData s) = Some cur ->
  nth_error (items (allDaysData s)) (selectedDayIndex s) = Some day ->
  exists f' sc, resume renders s f = Settled f' sc.
Proof.
  intros N Hd L D; unfold resume.
  destruct (sameHooks (state f) s);
    [|exact (settle_day_stable renders s (deps f) cur day N Hd L D)].
  destruct (render_ok s cur day L D) as (r & -> & _); eauto.
Qed.

(** ** Events *)

Section EventFacts.

Variable host : Host.

Lemma outcome_pair (x : Outcome * World) (o : Outcome) :
  fst x = o -> x = (o, snd x).
Proof. destruct x; cbn; now intros ->. Qed.

Lemma refreshData_result (s : State) (w : World) :
  fst (refreshData host s w)
  = match nth_error (items (fst (generateHistoricalData host w)))
            (selectedDayIndex s) with
    | Some day =>
        Some (setPlantData (data day)
                (setAllDaysData (fst (generateHistoricalData host w)) s))
    | None => None
    end.
Proof.
  unfold refreshData; rewrite run_bind.
  generalize (snd (generateHistoricalData host w)); intros w1.
  generalize (fst (generateHistoricalData host w)); intros newData.
  cbv zeta; destruct (nth_error (items newData) (selectedDayIndex s));
    reflexivity.
Qed.

Lemma dispatch_settle (renders : nat) (e : Event) (f : Fiber) (w : World) :
  fst (dispatch host renders e f w)
  = match fst (handle host e (state f) w) with
    | None => Crashed
    | Some s => resume renders s f
    end.
Proof.
  unfold dispatch, resume; rewrite run_bind.
  generalize (snd (handle host e (state f) w)); intros w1.
  destruct (fst (handle host e (state f) w)) as [s|]; [|reflexivity].
  destruct (sameHooks (state f) s); [|apply commit_settle].
  rewrite run_bind, run_ret, fst_pair.
  destruct (render s) as [r|] eqn:R; [|reflexivity].
  now rewrite (skippedUpdate_ok host s r w1 R).
Qed.

Lemma handle_refresh (s : State) :
  handle host PressRefresh s = refreshData host s.
Proof. reflexivity. Qed.

Lemma handle_metric (m : MetricType) (s : State) :
  handle host (PressMetric m) s = ret (Some (setSelectedMetric m s)).
Proof. reflexivity. Qed.

Lemma handle_selector (s : State) :
  handle host PressDaySelector s = ret (Some (setDayPickerVisible true s)).
Proof. reflexivity. Qed.

Lemma handle_day (index : nat) (s : State) :
  handle host (PressDay index) s
  = ret (Some (setDayPickerVisible false (setSelectedDayIndex index s))).
Proof. reflexivity. Qed.

Lemma handle_close (s : State) :
  handle host ClosePicker s = ret (Some (setDayPickerVisible false s)).
Proof. reflexivity. Qed.

Lemma dispatch_refresh (renders : nat) (f : Fiber) (w : World) :
  fst (dispatch host renders PressRefresh f w)
  = match nth_error (items (fst (generateHistoricalData host w)))
            (selectedDayIndex (state f)) with
    | Some day =>
        resume renders
          (setPlantData (data day)
             (setAllDaysData (fst (generateHistoricalData host w))
                (state f)))
          f
    | None => Crashed
    end.
Proof.
  rewrite dispatch_settle, handle_refresh, refreshData_result.
  generalize (fst (generateHistoricalData host w)); intros newData.
  destruct (nth_error (items newData) (selectedDayIndex (state f)));
    reflexivity.
Qed.

Lemma dispatch_metric (renders : nat) (m : MetricType) (f : Fiber)
  (w : World) :
  fst (dispatch host renders (PressMetric m) f w)
  = resume renders (setSelectedMetric m (state f)) f.
Proof. rewrite dispatch_settle, handle_metric, run_ret; reflexivity. Qed.

Lemma dispatch_day (renders : nat) (index : nat) (f : Fiber) (w : World) :
  fst (dispatch host renders (PressDay index) f w)
  = resume renders
      (setDayPickerVisible false (setSelectedDayIndex index (state f))) f.
Proof. rewrite dispatch_settle, handle_day, run_ret; reflexivity. Qed.

Lemma dispatch_selector (renders : nat) (f : Fiber) (w : World) :
  fst (dispatch host renders PressDaySelector f w)
  = resume renders (setDayPickerVisible true (state f)) f.
Proof. rewrite dispatch_settle, handle_selector, run_ret; reflexivity. Qed.

Lemma dispatch_close (renders : nat) (f : Fiber) (w : World) :
  fst (dispatch host renders ClosePicker f w)
  = resume renders (setDayPickerVisible false (state f)) f.
Proof. rewrite dispatch_settle, handle_close, run_ret; reflexivity. Qed.

Lemma mount_settle (renders : nat) (w : World) :
  fst (mount host renders w)
  = match renders with
    | O => Unsettled
    | S _ =>
        match nth_error (items (fst (generateHistoricalData host w))) 0 with
        | None => Crashed
        | Some day0 =>
            settle renders
              (initialState (fst (generateHistoricalData host w)) day0)
              noDeps
        end
    end.
Proof.
  unfold mount; destruct renders as [|n]; [reflexivity|].
  rewrite commit_S, run_bind, PlantDashboard_first.
  generalize (snd (generateHistoricalData host w)); intros w1.
  generalize (fst (generateHistoricalData host w)); intros init.
  cbn [fst snd settle]; unfold pass.
  destruct (nth_error (items init) 0) as [day0|] eqn:E; [|reflexivity].
  cbn [initialState allDaysData]; rewrite E.
  fold (initialState init day0); fold noDeps.
  destruct (render (initialState init day0)) as [r|] eqn:R; [|reflexivity].
  rewrite (commit_after host n r noDeps w1 (render_closure _ r R)).
  rewrite (proj1 (render_Some _ r R)).
  destruct (runEffects r noDeps) as [[[s' d'] ran]|]; [|reflexivity].
  destruct (sameHooks _ s'); [reflexivity | apply commit_settle].
Qed.

End EventFacts.

(** ** Invariants of the dashboard *)

Section Invariants.

Variable host : Host.

Lemma settle_bucket (renders : nat) (s : State) (d : Deps) (f : Fiber)
  (sc : Screen) :
  settle renders s d = Settled f sc ->
  exists day,
    nth_error (items (allDaysData s)) (selectedDayIndex s) = Some day.
Proof.
  intros H.
  destruct (settle_frame _ _ _ _ _ H) as (A & B & _).
  destruct (settle_quiescent _ _ _ _ _ H) as (_ & r & R & _).
  apply render_Some in R; destruct R as (_ & _ & (day & D & _) & _).
  exists day; now rewrite <- A, <- B.
Qed.

Lemma settle_coherent (renders : nat) (s : State) (d : Deps) (f : Fiber)
  (sc : Screen) (day : DayData) :
  settle renders s d = Settled f sc ->
  nth_error (items (allDaysData s)) (selectedDayIndex s) = Some day ->
  (dayDeps d = Some (selectedDayIndex s, array_id (allDaysData s)) ->
   plantData s = data day) ->
  Forall (fun day => data day <> []) (items (allDaysData s)) ->
  coherent f.
Proof.
  intros H D P F.
  destruct (settle_frame _ _ _ _ _ H) as (A & B & _).
  destruct (settle_quiescent _ _ _ _ _ H) as (Q & _).
  pose proof (settle_selected_bucket _ _ _ _ _ _ H D P) as E.
  split; [exact Q | split; [|now rewrite A]].
  exists day; now rewrite A, B.
Qed.

Lemma mount_coherent (renders : nat) (w : World) (f : Fiber) (sc : Screen) :
  fst (mount host renders w) = Settled f sc -> coherent f.
Proof.
  rewrite mount_settle; destruct renders as [|n]; [discriminate|].
  pose proof (generated_nonempty host w) as F; revert F.
  generalize (fst (generateHistoricalData host w)); intros init F.
  destruct (nth_error (items init) 0) as [day0|] eqn:E; [|discriminate].
  intros H; apply (settle_coherent _ _ _ _ _ day0 H); auto; discriminate.
Qed.

Lemma mount_in_bounds (renders : nat) (w : World) (f : Fiber)
  (sc : Screen) :
  fst (mount host renders w) = Settled f sc -> in_bounds (state f).
Proof.
  rewrite mount_settle; destruct renders as [|n]; [discriminate|].
  pose proof (generated_shape host w) as [L _]; revert L.
  generalize (fst (generateHistoricalData host w)); intros init L.
  destruct (nth_error (items init) 0) as [day0|]; [|discriminate].
  intros H; apply settle_frame in H; destruct H as (A & B & _).
  unfold in_bounds; rewrite A, B; cbn [initialState allDaysData
    selectedDayIndex]; lia.
Qed.

Lemma resume_bucket (renders : nat) (s : State) (f f' : Fiber)
  (sc : Screen) :
  resume renders s f = Settled f' sc ->
  exists day,
    nth_error (items (allDaysData s)) (selectedDayIndex s) = Some day.
Proof.
  intros H.
  destruct (resume_frame _ _ _ _ _ H) as (A & B & _).
  destruct (resume_screen _ _ _ _ _ H) as (r & R & _).
  apply render_Some in R; destruct R as (_ & _ & (day & D & _) & _).
  exists day; now rewrite <- A, <- B.
Qed.

Lemma resume_coherent (renders : nat) (s : State) (f f' : Fiber)
  (sc : Screen) (day : DayData) :
  coherent f ->
  resume renders s f = Settled f' sc ->
  nth_error (items (allDaysData s)) (selectedDayIndex s) = Some day ->
  (dayDeps (deps f) = Some (selectedDayIndex s, array_id (allDaysData s)) ->
   plantData s = data day) ->
  Forall (fun day => data day <> []) (items (allDaysData s)) ->
  coherent f'.
Proof.
  intros C; unfold resume; destruct (sameHooks (state f) s).
  - destruct (render s); [|discriminate].
    intros H _ _ _; now injection H as <- _.
  - intros H; exact (settle_coherent _ _ _ _ _ day H).
Qed.

(** The days the picker lists are buckets of the set. *)
Lemma offers_day_in_range (s : State) (index : nat) :
  offers s (PressDay index) ->
  (index < length (items (allDaysData s)))%nat.
Proof.
  unfold offers; destruct (render s) as [r|] eqn:R; [|easy].
  apply render_Some in R.
  destruct R as (_ & _ & _ & _ & _ & _ & _ & _ & _ & ->).
  destruct (dayPickerVisible s); [|easy].
  intros H; apply in_map_iff in H; destruct H as ([i l] & <- & H).
  apply in_combine_l, in_seq in H; cbn [fst]; lia.
Qed.

Lemma dispatch_in_bounds (renders : nat) (e : Event) (f f' : Fiber)
  (w : World) (sc : Screen) :
  in_bounds (state f) -> offers (state f) e ->
  fst (dispatch host renders e f w) = Settled f' sc ->
  in_bounds (state f').
Proof.
  intros [I L] O; destruct e as [|m| |index|].
  - rewrite dispatch_refresh.
    pose proof (generated_shape host w) as [L' _]; revert L'.
    generalize (fst (generateHistoricalData host w)); intros newData L'.
    destruct (nth_error (items newData) (selectedDayIndex (state f)));
      [|discriminate].
    intros S; apply resume_frame in S; destruct S as (A & B & _).
    unfold in_bounds; rewrite A, B.
    cbn [allDaysData selectedDayIndex setPlantData setAllDaysData]; lia.
  - rewrite dispatch_metric.
    intros S; apply resume_frame in S; destruct S as (A & B & _).
    unfold in_bounds; rewrite A, B; split; assumption.
  - rewrite dispatch_selector.
    intros S; apply resume_frame in S; destruct S as (A & B & _).
    unfold in_bounds; rewrite A, B; split; assumption.
  - rewrite dispatch_day; apply offers_day_in_range in O.
    intros S; apply resume_frame in S; destruct S as (A & B & _).
    unfold in_bounds; rewrite A, B; split; assumption.
  - rewrite dispatch_close.
    intros S; apply resume_frame in S; destruct S as (A & B & _).
    unfold in_bounds; rewrite A, B; split; assumption.
Qed.

Lemma dispatch_coherent (renders : nat) (e : Event) (f f' : Fiber)
  (w : World) (sc : Screen) :
  coherent f ->
  fst (dispatch host renders e f w) = Settled f' sc ->
  coherent f'.
Proof.
  intros C; pose proof C as (Q & (day & D & P) & F).
  destruct e as [|m| |index|].
  - rewrite dispatch_refresh.
    pose proof (generated_nonempty host w) as F'; revert F'.
    generalize (fst (generateHistoricalData host w)); intros newData F'.
    destruct (nth_error (items newData) (selectedDayIndex (state f)))
      as [day'|] eqn:D'; [|discriminate].
    intros S; apply (resume_coherent _ _ _ _ _ day' C S); auto.
  - rewrite dispatch_metric.
    intros S; apply (resume_coherent _ _ _ _ _ day C S); auto.
  - rewrite dispatch_selector.
    intros S; apply (resume_coherent _ _ _ _ _ day C S); auto.
  - rewrite dispatch_day.
    intros S; destruct (resume_bucket _ _ _ _ _ S) as [day' D'].
    apply (resume_coherent _ _ _ _ _ day' C S); auto.
    destruct Q as (r & _ & Q & _); rewrite Q.
    cbn [selectedDayIndex allDaysData setDayPickerVisible
         setSelectedDayIndex plantData] in *.
    intros [= E]; rewrite E, D' in D; now injection D as ->.
  - rewrite dispatch_close.
    intros S; apply (resume_coherent _ _ _ _ _ day C S); auto.
Qed.

(** The states of the dashboard are coherent and have their selected day
    in bounds. *)
Lemma reachable_invariant (f : Fiber) (w : World) :
  reachable host f w -> coherent f /\ in_bounds (state f).
Proof.
  induction 1 as [renders w w' f shown M
                 |renders e f f' w w' shown R [C I] O D].
  - split; [eapply mount_coherent | eapply mount_in_bounds];
      rewrite M; reflexivity.
  - split; [eapply dispatch_coherent | eapply dispatch_in_bounds];
      try rewrite D; try reflexivity; eassumption.
Qed.

End Invariants.

(** ** Object identities *)

Section Identities.

Variable host : Host.

Lemma newReading_next_ident (date hour : Z) (w : World) :
  next_ident (snd (newReading host date hour w)) = S (next_ident w).
Proof. unfold newReading; cbv zeta; rewrite !run_bind; reflexivity. Qed.

(** The readings of a bucket are allocated one after the other. *)
Lemma collect_readings_ids (date : Z) (l : list Z) :
  forall w : World,
    map object_id (fst (collect (newReading host date) l w))
    = seq (next_ident w) (length l) /\
    next_ident (snd (collect (newReading host date) l w))
    = (next_ident w + length l)%nat.
Proof.
  induction l as [|hour l IH]; intros w; cbn [collect length seq].
  - rewrite run_ret; cbn [fst snd map]; split; [reflexivity | lia].
  - rewrite !run_bind, run_ret; cbn [fst snd map].
    destruct (IH (snd (newReading host date hour w))) as [I1 I2].
    rewrite I1, I2, newReading_object_id, newReading_next_ident.
    split; [reflexivity | lia].
Qed.

Lemma newDay_snd (now dayOffset : Z) (w : World) :
  snd (newDay host now dayOffset w)
  = snd (collect (newReading host (bucketDate host now dayOffset)) hours w).
Proof.
  unfold newDay, bucketDate; cbv zeta.
  rewrite run_bind, run_ret, for_loop_push, hour_loop_indices.
  apply snd_pair.
Qed.

Lemma collect_days_ids (now : Z) (l : list Z) :
  forall w : World,
    flat_map (fun day => map object_id (data day))
      (fst (collect (newDay host now) l w))
    = seq (next_ident w) (12 * length l) /\
    next_ident (snd (collect (newDay host now) l w))
    = (next_ident w + 12 * length l)%nat.
Proof.
  induction l as [|k l IH]; intros w; cbn [collect length].
  - rewrite run_ret, Nat.mul_0_r; cbn [fst snd flat_map seq].
    split; [reflexivity | lia].
  - rewrite !run_bind, run_ret; cbn [fst snd flat_map].
    destruct (IH (snd (newDay host now k w))) as [I1 I2].
    rewrite I1, I2, newDay_data, newDay_snd.
    destruct (collect_readings_ids (bucketDate host now k) hours w)
      as [R1 R2].
    rewrite R1, R2; change (length hours) with 12%nat.
    replace (12 * S (length l))%nat with (12 + 12 * length l)%nat by lia.
    rewrite seq_app; split; [reflexivity | lia].
Qed.

(** The 84 readings of a generated set are stamped one after the other,
    after the stamp of its array. *)
Lemma generated_ids (w : World) :
  readingIds (fst (generateHistoricalData host w))
  = seq (S (next_ident w)) 84 /\
  next_ident (snd (generateHistoricalData host w))
  = (next_ident w + 85)%nat.
Proof.
  unfold readingIds; rewrite generateHistoricalData_items.
  assert (E : snd (generateHistoricalData host w)
              = snd (collect (newDay host (clock host (clock_reads w)))
                       dayOffsets (afterSetup w))).
  { unfold generateHistoricalData.
    rewrite !run_bind, run_ret, for_loop_push, day_loop_indices.
    apply snd_pair. }
  rewrite E.
  destruct (collect_days_ids (clock host (clock_reads w)) dayOffsets
              (afterSetup w)) as [I1 I2].
  rewrite I1, I2; change (length dayOffsets) with 7%nat.
  cbn [afterSetup next_ident]; split; [reflexivity | lia].
Qed.

(** The readings of a generated set are new objects. *)
Lemma generated_new (w : World) :
  Forall (fun id => (next_ident w < id)%nat)
    (readingIds (fst (generateHistoricalData host w))).
Proof.
  rewrite (proj1 (generated_ids w)).
  apply Forall_forall; intros id I; apply in_seq in I; lia.
Qed.

Lemma PlantDashboard_world (hooks : option State) (w : World) :
  snd (PlantDashboard host hooks w) = snd (generateHistoricalData host w).
Proof.
  destruct hooks as [s|];
    [rewrite PlantDashboard_update | rewrite PlantDashboard_first];
    apply snd_pair.
Qed.

Lemma skippedUpdate_next_ident (s : State) (w : World) :
  (next_ident w <= next_ident (snd (skippedUpdate host s w)))%nat.
Proof.
  unfold skippedUpdate; rewrite run_bind, React_callsAgain_fst.
  assert (next_ident (snd (React_callsAgain host w)) = next_ident w) as E
    by reflexivity.
  revert E; generalize (snd (React_callsAgain host w)); intros w1 <-.
  destruct (callsAgain host (skipped w)); [|rewrite run_ret; cbn; lia].
  rewrite run_bind, run_ret, snd_pair, PlantDashboard_world.
  pose proof (proj2 (generated_ids w1)); lia.
Qed.

(** Rendering never takes a stamp back. *)
Lemma commit_next_ident (renders : nat) :
  forall (hooks : option State) (d : Deps) (w : World),
    (next_ident w <= next_ident (snd (commit host renders hooks d w)))%nat.
Proof.
  induction renders as [|n IH]; intros hooks d w; [cbn; lia|].
  rewrite commit_S, run_bind, PlantDashboard_world.
  pose proof (proj2 (generated_ids w)) as G; revert G.
  generalize (snd (generateHistoricalData host w)); intros w1 G.
  destruct (fst (PlantDashboard host hooks w)) as [r|]; [|cbn; lia].
  destruct (runEffects r d) as [[[s d'] ran]|]; [|cbn; lia].
  destruct (sameHooks (closure r) s);
    [|specialize (IH (Some s) d' w1); lia].
  rewrite run_bind, run_ret, snd_pair.
  destruct ran; [|rewrite run_ret; cbn; lia].
  pose proof (skippedUpdate_next_ident s w1); lia.
Qed.

End Identities.

(** ** The status follows the selected day *)

Lemma readingIds_readings (days : DayArray) :
  readingIds days = map object_id (readings days).
Proof.
  unfold readingIds, readings.
  induction (items days) as [|day l IH]; cbn [flat_map map];
    [reflexivity|].
  now rewrite map_app, IH.
Qed.

Lemma ids_injective (l : list PlantData) :
  NoDup (map object_id l) ->
  forall r1 r2 : PlantData,
    In r1 l -> In r2 l -> object_id r1 = object_id r2 -> r1 = r2.
Proof.
  induction l as [|r l IH]; cbn [map]; intros N r1 r2 H1 H2 E; [easy|].
  apply NoDup_cons_iff in N; destruct N as [N1 N2].
  destruct H1 as [<- | H1], H2 as [<- | H2]; auto.
  - exfalso; apply N1; rewrite E; now apply in_map.
  - exfalso; apply N1; rewrite <- E; now apply in_map.
Qed.

Lemma bucket_readings (days : DayArray) (k : nat) (day : DayData)
  (r : PlantData) :
  nth_error (items days) k = Some day ->
  In r (data day) ->
  In r (readings days).
Proof.
  intros D H; apply in_flat_map; exists day; split; [|exact H].
  exact (nth_error_In _ _ D).
Qed.

Lemma lastItem_In {A : Type} (l : list A) (x : A) :
  lastItem l = Some x -> In x l.
Proof. apply nth_error_In. Qed.

(** After the renders the status is the one of the last reading of the
    active sequence. *)
Lemma settle_status (renders : nat) :
  forall (s : State) (d : Deps) (f : Fiber) (sc : Screen),
    settle renders s d = Settled f sc ->
    well_identified s d ->
    status_tracks (state f).
Proof.
  induction renders as [|n IH]; intros s d f sc H W; [discriminate|].
  cbn [settle] in H.
  destruct (pass s d) as [[[[s' d'] ran] sc']|] eqn:P; [|discriminate].
  apply pass_frame in P.
  destruct P as (A & B & _ & _ & r & day & R & _ & D & _ & D2 & Pd & Ps & E).
  apply render_Some in R; destruct R as (_ & L & _).
  destruct W as (N & (k & dayk & Dk & Pk) & C).
  assert (Hcur : In (currentData r) (readings (allDaysData s))).
  { apply (bucket_readings _ k dayk); [exact Dk|].
    rewrite <- Pk; exact (lastItem_In _ _ L). }
  assert (St : statusDeps d = Some (object_id (currentData r)) ->
               plantStatus s = statusOf (currentData r))
    by (apply C; exact Hcur).
  assert (St' : plantStatus s' = statusOf (currentData r)).
  { rewrite Ps.
    destruct (depsChanged Nat.eqb _ _) eqn:X; [reflexivity|].
    apply St, depsChanged_status_false, X. }
  destruct (sameHooks s s') eqn:Same.
  - apply sameHooks_eq in Same; subst s'.
    injection H as <- <-; cbn [state].
    exists (currentData r); split; [exact L | exact St'].
  - apply (IH _ _ _ _ H); split; [now rewrite A | split].
    + rewrite A, Pd.
      destruct (depsChanged sameDayDeps _ _);
        [now exists (selectedDayIndex s), day | now exists k, dayk].
    + rewrite A, D2; intros r0 H0 [= E0].
      rewrite readingIds_readings in N.
      rewrite <- (ids_injective _ N _ _ Hcur H0 E0); exact St'.
Qed.

(** The renders after a handler either leave the component as it is or
    render the hooks the handler left. *)
Lemma resume_cases (renders : nat) (s : State) (f f' : Fiber)
  (sc : Screen) :
  resume renders s f = Settled f' sc ->
  (f' = f /\ state f = s) \/ settle renders s (deps f) = Settled f' sc.
Proof.
  unfold resume; destruct (sameHooks (state f) s) eqn:E; [|now right].
  apply sameHooks_eq in E.
  destruct (render s); [|discriminate].
  intros H; injection H as <- _; now left.
Qed.

Section StatusInvariant.

Variable host : Host.

Lemma refreshData_world (s : State) (w : World) :
  snd (refreshData host s w) = snd (generateHistoricalData host w).
Proof.
  unfold refreshData; rewrite run_bind; cbv zeta.
  destruct (nth_error _ _); apply snd_pair.
Qed.

Lemma handle_next_ident (e : Event) (s : State) (w : World) :
  (next_ident w <= next_ident (snd (handle host e s w)))%nat.
Proof.
  destruct e as [|m| |index|].
  - rewrite handle_refresh, refreshData_world.
    rewrite (proj2 (generated_ids host w)); lia.
  - rewrite handle_metric, run_ret, snd_pair; lia.
  - rewrite handle_selector, run_ret, snd_pair; lia.
  - rewrite handle_day, run_ret, snd_pair; lia.
  - rewrite handle_close, run_ret, snd_pair; lia.
Qed.

Lemma dispatch_next_ident (renders : nat) (e : Event) (f : Fiber)
  (w : World) :
  (next_ident (snd (handle host e (state f) w))
   <= next_ident (snd (dispatch host renders e f w)))%nat.
Proof.
  unfold dispatch; rewrite run_bind.
  generalize (snd (handle host e (state f) w)); intros w1.
  destruct (fst (handle host e (state f) w)) as [s|]; [|cbn; lia].
  destruct (sameHooks (state f) s); [|apply commit_next_ident].
  rewrite run_bind, run_ret, snd_pair.
  apply skippedUpdate_next_ident.
Qed.

Lemma mount_next_ident (renders : nat) (w : World) (f : Fiber)
  (sc : Screen) :
  fst (mount host renders w) = Settled f sc ->
  (next_ident w + 85 <= next_ident (snd (mount host renders w)))%nat.
Proof.
  unfold mount; destruct renders as [|n]; [discriminate|]; intros _.
  rewrite commit_S, run_bind, PlantDashboard_world.
  pose proof (proj2 (generated_ids host w)) as G; revert G.
  generalize (snd (generateHistoricalData host w)); intros w1 G.
  destruct (fst (PlantDashboard host None w)) as [r|]; [|cbn; lia].
  destruct (runEffects r _) as [[[s d'] ran]|]; [|cbn; lia].
  destruct (sameHooks (closure r) s);
    [|pose proof (commit_next_ident host n (Some s) d' w1); lia].
  rewrite run_bind, run_ret, snd_pair.
  destruct ran; [|rewrite run_ret; cbn; lia].
  pose proof (skippedUpdate_next_ident host s w1); lia.
Qed.

Lemma generated_allocated (w w' : World) :
  (next_ident w + 85 <= next_ident w')%nat ->
  NoDup (readingIds (fst (generateHistoricalData host w))) /\
  Forall (fun id => (id < next_ident w')%nat)
    (readingIds (fst (generateHistoricalData host w))) /\
  Forall (fun id => (next_ident w < id)%nat)
    (readingIds (fst (generateHistoricalData host w))).
Proof.
  intros H; rewrite (proj1 (generated_ids host w)).
  split; [apply seq_NoDup|].
  split; apply Forall_forall; intros id I; apply in_seq in I; lia.
Qed.

(** The readings of a state of the dashboard have distinct stamps, and its
    status is the one of the last reading of the active sequence. *)
Lemma reachable_status (f : Fiber) (w : World) :
  reachable host f w -> allocated f w /\ status_tracks (state f).
Proof.
  intros R; pose proof R as R0; revert R0.
  induction R as [renders w w' f shown M
                 |renders e f f' w w' shown R IH O D]; intros R0.
  - clear R0.
    assert (M1 : fst (mount host renders w) = Settled f shown)
      by now rewrite M.
    pose proof (mount_next_ident renders w f shown M1) as Hw.
    rewrite M, snd_pair in Hw; clear M.
    rewrite mount_settle in M1; destruct renders as [|n]; [discriminate|].
    destruct (generated_allocated w w' Hw) as (N & B & _); revert N B M1.
    generalize (fst (generateHistoricalData host w)); intros init N B M1.
    destruct (nth_error (items init) 0) as [day0|] eqn:E; [|discriminate].
    destruct (settle_frame _ _ _ _ _ M1) as (A & _).
    cbn [initialState allDaysData] in A.
    split; [unfold allocated; rewrite A; split; assumption|].
    apply (settle_status _ _ _ _ _ M1); split; [exact N | split].
    + now exists 0%nat, day0.
    + intros r _; discriminate.
  - destruct (IH R) as [[N B] (cur & Lc & Sc)]; clear IH.
    destruct (reachable_invariant host f w R)
      as [(Q & (day & Dd & Pd) & F) _].
    assert (D1 : fst (dispatch host renders e f w) = Settled f' shown)
      by now rewrite D.
    pose proof (dispatch_next_ident renders e f w) as Hw.
    rewrite D, snd_pair in Hw; clear D R0 O.
    assert (Same : (next_ident w <= next_ident w')%nat ->
                   allocated f w' /\ status_tracks (state f)).
    { intros Hw'; split; [split; [exact N|] | now exists cur].
      revert B; apply Forall_impl; intros id; lia. }
    destruct Q as (r & Rr & _ & Q2).
    apply render_Some in Rr; destruct Rr as (_ & Lr & _).
    rewrite Lc in Lr; injection Lr as Ecur; rewrite <- Ecur in Q2.
    clear Ecur r.
    assert (Hcur : In cur (readings (allDaysData (state f)))).
    { apply (bucket_readings _ _ day _ Dd).
      rewrite <- Pd; exact (lastItem_In _ _ Lc). }
    assert (W : forall s : State,
               allDaysData s = allDaysData (state f) ->
               plantData s = plantData (state f) ->
               plantStatus s = plantStatus (state f) ->
               well_identified s (deps f)).
    { intros s A1 A2 A3; split; [now rewrite A1 | split].
      - exists (selectedDayIndex (state f)), day; now rewrite A1, A2.
      - rewrite A1, A3, Q2; intros r0 H0 [= E0].
        rewrite readingIds_readings in N.
        rewrite <- (ids_injective _ N _ _ Hcur H0 E0); exact Sc. }
    assert (K : forall s : State,
               allDaysData s = allDaysData (state f) ->
               plantData s = plantData (state f) ->
               plantStatus s = plantStatus (state f) ->
               (next_ident w <= next_ident w')%nat ->
               settle renders s (deps f) = Settled f' shown ->
               allocated f' w' /\ status_tracks (state f')).
    { intros s A1 A2 A3 Hw' S; split.
      - destruct (settle_frame _ _ _ _ _ S) as (A & _).
        unfold allocated; rewrite A, A1; split; [exact N|].
        revert B; apply Forall_impl; intros id; lia.
      - exact (settle_status _ _ _ _ _ S (W s A1 A2 A3)). }
    destruct e as [|m| |index|].
    + rewrite handle_refresh, refreshData_world in Hw.
      rewrite (proj2 (generated_ids host w)) in Hw.
      rewrite dispatch_refresh in D1.
      destruct (generated_allocated w w' Hw) as (N' & B' & G'); clear K W.
      revert N' B' G' D1.
      generalize (fst (generateHistoricalData host w)).
      intros newData N' B' G' D1.
      destruct (nth_error (items newData) (selectedDayIndex (state f)))
        as [day'|] eqn:D'; [|discriminate].
      apply resume_cases in D1; destruct D1 as [[-> _] | D1];
        [apply Same; lia|].
      destruct (settle_frame _ _ _ _ _ D1) as (A & _).
      cbn [allDaysData setPlantData setAllDaysData] in A.
      split; [unfold allocated; rewrite A; split; assumption|].
      apply (settle_status _ _ _ _ _ D1); split; [exact N' | split].
      * now exists (selectedDayIndex (state f)), day'.
      * cbn [allDaysData setPlantData setAllDaysData]; rewrite Q2.
        intros r0 H0 [= E0]; exfalso.
        assert (I1 : (object_id cur < next_ident w)%nat).
        { apply (proj1 (Forall_forall _ _) B).
          rewrite readingIds_readings; now apply in_map. }
        assert (I2 : (next_ident w < object_id r0)%nat).
        { apply (proj1 (Forall_forall _ _) G').
          rewrite readingIds_readings; now apply in_map. }
        lia.
    + rewrite handle_metric, run_ret, snd_pair in Hw.
      rewrite dispatch_metric in D1.
      apply resume_cases in D1; destruct D1 as [[-> _] | D1];
        [exact (Same Hw)|].
      exact (K (setSelectedMetric m (state f)) eq_refl eq_refl eq_refl
               Hw D1).
    + rewrite handle_selector, run_ret, snd_pair in Hw.
      rewrite dispatch_selector in D1.
      apply resume_cases in D1; destruct D1 as [[-> _] | D1];
        [exact (Same Hw)|].
      exact (K (setDayPickerVisible true (state f)) eq_refl eq_refl eq_refl
               Hw D1).
    + rewrite handle_day, run_ret, snd_pair in Hw.
      rewrite dispatch_day in D1.
      apply resume_cases in D1; destruct D1 as [[-> _] | D1];
        [exact (Same Hw)|].
      exact (K (setDayPickerVisible false
                  (setSelectedDayIndex index (state f)))
               eq_refl eq_refl eq_refl Hw D1).
    + rewrite handle_close, run_ret, snd_pair in Hw.
      rewrite dispatch_close in D1.
      apply resume_cases in D1; destruct D1 as [[-> _] | D1];
        [exact (Same Hw)|].
      exact (K (setDayPickerVisible false (state f)) eq_refl eq_refl eq_refl
               Hw D1).
Qed.

(** In every state of the dashboard the status is the one of the last
    reading of the selected day. *)
Theorem status_of_selected_day (f : Fiber) (w : World) :
  reachable host f w ->
  exists (day : DayData) (cur : PlantData),
    nth_error (items (allDaysData (state f))) (selectedDayIndex (state f))
    = Some day /\
    lastItem (data day) = Some cur /\
    plantStatus (state f) = statusOf cur.
Proof.
  intros R.
  destruct (reachable_invariant host f w R) as [(_ & (day & D & P) & _) _].
  destruct (reachable_status f w R) as [_ (cur & L & S)].
  exists day, cur; rewrite <- P; auto.
Qed.

End StatusInvariant.

(** ** The dashboard *)

Lemma bucket_nonempty (days : list DayData) (i : nat) (day : DayData) :
  Forall (fun day => data day <> []) days ->
  nth_error days i = Some day ->
  data day <> [].
Proof.
  intros F D; apply nth_error_In in D.
  exact (proj1 (Forall_forall _ _) F day D).
Qed.

(** C6. The selected day index is within the bounds of the generated set,
    which has seven buckets: this holds when the component has mounted,
    and every event the screen offers (a day of the picker, a metric, the
    refresh button, opening and closing the picker) preserves it. *)
Theorem selected_day_index_in_bounds (host : Host) (renders : nat) :
  (forall (w w' : World) (f : Fiber) (shown : Screen),
     mount host renders w = (Settled f shown, w') ->
     in_bounds (state f)) /\
  (forall (e : Event) (f f' : Fiber) (w w' : World) (shown : Screen),
     in_bounds (state f) ->
     offers (state f) e ->
     dispatch host renders e f w = (Settled f' shown, w') ->
     in_bounds (state f')).
Proof.
  split.
  - intros w w' f shown M.
    apply (mount_in_bounds host renders w f shown); now rewrite M.
  - intros e f f' w w' shown I O D.
    apply (dispatch_in_bounds host renders e f f' w shown I O).
    now rewrite D.
Qed.

(** C4. Refreshing replaces the set by a newly generated one, of seven
    buckets whose readings are new objects, and keeps the selected day
    index; the active reading sequence becomes the bucket at that index of
    the new set. *)
Theorem refresh_replaces_set_and_keeps_day (host : Host) (renders : nat)
  (f : Fiber) (w : World) :
  (3 <= renders)%nat ->
  (selectedDayIndex (state f) < 7)%nat ->
  exists (f' : Fiber) (shown : Screen) (w' : World) (day : DayData),
    dispatch host renders PressRefresh f w = (Settled f' shown, w') /\
    allDaysData (state f') = fst (generateHistoricalData host w) /\
    array_id (allDaysData (state f')) = next_ident w /\
    length (items (allDaysData (state f'))) = 7%nat /\
    Forall (fun id => (next_ident w < id)%nat)
      (readingIds (allDaysData (state f'))) /\
    selectedDayIndex (state f') = selectedDayIndex (state f) /\
    nth_error (items (allDaysData (state f'))) (selectedDayIndex (state f'))
    = Some day /\
    plantData (state f') = data day.
Proof.
  intros N I.
  pose proof (dispatch_refresh host renders f w) as E.
  pose proof (generated_shape host w) as [L _].
  pose proof (generated_nonempty host w) as F.
  pose proof (generateHistoricalData_array_id host w) as A.
  pose proof (generated_new host w) as G.
  revert E L F A G.
  generalize (fst (generateHistoricalData host w)); intros newData E L F A G.
  destruct (nth_error (items newData) (selectedDayIndex (state f)))
    as [day|] eqn:D; [|clear E; apply nth_error_None in D; lia].
  pose proof (bucket_nonempty _ _ _ F D) as Hday.
  destruct (lastItem_nonempty _ Hday) as [cur Lc].
  destruct (resume_three renders
              (setPlantData (data day) (setAllDaysData newData (state f)))
              f cur day N Lc D Hday) as (f' & sc & S).
  rewrite S in E.
  destruct (resume_frame _ _ _ _ _ S) as (A1 & A2 & _).
  pose proof (resume_selected_bucket _ _ _ _ _ day S D (fun _ => eq_refl)
                (fun _ => eq_refl)) as P.
  cbn [allDaysData selectedDayIndex setPlantData setAllDaysData] in A1, A2.
  exists f', sc, (snd (dispatch host renders PressRefresh f w)), day.
  split; [apply outcome_pair, E|].
  rewrite A1, A2; auto 10.
Qed.

(** C5. Selecting a day of the set shows the last reading of that day's
    bucket: its temperature, humidity and soil moisture are the values on
    the screen, and the bucket is the active reading sequence. *)
Theorem select_day_shows_last_reading (host : Host) (renders : nat)
  (f : Fiber) (w : World) (i : nat) (day : DayData) :
  (3 <= renders)%nat ->
  coherent f ->
  nth_error (items (allDaysData (state f))) i = Some day ->
  exists (f' : Fiber) (shown : Screen) (w' : World) (last : PlantData),
    dispatch host renders (PressDay i) f w = (Settled f' shown, w') /\
    lastItem (data day) = Some last /\
    shownTemperature shown = temperature last /\
    shownHumidity shown = humidity last /\
    shownSoilMoisture shown = soilMoisture last /\
    shownDay shown = label day /\
    selectedDayIndex (state f') = i /\
    plantData (state f') = data day /\
    allDaysData (state f') = allDaysData (state f).
Proof.
  intros N (Q & (day0 & D0 & P0) & F) D.
  pose proof (dispatch_day host renders i f w) as E.
  set (s := setDayPickerVisible false (setSelectedDayIndex i (state f)))
    in E.
  pose proof (bucket_nonempty _ _ _ F D) as Hday.
  pose proof (bucket_nonempty _ _ _ F D0) as Hday0.
  destruct (lastItem_nonempty _ Hday0) as [cur Lc]; rewrite <- P0 in Lc.
  destruct (resume_three renders s f cur day N Lc D Hday)
    as (f' & sc & S).
  rewrite S in E.
  destruct (resume_frame _ _ _ _ _ S) as (A1 & A2 & _).
  destruct (resume_screen _ _ _ _ _ S) as (r & R & <-).
  assert (P : plantData (state f') = data day).
  { apply (resume_selected_bucket _ _ _ _ _ day S D).
    - destruct Q as (r0 & _ & Q & _); rewrite Q.
      cbn [s selectedDayIndex allDaysData setDayPickerVisible
           setSelectedDayIndex plantData].
      intros [= <-]; rewrite D0 in D; now injection D as ->.
    - intros Same; pose proof (f_equal selectedDayIndex Same) as Ei.
      cbn [s selectedDayIndex setDayPickerVisible setSelectedDayIndex]
        in Ei |- *.
      rewrite Ei, D in D0; now injection D0 as ->. }
  apply render_Some in R.
  destruct R as (_ & L & (day' & D' & Ld) & T & H & M & _).
  rewrite A1, A2 in D'.
  cbn [s selectedDayIndex allDaysData setDayPickerVisible
       setSelectedDayIndex] in D', A1, A2.
  rewrite D in D'; injection D' as <-.
  rewrite P in L.
  exists f', (screen r), (snd (dispatch host renders (PressDay i) f w)),
    (currentData r).
  split; [apply outcome_pair, E|]; auto 10.
Qed.

(** C10. Selecting a metric changes the selected metric and nothing else:
    the set, the selected day index, the active reading sequence and the
    status are as before (and so are the dependencies of the effects); the
    chart plots the selected field of the same readings. *)
Theorem select_metric_changes_only_metric (host : Host) (renders : nat)
  (f : Fiber) (w : World) (m : MetricType) :
  (1 <= renders)%nat ->
  quiescent f ->
  exists (f' : Fiber) (shown : Screen) (w' : World),
    dispatch host renders (PressMetric m) f w = (Settled f' shown, w') /\
    selectedMetric (state f') = m /\
    allDaysData (state f') = allDaysData (state f) /\
    selectedDayIndex (state f') = selectedDayIndex (state f) /\
    plantData (state f') = plantData (state f) /\
    plantStatus (state f') = plantStatus (state f) /\
    dayPickerVisible (state f') = dayPickerVisible (state f) /\
    deps f' = deps f /\
    chartValues shown = map (metricOf m) (plantData (state f)).
Proof.
  intros N (r & R & Q1 & Q2).
  pose proof (dispatch_metric host renders m f w) as E.
  apply render_Some in R; destruct R as (_ & L & (day & D & _) & _).
  destruct (pass_eq (setSelectedMetric m (state f)) (deps f)
              (currentData r) day L D) as (r' & R' & C & P).
  unfold resume in E.
  destruct (sameHooks (state f) (setSelectedMetric m (state f))) eqn:Same.
  { clear P; rewrite R' in E; apply sameHooks_eq in Same.
    pose proof (f_equal selectedMetric Same) as Em.
    cbn [selectedMetric setSelectedMetric] in Em.
    apply render_Some in R'.
    destruct R' as (_ & _ & _ & _ & _ & _ & _ & V & _).
    exists f, (screen r'), (snd (dispatch host renders (PressMetric m) f w)).
    split; [apply outcome_pair, E|].
    repeat split; [exact Em | exact V]. }
  destruct renders as [|n]; [lia|]; cbn [settle] in E.
  cbv zeta in P; rewrite P in E; clear P.
  cbn [selectedDayIndex allDaysData setSelectedMetric] in E.
  rewrite Q1, Q2 in E; cbn [depsChanged] in E.
  rewrite sameDayDeps_refl, Nat.eqb_refl in E; cbn [negb orb] in E.
  rewrite sameHooks_refl in E.
  apply render_Some in R'.
  destruct R' as (_ & _ & _ & _ & _ & _ & _ & V & _).
  exists {| state := setSelectedMetric m (state f);
            deps := {| dayDeps := Some (selectedDayIndex (state f),
                                        array_id (allDaysData (state f)));
                       statusDeps := Some (object_id (currentData r)) |} |},
    (screen r'), (snd (dispatch host (S n) (PressMetric m) f w)).
  split; [apply outcome_pair, E|].
  cbn [state deps selectedMetric allDaysData selectedDayIndex plantData
       plantStatus dayPickerVisible setSelectedMetric] in *.
  repeat split; [|exact V].
  destruct (deps f) as [d1 d2]; cbn in Q1, Q2; now subst.
Qed.

(** ** Progress *)

(** The component mounts within three renders, on every host. *)
Lemma mount_settles (host : Host) (renders : nat) (w : World) :
  (3 <= renders)%nat ->
  exists (f : Fiber) (shown : Screen) (w' : World),
    mount host renders w = (Settled f shown, w').
Proof.
  intros N.
  pose proof (mount_settle host renders w) as E.
  destruct renders as [|n]; [lia|].
  pose proof (generated_shape host w) as [L _].
  pose proof (generated_nonempty host w) as F.
  revert E L F.
  generalize (fst (generateHistoricalData host w)); intros init E L F.
  destruct (nth_error (items init) 0) as [day0|] eqn:D;
    [|clear E; apply nth_error_None in D; lia].
  pose proof (bucket_nonempty _ _ _ F D) as Hday.
  destruct (lastItem_nonempty _ Hday) as [cur Lc].
  destruct (settle_three (S n) (initialState init day0) noDeps cur day0
              N Lc D Hday) as (f & sc & St).
  rewrite St in E.
  exists f, sc, (snd (mount host (S n) w)); apply outcome_pair, E.
Qed.

(** An event the screen offers is handled within three renders, in every
    state of the dashboard. *)
Lemma dispatch_settles (host : Host) (renders : nat) (e : Event)
  (f : Fiber) (w : World) :
  (3 <= renders)%nat ->
  coherent f -> in_bounds (state f) -> offers (state f) e ->
  exists (f' : Fiber) (shown : Screen) (w' : World),
    dispatch host renders e f w = (Settled f' shown, w').
Proof.
  intros N (Q & (day & D & P) & F) [I L] O.
  pose proof (bucket_nonempty _ _ _ F D) as Hday.
  destruct (lastItem_nonempty _ Hday) as [cur Lc]; rewrite <- P in Lc.
  assert (K : forall s : State,
             fst (dispatch host renders e f w) = resume renders s f ->
             (exists cur' day',
                lastItem (plantData s) = Some cur' /\
                nth_error (items (allDaysData s)) (selectedDayIndex s)
                = Some day' /\
                data day' <> []) ->
             exists f' shown w',
               dispatch host renders e f w = (Settled f' shown, w')).
  { intros s E (cur' & day' & L' & D' & H').
    destruct (resume_three renders s f cur' day' N L' D' H')
      as (f' & sc & S).
    rewrite S in E.
    exists f', sc, (snd (dispatch host renders e f w)).
    apply outcome_pair, E. }
  destruct e as [|m| |index|].
  - pose proof (dispatch_refresh host renders f w) as E.
    pose proof (generated_shape host w) as [L' _].
    pose proof (generated_nonempty host w) as F'.
    revert E L' F'.
    generalize (fst (generateHistoricalData host w)); intros newData E L' F'.
    destruct (nth_error (items newData) (selectedDayIndex (state f)))
      as [day'|] eqn:D'; [|clear E K; apply nth_error_None in D'; lia].
    pose proof (bucket_nonempty _ _ _ F' D') as Hday'.
    destruct (lastItem_nonempty _ Hday') as [cur' Lc'].
    apply (K _ E); exists cur', day'; auto.
  - apply (K _ (dispatch_metric host renders m f w)).
    exists cur, day; auto.
  - apply (K _ (dispatch_selector host renders f w)).
    exists cur, day; auto.
  - apply offers_day_in_range in O.
    destruct (nth_error (items (allDaysData (state f))) index)
      as [day'|] eqn:D'; [|clear K; apply nth_error_None in D'; lia].
    apply (K _ (dispatch_day host renders index f w)).
    exists cur, day'; repeat split; auto.
    exact (bucket_nonempty _ _ _ F D').
  - apply (K _ (dispatch_close host renders f w)).
    exists cur, day; auto.
Qed.

(** ** The dashboard on the sample host *)

Lemma settled_outcome (x : Outcome * World) (shown : Screen) :
  settledScreen (fst x) = Some shown ->
  x = (Settled (settledFiber (fst x)) shown, snd x).
Proof.
  destruct x as [[f sc| |] w]; cbn; [|discriminate|discriminate].
  now intros [= ->].
Qed.

Lemma sampleMounted_settled :
  exists shown,
    mount sampleHost 3 startWorld
    = (Settled sampleFiber shown, snd sampleMounted).
Proof.
  destruct (settledScreen (fst sampleMounted)) as [shown|] eqn:E;
    [|vm_compute in E; discriminate E].
  exists shown; exact (settled_outcome sampleMounted shown E).
Qed.

Lemma sampleOpened_settled :
  exists shown,
    dispatch sampleHost 3 PressDaySelector sampleFiber (snd sampleMounted)
    = (Settled sampleOpenedFiber shown, snd sampleOpened).
Proof.
  destruct (settledScreen (fst sampleOpened)) as [shown|] eqn:E;
    [|vm_compute in E; discriminate E].
  exists shown; exact (settled_outcome sampleOpened shown E).
Qed.

Lemma sampleDay4_settled :
  exists shown,
    dispatch sampleHost 3 (PressDay 4) sampleOpenedFiber (snd sampleOpened)
    = (Settled sampleDay4Fiber shown, snd sampleDay4).
Proof.
  destruct (settledScreen (fst sampleDay4)) as [shown|] eqn:E;
    [|vm_compute in E; discriminate E].
  exists shown; exact (settled_outcome sampleDay4 shown E).
Qed.

Lemma sampleOpened_offers_day4 :
  offers (state sampleOpenedFiber) (PressDay 4).
Proof. vm_compute; tauto. Qed.

Lemma sampleFiber_reachable :
  reachable sampleHost sampleFiber (snd sampleMounted).
Proof.
  destruct sampleMounted_settled as [shown E].
  exact (reachable_mount sampleHost 3 startWorld _ _ shown E).
Qed.

Lemma sampleDay4_reachable :
  reachable sampleHost sampleDay4Fiber (snd sampleDay4).
Proof.
  destruct sampleOpened_settled as [shown1 E1].
  destruct sampleDay4_settled as [shown2 E2].
  apply (reachable_event sampleHost 3 (PressDay 4) sampleOpenedFiber _
           (snd sampleOpened) _ shown2);
    [|exact sampleOpened_offers_day4 | exact E2].
  apply (reachable_event sampleHost 3 PressDaySelector sampleFiber _
           (snd sampleMounted) _ shown1);
    [exact sampleFiber_reachable | vm_compute; exact I | exact E1].
Qed.

Lemma sampleFiber_coherent : coherent sampleFiber.
Proof. exact (proj1 (reachable_invariant _ _ _ sampleFiber_reachable)). Qed.

Lemma sampleDay4_coherent : coherent sampleDay4Fiber.
Proof. exact (proj1 (reachable_invariant _ _ _ sampleDay4_reachable)). Qed.

Lemma selected_day_index_in_bounds_witness :
  in_bounds (state sampleFiber) /\ in_bounds (state sampleDay4Fiber).
Proof.
  destruct (selected_day_index_in_bounds sampleHost 3) as [M S].
  destruct sampleMounted_settled as [shown0 E0].
  destruct sampleOpened_settled as [shown1 E1].
  destruct sampleDay4_settled as [shown2 E2].
  pose proof (M _ _ _ _ E0) as I0.
  split; [exact I0|].
  apply (S (PressDay 4) sampleOpenedFiber sampleDay4Fiber (snd sampleOpened)
           (snd sampleDay4) shown2);
    [|exact sampleOpened_offers_day4 | exact E2].
  apply (S PressDaySelector sampleFiber sampleOpenedFiber
           (snd sampleMounted) (snd sampleOpened) shown1);
    [exact I0 | vm_compute; exact I | exact E1].
Defined.

Lemma refresh_replaces_set_and_keeps_day_witness :
  (3 <= 3)%nat /\
  (selectedDayIndex (state sampleDay4Fiber) < 7)%nat /\
  exists (f' : Fiber) (shown : Screen) (w' : World) (day : DayData),
    dispatch sampleHost 3 PressRefresh sampleDay4Fiber (snd sampleDay4)
    = (Settled f' shown, w') /\
    allDaysData (state f')
    = fst (generateHistoricalData sampleHost (snd sampleDay4)) /\
    array_id (allDaysData (state f')) = next_ident (snd sampleDay4) /\
    length (items (allDaysData (state f'))) = 7%nat /\
    Forall (fun id => (next_ident (snd sampleDay4) < id)%nat)
      (readingIds (allDaysData (state f'))) /\
    selectedDayIndex (state f') = selectedDayIndex (state sampleDay4Fiber) /\
    nth_error (items (allDaysData (state f'))) (selectedDayIndex (state f'))
    = Some day /\
    plantData (state f') = data day.
Proof.
  assert (I : (selectedDayIndex (state sampleDay4Fiber) < 7)%nat)
    by (vm_compute; lia).
  split; [lia|].
  split; [exact I|].
  exact (refresh_replaces_set_and_keeps_day sampleHost 3 sampleDay4Fiber
           (snd sampleDay4) (le_n 3) I).
Defined.

Lemma select_day_shows_last_reading_witness :
  let day := nth 2 (items (allDaysData (state sampleFiber))) noDay in
  (3 <= 3)%nat /\
  coherent sampleFiber /\
  nth_error (items (allDaysData (state sampleFiber))) 2 = Some day /\
  exists (f' : Fiber) (shown : Screen) (w' : World) (last : PlantData),
    dispatch sampleHost 3 (PressDay 2) sampleFiber (snd sampleMounted)
    = (Settled f' shown, w') /\
    lastItem (data day) = Some last /\
    shownTemperature shown = temperature last /\
    shownHumidity shown = humidity last /\
    shownSoilMoisture shown = soilMoisture last /\
    shownDay shown = label day /\
    selectedDayIndex (state f') = 2%nat /\
    plantData (state f') = data day /\
    allDaysData (state f') = allDaysData (state sampleFiber).
Proof.
  cbv zeta.
  assert (D : nth_error (items (allDaysData (state sampleFiber))) 2
              = Some (nth 2 (items (allDaysData (state sampleFiber)))
                        noDay))
    by (vm_compute; reflexivity).
  split; [lia|].
  split; [exact sampleFiber_coherent|].
  split; [exact D|].
  exact (select_day_shows_last_reading sampleHost 3 sampleFiber
           (snd sampleMounted) 2 _ (le_n 3) sampleFiber_coherent D).
Defined.

Lemma select_metric_changes_only_metric_witness :
  (1 <= 1)%nat /\
  quiescent sampleDay4Fiber /\
  exists (f' : Fiber) (shown : Screen) (w' : World),
    dispatch sampleHost 1 (PressMetric Humidity) sampleDay4Fiber
      (snd sampleDay4)
    = (Settled f' shown, w') /\
    selectedMetric (state f') = Humidity /\
    allDaysData (state f') = allDaysData (state sampleDay4Fiber) /\
    selectedDayIndex (state f') = selectedDayIndex (state sampleDay4Fiber) /\
    plantData (state f') = plantData (state sampleDay4Fiber) /\
    plantStatus (state f') = plantStatus (state sampleDay4Fiber) /\
    dayPickerVisible (state f') = dayPickerVisible (state sampleDay4Fiber) /\
    deps f' = deps sampleDay4Fiber /\
    chartValues shown
    = map (metricOf Humidity) (plantData (state sampleDay4Fiber)).
Proof.
  split; [lia|].
  split; [exact (proj1 sampleDay4_coherent)|].
  exact (select_metric_changes_only_metric sampleHost 1 sampleDay4Fiber
           (snd sampleDay4) Humidity (le_n 1) (proj1 sampleDay4_coherent)).
Defined.

(** ** Sample runs *)

Example leap_day_before_march :
  let t := JSDate.MakeDate (JSDate.MakeDay 2024 2 1) 5000 in
  let utc := fun (_ : Z) (_ : bool) => 0 in
  let t' := JSDate.setDate utc t (JSDate.getDate utc t - 1) in
  (JSDate.YearFromTime t', JSDate.MonthFromTime t', JSDate.DateFromTime t',
   JSDate.TimeWithinDay t') = (2024, 1, 29, 5000).
Proof. vm_compute; reflexivity. Qed.

Example sample_labels :
  map label (items (fst (generateHistoricalData sampleHost startWorld)))
  = ["Nov 1"; "Oct 31"; "Oct 30"; "Oct 29"; "Oct 28"; "Oct 27";
     "Oct 26"]%string.
Proof. vm_compute; reflexivity. Qed.

Example sample_first_bucket :
  map (fun r => (displayTime r, temperature r, humidity r, soilMoisture r))
    (data (nth 0 (items (fst (generateHistoricalData sampleHost
                                startWorld))) noDay))
  = [("12:00 AM", 65, 57, 62); ("02:00 AM", 66, 59, 65);
     ("04:00 AM", 67, 61, 68); ("06:00 AM", 68, 63, 41);
     ("08:00 AM", 69, 65, 44); ("10:00 AM", 70, 67, 47);
     ("12:00 PM", 71, 69, 50); ("02:00 PM", 72, 51, 53);
     ("04:00 PM", 73, 53, 56); ("06:00 PM", 74, 55, 59);
     ("08:00 PM", 65, 57, 62); ("10:00 PM", 66, 59, 65)]%string.
Proof. vm_compute; reflexivity. Qed.

(** The day shown, the values shown and the status after each day of the
    picker is pressed. *)
Example sample_days :
  let mounted := mount sampleHost 3 startWorld in
  let opened :=
    dispatch sampleHost 3 PressDaySelector (settledFiber (fst mounted))
      (snd mounted) in
  map (fun i =>
         let o := dispatch sampleHost 3 (PressDay i)
                    (settledFiber (fst opened)) (snd opened) in
         (plantStatus (state (settledFiber (fst o))),
          option_map
            (fun shown =>
               (shownDay shown, shownTemperature shown, shownHumidity shown,
                shownSoilMoisture shown))
            (settledScreen (fst o))))
    [0; 1; 2; 3; 4; 5; 6]%nat
  = [(Healthy, Some ("Nov 1", 66, 59, 65));
     (NeedsWater, Some ("Oct 31", 68, 64, 42));
     (Healthy, Some ("Oct 30", 70, 68, 48));
     (LowHumidity, Some ("Oct 29", 72, 52, 55));
     (Healthy, Some ("Oct 28", 74, 57, 61));
     (Healthy, Some ("Oct 27", 67, 61, 68));
     (NeedsWater, Some ("Oct 26", 69, 65, 44))]%string.
Proof. vm_compute; reflexivity. Qed.

(** Two renders are not enough after a day of another status is selected,
    and a day the picker does not list would end in a [TypeError]. *)
Example sample_renders :
  let mounted := mount sampleHost 3 startWorld in
  let opened :=
    dispatch sampleHost 3 PressDaySelector (settledFiber (fst mounted))
      (snd mounted) in
  fst (dispatch sampleHost 2 (PressDay 1) (settledFiber (fst opened))
         (snd opened)) = Unsettled /\
  fst (dispatch sampleHost 3 (PressDay 7) (settledFiber (fst opened))
         (snd opened)) = Crashed.
Proof. vm_compute; split; reflexivity. Qed.

(** The double nearest to 0.7 is below 0.7, and its exact products with
    10, 20 and 30 are below 7, 14 and 21; the products the code floors are
    rounded to the nearest double, which is 7, 14 and 21. *)
Example seven_tenths_products :
  Number.isNumber seven_tenths /\
  (Math_floor (seven_tenths * 10), Math_floor (seven_tenths * 20),
   Math_floor (seven_tenths * 30)) = (6, 13, 20) /\
  (Math_floor (Number.multiply seven_tenths 10),
   Math_floor (Number.multiply seven_tenths 20),
   Math_floor (Number.multiply seven_tenths 30)) = (7, 14, 21).
Proof. vm_compute; repeat split; reflexivity. Qed.

(** The reading drawn from the double nearest to 0.7. *)
Example seven_tenths_reading :
  let r := fst (newReading (constantHost seven_tenths) 0 0 startWorld) in
  (temperature r, humidity r, soilMoisture r) = (72, 64, 61).
Proof. vm_compute; reflexivity. Qed.

(** The products of the largest double below 1 with 10, 20 and 30 are
    rounded to doubles below 10, 20 and 30. *)
Example largest_draw_products :
  let x := (1 - Number.pow2 (-53))%Q in
  (Math_floor (Number.multiply x 10), Math_floor (Number.multiply x 20),
   Math_floor (Number.multiply x 30)) = (9, 19, 29).
Proof. vm_compute; reflexivity. Qed.

(** The component mounts in one render when the last reading of today is
    healthy: the effects of the first render set the values the hooks
    hold. *)
Example sample_mount :
  exists f shown w, mount sampleHost 1 startWorld = (Settled f shown, w).
Proof.
  destruct (settledScreen (fst (mount sampleHost 1 startWorld)))
    as [shown|] eqn:E; [|vm_compute in E; discriminate E].
  eexists _, shown, _; exact (settled_outcome _ shown E).
Qed.

(** The four readings of the specification. *)
Example classifier_samples :
  let reading t h s :=
    {| object_id := 0; datetime := 0;
       displayTime := EmptyString; displayDate := EmptyString;
       temperature := t; humidity := h; soilMoisture := s |} in
  (statusOf (reading 100 0 40), statusOf (reading 80 50 50),
   statusOf (reading 70 50 50), statusOf (reading 70 60 50))
  = (NeedsWater, TooHot, LowHumidity, Healthy).
Proof. reflexivity. Qed.

(** * Further properties *)

(** ** The draws of the generator *)

Section GeneratorDraws.

Variable host : Host.

Lemma newReading_measurements (date hour : Z) (w : World) :
  measurements (fst (newReading host date hour w))
  = measurementsFrom host (random_calls w).
Proof.
  unfold measurements, measurementsFrom.
  now rewrite newReading_temperature, newReading_humidity,
    newReading_soilMoisture.
Qed.

Lemma newReading_random_calls (date hour : Z) (w : World) :
  random_calls (snd (newReading host date hour w)) = (3 + random_calls w)%nat.
Proof. unfold newReading; cbv zeta; rewrite !run_bind; reflexivity. Qed.

Lemma newReading_clock_reads (date hour : Z) (w : World) :
  clock_reads (snd (newReading host date hour w)) = clock_reads w.
Proof. unfold newReading; cbv zeta; rewrite !run_bind; reflexivity. Qed.

Lemma map_seq_shift {A : Type} (g : nat -> A) (n : nat) :
  map g (seq 1 n) = map (fun k => g (S k)) (seq 0 n).
Proof. now rewrite <- seq_shift, map_map. Qed.

Lemma collect_readings_draws (date : Z) (l : list Z) :
  forall w : World,
    map measurements (fst (collect (newReading host date) l w))
    = map (fun k => measurementsFrom host (random_calls w + 3 * k))
        (seq 0 (length l)) /\
    random_calls (snd (collect (newReading host date) l w))
    = (random_calls w + 3 * length l)%nat /\
    clock_reads (snd (collect (newReading host date) l w)) = clock_reads w.
Proof.
  induction l as [|hour l IH]; intros w; cbn [collect length seq map].
  - rewrite run_ret; cbn [fst snd map]; repeat split; lia.
  - rewrite !run_bind, run_ret; cbn [fst snd map].
    destruct (IH (snd (newReading host date hour w))) as (I1 & I2 & I3).
    rewrite I1, I2, I3, newReading_measurements, newReading_random_calls,
      newReading_clock_reads, map_seq_shift.
    split; [|split; [lia | reflexivity]].
    f_equal; [f_equal; lia|].
    apply map_ext; intros k; f_equal; lia.
Qed.

Lemma collect_days_draws (now : Z) (l : list Z) :
  forall w : World,
    map (fun day => map measurements (data day))
      (fst (collect (newDay host now) l w))
    = map (fun i =>
             map (fun k =>
                    measurementsFrom host (random_calls w + 36 * i + 3 * k))
               (seq 0 12))
        (seq 0 (length l)) /\
    random_calls (snd (collect (newDay host now) l w))
    = (random_calls w + 36 * length l)%nat /\
    clock_reads (snd (collect (newDay host now) l w)) = clock_reads w.
Proof.
  induction l as [|d l IH]; intros w; cbn [collect length].
  - rewrite run_ret; cbn [fst snd map seq]; repeat split; lia.
  - rewrite !run_bind, run_ret; cbn [fst snd].
    rewrite <- (cons_seq (length l) 0%nat), !map_cons.
    destruct (IH (snd (newDay host now d w))) as (I1 & I2 & I3).
    rewrite I1, I2, I3, newDay_data, newDay_snd, map_seq_shift.
    destruct (collect_readings_draws (bucketDate host now d) hours w)
      as (R1 & R2 & R3).
    rewrite R1, R2, R3; change (length hours) with 12%nat.
    split; [|split; [lia | reflexivity]].
    f_equal.
    + apply map_ext; intros k; f_equal; lia.
    + apply map_ext; intros i; apply map_ext; intros k; f_equal; lia.
Qed.

(** The draws and the clock readings of a call of the generator. *)
Lemma generated_counters (w : World) :
  random_calls (snd (generateHistoricalData host w))
  = (random_calls w + 252)%nat /\
  clock_reads (snd (generateHistoricalData host w)) = S (clock_reads w).
Proof.
  assert (E : snd (generateHistoricalData host w)
              = snd (collect (newDay host (clock host (clock_reads w)))
                       dayOffsets (afterSetup w))).
  { unfold generateHistoricalData.
    rewrite !run_bind, run_ret, for_loop_push, day_loop_indices.
    apply snd_pair. }
  destruct (collect_days_draws (clock host (clock_reads w)) dayOffsets
              (afterSetup w)) as (_ & I2 & I3).
  rewrite <- E in I2, I3; rewrite I2, I3.
  change (length dayOffsets) with 7%nat; cbn [afterSetup random_calls
    clock_reads]; split; [lia | reflexivity].
Qed.

(** X1. The draws of a call of the generator: reading [k] of bucket [i]
    takes its temperature, its humidity and its soil moisture from the
    draws [36 i + 3 k], [36 i + 3 k + 1] and [36 i + 3 k + 2] of the call,
    each the floor of the rounded product of the draw with 10, 20 or 30,
    plus 65, 50 or 40; the call makes 252 draws and reads the clock
    once. *)
Theorem generated_draws (w : World) :
  map (fun day => map measurements (data day))
    (items (fst (generateHistoricalData host w)))
  = map (fun i =>
           map (fun k =>
                  measurementsFrom host (random_calls w + 36 * i + 3 * k))
             (seq 0 12))
      (seq 0 7) /\
  random_calls (snd (generateHistoricalData host w))
  = (random_calls w + 252)%nat /\
  clock_reads (snd (generateHistoricalData host w)) = S (clock_reads w).
Proof.
  split; [|exact (generated_counters w)].
  rewrite generateHistoricalData_items.
  destruct (collect_days_draws (clock host (clock_reads w)) dayOffsets
              (afterSetup w)) as (I1 & _).
  rewrite I1; reflexivity.
Qed.

End GeneratorDraws.

(** ** The times of the generated readings *)

Lemma Forall2_nth_error_r {A B : Type} (P : A -> B -> Prop) (l : list A)
  (l' : list B) :
  Forall2 P l l' ->
  forall (i : nat) (y : B),
    nth_error l' i = Some y ->
    exists x, nth_error l i = Some x /\ P x y.
Proof.
  induction 1 as [|x y l l' H F IH]; intros [|i] z E; try discriminate.
  - injection E as <-; now exists x.
  - exact (IH i z E).
Qed.

Lemma lastItem_map {A B : Type} (g : A -> B) (l : list A) (x : A) :
  lastItem l = Some x -> lastItem (map g l) = Some (g x).
Proof.
  unfold lastItem; rewrite length_map; intros H.
  now rewrite nth_error_map, H.
Qed.

Section GeneratorTimes.

Variable host : Host.

(** Bucket [i] is the one the outer loop pushes for [dayOffset = i]. *)
Lemma generated_bucket_at (w : World) (i : nat) (day : DayData) :
  nth_error (items (fst (generateHistoricalData host w))) i = Some day ->
  (i < 7)%nat /\
  exists w',
    day = fst (newDay host (clock host (clock_reads w)) (Z.of_nat i) w').
Proof.
  rewrite generateHistoricalData_items; intros E.
  destruct (Forall2_nth_error_r _ _ _
              (collect_Forall2 (newDay host (clock host (clock_reads w)))
                 dayOffsets (afterSetup w)) i day E) as (k & Ek & w' & ->).
  assert (i < 7)%nat as I
    by (apply (nth_error_Some dayOffsets i); rewrite Ek; discriminate).
  split; [exact I|]; exists w'.
  do 7 (destruct i as [|i]; [now injection Ek as <-|]); lia.
Qed.

(** The time of a reading of the bucket pushed for [dayOffset], while the
    offset of local time is steady. *)
Lemma bucket_reading_time (offset now dayOffset : Z) (w : World)
  (r : PlantData) :
  steadyOffset host offset now ->
  0 <= dayOffset <= 6 ->
  In r (data (fst (newDay host now dayOffset w))) ->
  exists hour,
    In hour hours /\
    datetime r
    = JSDate.MakeDate (JSDate.Day (now + offset) - dayOffset)
        (hour * JSDate.msPerHour) - offset.
Proof.
  intros S Hk H.
  rewrite newDay_data in H.
  apply collect_In in H; destruct H as (hour & w2 & Hh & ->).
  exists hour; split; [exact Hh|].
  rewrite newReading_datetime.
  apply (steady_datetime host offset now S); [exact Hk|].
  apply hours_range, Hh.
Qed.

(** X2. While the offset of local time from UTC is steady, the buckets
    are in reverse order of time and do not overlap: every reading of a
    bucket is later than every reading of the buckets after it. *)
Theorem generated_buckets_newest_first (w : World) (offset : Z)
  (i i' : nat) (day day' : DayData) (r r' : PlantData) :
  steadyOffset host offset (clock host (clock_reads w)) ->
  nth_error (items (fst (generateHistoricalData host w))) i = Some day ->
  nth_error (items (fst (generateHistoricalData host w))) i' = Some day' ->
  (i < i')%nat ->
  In r (data day) -> In r' (data day') ->
  datetime r' < datetime r.
Proof.
  intros S D D' Lt H H'.
  apply generated_bucket_at in D, D'.
  destruct D as (I & w1 & ->), D' as (I' & w2 & ->).
  apply (bucket_reading_time offset _ _ _ _ S) in H; [|lia].
  apply (bucket_reading_time offset _ _ _ _ S) in H'; [|lia].
  destruct H as (h & Hh & ->), H' as (h' & Hh' & ->).
  apply hours_range in Hh, Hh'.
  unfold JSDate.MakeDate, JSDate.msPerDay, JSDate.msPerHour.
  generalize (JSDate.Day (clock host (clock_reads w) + offset)).
  intros d; lia.
Qed.

(** The bucket of today ends with the reading of 22 o'clock, which lies
    in the future when the generator is called before 22 o'clock. *)
Lemma generated_today_last (w : World) (offset : Z) :
  let now := clock host (clock_reads w) in
  let tza := LocalTZA host in
  steadyOffset host offset now ->
  exists (day : DayData) (r : PlantData),
    nth_error (items (fst (generateHistoricalData host w))) 0 = Some day /\
    lastItem (data day) = Some r /\
    JSDate.LocalTime tza (datetime r)
    = JSDate.MakeDate (JSDate.localDay tza now) (22 * JSDate.msPerHour) /\
    (now < datetime r <->
     JSDate.TimeWithinDay (JSDate.LocalTime tza now) < 22 * JSDate.msPerHour).
Proof.
  cbv zeta; intros S.
  pose proof (generated_nonempty host w) as F.
  pose proof (proj1 (generated_shape host w)) as L.
  destruct (nth_error (items (fst (generateHistoricalData host w))) 0)
    as [day|] eqn:D; [|apply nth_error_None in D; lia].
  pose proof (bucket_nonempty _ _ _ F D) as Hday.
  destruct (lastItem_nonempty _ Hday) as [r Lr].
  apply generated_bucket_at in D; destruct D as (_ & w' & ->).
  exists (fst (newDay host (clock host (clock_reads w)) (Z.of_nat 0) w')), r.
  split; [reflexivity | split; [exact Lr|]].
  pose proof (lastItem_map
    (fun r => JSDate.LocalTime (LocalTZA host) (datetime r)) _ _ Lr) as Lt.
  pose proof (lastItem_map datetime _ _ Lr) as Ld.
  clear F L Hday Lr.
  change (Z.of_nat 0) with 0 in Lt, Ld.
  rewrite (generated_local_times host offset _ S) in Lt by lia.
  rewrite (generated_datetimes_of_bucket host offset _ S) in Ld by lia.
  rewrite Z.sub_0_r in Lt, Ld.
  unfold hours, lastItem in Lt, Ld;
    cbn [map length nth_error Nat.sub] in Lt, Ld.
  injection Lt as Lt; injection Ld as Ld; symmetry in Lt.
  split; [exact Lt|].
  destruct S as [_ S].
  rewrite (JSDateFacts.LocalTime_steady _ _ _ _ S)
    by (unfold JSDate.msPerDay; lia).
  rewrite <- Ld; clear Lt Ld S.
  unfold JSDate.MakeDate, JSDate.TimeWithinDay, JSDate.Day,
    JSDate.msPerDay, JSDate.msPerHour.
  generalize (clock host (clock_reads w)); intros now.
  Z.to_euclidean_division_equations; lia.
Qed.

End GeneratorTimes.

(** ** The dates displayed *)

Lemma YearFromTime_by_day (t1 t2 : Z) :
  JSDate.Day t1 = JSDate.Day t2 ->
  JSDate.YearFromTime t1 = JSDate.YearFromTime t2.
Proof. unfold JSDate.YearFromTime; now intros ->. Qed.

Lemma calendar_by_day (t1 t2 : Z) :
  JSDate.Day t1 = JSDate.Day t2 ->
  JSDate.MonthFromTime t1 = JSDate.MonthFromTime t2 /\
  JSDate.DateFromTime t1 = JSDate.DateFromTime t2.
Proof.
  intros H; pose proof (YearFromTime_by_day t1 t2 H) as Y.
  unfold JSDate.DateFromTime, JSDate.MonthFromTime, JSDate.DayWithinYear,
    JSDate.InLeapYear.
  now rewrite H, Y.
Qed.

Lemma sampleHost_dates_by_day : dates_by_day sampleHost.
Proof.
  intros t1 t2 H; cbn [sampleHost toLocaleDateString LocalTZA] in *.
  unfold JSDate.localDay, JSDate.LocalTime in H.
  destruct (calendar_by_day _ _ H) as [M D].
  unfold shortDate; now rewrite M, D.
Qed.

Section DisplayDates.

Variable host : Host.

Lemma newReading_displayDate (date hour : Z) (w : World) :
  displayDate (fst (newReading host date hour w))
  = toLocaleDateString host
      (JSDate.setHours (LocalTZA host) date hour 0 0 0).
Proof. unfold newReading; cbv zeta; rewrite !run_bind; reflexivity. Qed.

Lemma newDay_value (now dayOffset : Z) (w : World) :
  value (fst (newDay host now dayOffset w))
  = toLocaleDateString host (bucketDate host now dayOffset).
Proof.
  unfold newDay, bucketDate; cbv zeta.
  rewrite run_bind, run_ret; reflexivity.
Qed.

(** X4. On a host that formats a date by its calendar day, and while the
    offset of local time from UTC is steady, every reading carries the
    date of its bucket: its [displayDate] is the [label] of the bucket,
    which is also the bucket's [value]. *)
Theorem generated_display_dates (w : World) (offset : Z) (day : DayData)
  (r : PlantData) :
  dates_by_day host ->
  steadyOffset host offset (clock host (clock_reads w)) ->
  In day (items (fst (generateHistoricalData host w))) ->
  In r (data day) ->
  displayDate r = label day /\ value day = label day.
Proof.
  intros F S Hd Hr.
  rewrite generateHistoricalData_items in Hd.
  apply collect_In in Hd; destruct Hd as (k & w1 & Hk & ->).
  apply dayOffsets_range in Hk.
  rewrite newDay_data in Hr.
  apply collect_In in Hr; destruct Hr as (hour & w2 & Hh & ->).
  apply hours_range in Hh.
  rewrite newReading_displayDate, newDay_label, newDay_value.
  split; [|reflexivity].
  apply F; unfold JSDate.localDay.
  rewrite (steady_local_time host offset _ S k hour Hk)
    by (unfold JSDate.msPerHour; lia).
  rewrite (steady_bucketDate host offset _ S k Hk).
  rewrite (steady_localDay host offset _ S).
  destruct S as [B S].
  rewrite (JSDateFacts.LocalTime_steady _ _ _ _ S)
    by (unfold JSDate.msPerDay in *; lia).
  rewrite JSDateFacts.Day_MakeDate
    by (unfold JSDate.msPerHour, JSDate.msPerDay; lia).
  replace (clock host (clock_reads w) - k * JSDate.msPerDay + offset)
    with (clock host (clock_reads w) + offset - k * JSDate.msPerDay) by lia.
  now rewrite JSDateFacts.Day_minus_days.
Qed.

End DisplayDates.

Lemma generated_buckets_newest_first_witness :
  let days := fst (generateHistoricalData sampleHost startWorld) in
  nth_error (items days) 1 = Some (nth 1 (items days) noDay) /\
  nth_error (items days) 4 = Some (nth 4 (items days) noDay) /\
  steadyOffset sampleHost 3600000 (clock sampleHost (clock_reads startWorld))
  /\
  (1 < 4)%nat /\
  In (readingAt days 1 0) (data (nth 1 (items days) noDay)) /\
  In (readingAt days 4 11) (data (nth 4 (items days) noDay)) /\
  datetime (readingAt days 4 11) < datetime (readingAt days 1 0).
Proof.
  cbv zeta.
  destruct (readingAt_In (fst (generateHistoricalData sampleHost startWorld))
              1 0) as [_ H1]; [vm_compute; lia | vm_compute; lia |].
  destruct (readingAt_In (fst (generateHistoricalData sampleHost startWorld))
              4 11) as [_ H4]; [vm_compute; lia | vm_compute; lia |].
  assert (nth_error
            (items (fst (generateHistoricalData sampleHost startWorld))) 1
          = Some (nth 1 (items
                     (fst (generateHistoricalData sampleHost startWorld)))
                    noDay)) as E1
    by (apply nth_error_nth'; vm_compute; lia).
  assert (nth_error
            (items (fst (generateHistoricalData sampleHost startWorld))) 4
          = Some (nth 4 (items
                     (fst (generateHistoricalData sampleHost startWorld)))
                    noDay)) as E4
    by (apply nth_error_nth'; vm_compute; lia).
  split; [exact E1|]. split; [exact E4|].
  split; [apply sampleHost_steady|]. split; [lia|].
  split; [exact H1|]. split; [exact H4|].
  apply (generated_buckets_newest_first sampleHost startWorld 3600000 1 4
           _ _ _ _ (sampleHost_steady _) E1 E4); [lia | exact H1 | exact H4].
Defined.

Lemma generated_display_dates_witness :
  let days := fst (generateHistoricalData sampleHost startWorld) in
  let day := nth 6 (items days) noDay in
  let r := readingAt days 6 7 in
  dates_by_day sampleHost /\
  steadyOffset sampleHost 3600000 (clock sampleHost (clock_reads startWorld))
  /\
  In day (items days) /\ In r (data day) /\
  (displayDate r = label day /\ value day = label day).
Proof.
  cbv zeta.
  destruct (readingAt_In (fst (generateHistoricalData sampleHost startWorld))
              6 7) as [Hd Hr]; [vm_compute; lia | vm_compute; lia |].
  split; [apply sampleHost_dates_by_day|].
  split; [apply sampleHost_steady|].
  split; [exact Hd|].
  split; [exact Hr|].
  apply (generated_display_dates sampleHost startWorld 3600000 _ _
           sampleHost_dates_by_day (sampleHost_steady _) Hd Hr).
Defined.

(** ** The values the generator produces *)

(** X5. The values the generator can produce, over all hosts whose draws
    are doubles of [0, 1): exactly the whole numbers 65 to 74 for the
    temperature, 50 to 69 for the humidity and 40 to 69 for the soil
    moisture. *)
Theorem generated_values_exactly (t h s : Z) :
  (produces temperature t <-> 65 <= t <= 74) /\
  (produces humidity h <-> 50 <= h <= 69) /\
  (produces soilMoisture s <-> 40 <= s <= 69).
Proof.
  assert (forall (field : PlantData -> Z) (v : Z),
            (exists host day r,
               random_in_range host /\
               In day (items (fst (generateHistoricalData host startWorld))) /\
               In r (data day) /\ field r = v) ->
            produces field v) as Up.
  { intros field v (host & day & r & H); now exists host, startWorld, day, r. }
  assert (forall (field : PlantData -> Z) (v : Z) (P : PlantData -> Prop),
            (forall host w day r,
               random_in_range host ->
               In day (items (fst (generateHistoricalData host w))) ->
               In r (data day) -> P r) ->
            produces field v -> exists r, P r /\ field r = v) as Down.
  { intros field v P H (host & w & day & r & R & Hd & Hr & E).
    exists r; split; [exact (H host w day r R Hd Hr) | exact E]. }
  split; [|split]; split.
  - intros H; apply (Down _ _ _ generated_ranges) in H.
    destruct H as (r & H & <-); apply H.
  - intros H; apply Up, (generated_values_drawn t 50 40); lia.
  - intros H; apply (Down _ _ _ generated_ranges) in H.
    destruct H as (r & H & <-); apply H.
  - intros H; apply Up, (generated_values_drawn 65 h 40); lia.
  - intros H; apply (Down _ _ _ generated_ranges) in H.
    destruct H as (r & H & <-); apply H.
  - intros H; apply Up, (generated_values_drawn 65 50 s); lia.
Qed.

(** ** The states of the dashboard *)

Section DashboardStates.

Variable host : Host.

(** The hooks no effect sets, after the component is mounted. *)
Lemma mount_frame (renders : nat) (w : World) (f : Fiber) (sc : Screen) :
  fst (mount host renders w) = Settled f sc ->
  allDaysData (state f) = fst (generateHistoricalData host w) /\
  selectedDayIndex (state f) = 0%nat /\
  selectedMetric (state f) = Temperature /\
  dayPickerVisible (state f) = false.
Proof.
  rewrite mount_settle; destruct renders as [|n]; [discriminate|].
  generalize (fst (generateHistoricalData host w)); intros init.
  destruct (nth_error (items init) 0) as [day0|]; [|discriminate].
  intros H; apply settle_frame in H; exact H.
Qed.

(** The hooks no effect sets, after an event. *)
Lemma dispatch_frame (renders : nat) (e : Event) (f f' : Fiber)
  (w : World) (sc : Screen) :
  fst (dispatch host renders e f w) = Settled f' sc ->
  allDaysData (state f')
  = match e with
    | PressRefresh => fst (generateHistoricalData host w)
    | _ => allDaysData (state f)
    end /\
  selectedDayIndex (state f')
  = match e with
    | PressDay index => index
    | _ => selectedDayIndex (state f)
    end /\
  selectedMetric (state f')
  = match e with
    | PressMetric m => m
    | _ => selectedMetric (state f)
    end /\
  dayPickerVisible (state f')
  = match e with
    | PressDaySelector => true
    | PressDay _ | ClosePicker => false
    | _ => dayPickerVisible (state f)
    end.
Proof.
  destruct e as [|m| |index|].
  - rewrite dispatch_refresh.
    generalize (fst (generateHistoricalData host w)); intros newData.
    destruct (nth_error (items newData) (selectedDayIndex (state f)));
      [|discriminate].
    intros H; apply resume_frame in H; exact H.
  - rewrite dispatch_metric; intros H; apply resume_frame in H; exact H.
  - rewrite dispatch_selector; intros H; apply resume_frame in H; exact H.
  - rewrite dispatch_day; intros H; apply resume_frame in H; exact H.
  - rewrite dispatch_close; intros H; apply resume_frame in H; exact H.
Qed.

(** The set of a state of the dashboard is one the generator returned. *)
Lemma reachable_generated (f : Fiber) (w : World) :
  reachable host f w -> generated host (allDaysData (state f)).
Proof.
  induction 1 as [renders w w' f shown M
                 |renders e f f' w w' shown R IH O D].
  - assert (M1 : fst (mount host renders w) = Settled f shown)
      by now rewrite M.
    exists w; exact (proj1 (mount_frame _ _ _ _ M1)).
  - assert (D1 : fst (dispatch host renders e f w) = Settled f' shown)
      by now rewrite D.
    destruct (dispatch_frame _ _ _ _ _ _ D1) as (A & _).
    destruct e; try (rewrite A; exact IH).
    exists w; exact A.
Qed.

(** The selected bucket of a state of the dashboard, its twelve readings
    and the last of them, which is the reading shown. *)
Lemma reachable_selected (f : Fiber) (w : World) :
  reachable host f w ->
  exists (day : DayData) (cur : PlantData) (r : Render),
    nth_error (items (allDaysData (state f))) (selectedDayIndex (state f))
    = Some day /\
    plantData (state f) = data day /\
    length (data day) = 12%nat /\
    lastItem (data day) = Some cur /\
    plantStatus (state f) = statusOf cur /\
    render (state f) = Some r /\
    currentData r = cur.
Proof.
  intros R.
  destruct (reachable_invariant host f w R)
    as [(Q & (day & D & P) & F) _].
  destruct (reachable_status host f w R) as [_ (cur & L & St)].
  destruct (reachable_generated f w R) as [w0 G].
  destruct Q as (r & Rr & _).
  pose proof (render_Some _ _ Rr) as (_ & Lr & _).
  exists day, cur, r; rewrite <- P.
  repeat split; try assumption.
  - rewrite P.
    pose proof (proj2 (generated_shape host w0)) as S12.
    rewrite <- G in S12.
    apply nth_error_In in D.
    exact (proj1 (Forall_forall _ _) S12 day D).
  - rewrite L in Lr; now injection Lr.
Qed.

End DashboardStates.

(** ** Events and screens *)

Section EventsAndScreens.

Variable host : Host.

Lemma render_chartLabels (s : State) (r : Render) :
  render s = Some r ->
  chartLabels (screen r) = map displayTime (plantData s).
Proof.
  unfold render.
  destruct (lastItem (plantData s)) as [cur|]; [|discriminate].
  destruct (nth_error (items (allDaysData s)) (selectedDayIndex s))
    as [day|]; [|discriminate].
  now intros [= <-].
Qed.

Lemma mount_shown (renders : nat) (w : World) (f : Fiber) (sc : Screen) :
  fst (mount host renders w) = Settled f sc ->
  exists r, render (state f) = Some r /\ screen r = sc.
Proof.
  rewrite mount_settle; destruct renders as [|n]; [discriminate|].
  generalize (fst (generateHistoricalData host w)); intros init.
  destruct (nth_error (items init) 0) as [day0|]; [|discriminate].
  intros H; exact (proj2 (settle_quiescent _ _ _ _ _ H)).
Qed.

Lemma dispatch_shown (renders : nat) (e : Event) (f f' : Fiber)
  (w : World) (sc : Screen) :
  fst (dispatch host renders e f w) = Settled f' sc ->
  exists r, render (state f') = Some r /\ screen r = sc.
Proof.
  rewrite dispatch_settle.
  generalize (fst (handle host e (state f) w)); intros [s|]; [|discriminate].
  intros H; exact (resume_screen _ _ _ _ _ H).
Qed.

Lemma reachable_presents (f : Fiber) (w : World) (r : Render) :
  reachable host f w ->
  render (state f) = Some r ->
  presents (state f) (screen r).
Proof.
  intros R Rr.
  destruct (reachable_selected host f w R)
    as (day & cur & r' & D & P & L12 & Lc & _ & Rr' & C).
  rewrite Rr in Rr'; injection Rr' as <-.
  destruct (reachable_invariant host f w R) as [_ [_ L7]].
  pose proof (render_chartLabels _ _ Rr) as CL.
  apply render_Some in Rr.
  destruct Rr as (_ & _ & (day' & D' & SD) & T & H & M & CI & CV & CC & PI).
  rewrite D in D'; injection D' as <-.
  exists day, cur; rewrite T, H, M, C, CV, CL, PI, P, L7, length_map.
  repeat split; assumption.
Qed.

(** X6. What a press does to the hooks, in every state of the dashboard:
    the refresh button replaces the set by a new one, a row of the picker
    sets the selected day and closes the picker, a metric button sets the
    metric, the day selector opens the picker, and nothing else changes
    among these four; the two other hooks follow, the reading sequence
    being the selected bucket of the new state and the status the one of
    its last reading. *)
Theorem event_sets_hooks (renders : nat) (e : Event) (f f' : Fiber)
  (w w' : World) (shown : Screen) :
  reachable host f w ->
  offers (state f) e ->
  dispatch host renders e f w = (Settled f' shown, w') ->
  allDaysData (state f')
  = match e with
    | PressRefresh => fst (generateHistoricalData host w)
    | _ => allDaysData (state f)
    end /\
  selectedDayIndex (state f')
  = match e with
    | PressDay index => index
    | _ => selectedDayIndex (state f)
    end /\
  selectedMetric (state f')
  = match e with
    | PressMetric m => m
    | _ => selectedMetric (state f)
    end /\
  dayPickerVisible (state f')
  = match e with
    | PressDaySelector => true
    | PressDay _ | ClosePicker => false
    | _ => dayPickerVisible (state f)
    end /\
  exists (day : DayData) (cur : PlantData),
    nth_error (items (allDaysData (state f'))) (selectedDayIndex (state f'))
    = Some day /\
    plantData (state f') = data day /\
    lastItem (data day) = Some cur /\
    plantStatus (state f') = statusOf cur.
Proof.
  intros R O D.
  pose proof (reachable_event host renders e f f' w w' shown R O D) as R'.
  assert (D1 : fst (dispatch host renders e f w) = Settled f' shown)
    by now rewrite D.
  destruct (dispatch_frame host _ _ _ _ _ _ D1) as (A & B & C & V).
  destruct (reachable_selected host f' w' R')
    as (day & cur & _ & Dd & P & _ & Lc & St & _).
  clear R R' O D D1.
  split; [exact A|]. split; [exact B|]. split; [exact C|].
  split; [exact V|].
  exists day, cur.
  split; [exact Dd|]. split; [exact P|]. split; [exact Lc | exact St].
Qed.

(** X7. The screen the dashboard comes to rest on, after it is mounted
    and after every press, presents the selected day of the hooks it rests
    with: the three values of the last reading of the selected bucket, the
    label of the bucket, a chart of twelve points that are the selected
    metric over the bucket, and the seven rows of the picker, numbered from
    0 and labelled in the order of the set, while the picker is open. *)
Theorem screen_presents_selected_day (renders : nat) :
  (forall (w w' : World) (f : Fiber) (shown : Screen),
     mount host renders w = (Settled f shown, w') ->
     presents (state f) shown) /\
  (forall (e : Event) (f f' : Fiber) (w w' : World) (shown : Screen),
     reachable host f w ->
     offers (state f) e ->
     dispatch host renders e f w = (Settled f' shown, w') ->
     presents (state f') shown).
Proof.
  split.
  - intros w w' f shown M.
    pose proof (reachable_mount host renders w w' f shown M) as R.
    assert (M1 : fst (mount host renders w) = Settled f shown)
      by now rewrite M.
    destruct (mount_shown _ _ _ _ M1) as (r & Rr & <-).
    exact (reachable_presents f w' r R Rr).
  - intros e f f' w w' shown R O D.
    pose proof (reachable_event host renders e f f' w w' shown R O D) as R'.
    assert (D1 : fst (dispatch host renders e f w) = Settled f' shown)
      by now rewrite D.
    destruct (dispatch_shown _ _ _ _ _ _ D1) as (r & Rr & <-).
    exact (reachable_presents f' w' r R' Rr).
Qed.

(** X8. On a host whose draws are doubles of [0, 1) the dashboard is never
    too hot: in every state the values shown are within 65 to 74, 50 to 69
    and 40 to 69, every value of the chart is within the range of its
    metric, and the status is needs-water when the soil moisture shown is
    below 45, low-humidity when it is not and the humidity shown is below
    55, and healthy otherwise; the icon of the status is never the
    thermometer. *)
Theorem dashboard_never_too_hot (f : Fiber) (w : World) :
  random_in_range host ->
  reachable host f w ->
  exists r : Render,
    render (state f) = Some r /\
    65 <= shownTemperature (screen r) <= 74 /\
    50 <= shownHumidity (screen r) <= 69 /\
    40 <= shownSoilMoisture (screen r) <= 69 /\
    Forall (fun v => match selectedMetric (state f) with
                     | Temperature => 65 <= v <= 74
                     | Humidity => 50 <= v <= 69
                     | SoilMoisture => 40 <= v <= 69
                     end) (chartValues (screen r)) /\
    plantStatus (state f)
    = (if shownSoilMoisture (screen r) <? 45 then NeedsWater
       else if shownHumidity (screen r) <? 55 then LowHumidity
       else Healthy) /\
    icon (getStatusInfo (plantStatus (state f))) <> "thermometer-high"%string.
Proof.
  intros In01 R.
  destruct (reachable_selected host f w R)
    as (day & cur & r & D & P & _ & Lc & St & Rr & C).
  destruct (reachable_generated host f w R) as [w0 G].
  assert (Rg : forall x, In x (data day) ->
                 65 <= temperature x <= 74 /\
                 50 <= humidity x <= 69 /\
                 40 <= soilMoisture x <= 69).
  { intros x Hx; apply (generated_ranges host w0 day x In01); [|exact Hx].
    rewrite <- G; exact (nth_error_In _ _ D). }
  pose proof (Rg cur (lastItem_In _ _ Lc)) as (Rt & Rh & Rs).
  pose proof (render_Some _ _ Rr) as (_ & _ & _ & T & H & M & _ & CV & _).
  assert (St' : plantStatus (state f)
                = (if soilMoisture cur <? 45 then NeedsWater
                   else if humidity cur <? 55 then LowHumidity
                   else Healthy)).
  { rewrite St; unfold statusOf, statusEffect; cbv zeta.
    destruct (soilMoisture cur <? 45); [reflexivity|].
    destruct (temperature cur >? 75) eqn:E; [exfalso; lia|].
    destruct (humidity cur <? 55); reflexivity. }
  exists r; rewrite T, H, M, C, CV, P.
  split; [exact Rr|].
  split; [exact Rt|]. split; [exact Rh|]. split; [exact Rs|].
  split; [|split; [exact St'|]].
  - apply Forall_forall; intros v Hv.
    apply in_map_iff in Hv; destruct Hv as (x & <- & Hx).
    destruct (Rg x Hx) as (X1 & X2 & X3).
    destruct (selectedMetric (state f)); assumption.
  - rewrite St'.
    destruct (soilMoisture cur <? 45); [discriminate|].
    destruct (humidity cur <? 55); discriminate.
Qed.

End EventsAndScreens.
(** ** Mounting and pressing *)

Lemma deps_eta (d : Deps) (a : option (nat * nat)) (b : option nat) :
  dayDeps d = a -> statusDeps d = b ->
  {| dayDeps := a; statusDeps := b |} = d.
Proof. destruct d; cbn; now intros -> ->. Qed.

(** A render with nothing for the effects to do is the last one. *)
Lemma settle_still (renders : nat) (s : State) (d : Deps)
  (cur : PlantData) (day : DayData) :
  (1 <= renders)%nat ->
  lastItem (plantData s) = Some cur ->
  nth_error (items (allDaysData s)) (selectedDayIndex s) = Some day ->
  dayDeps d = Some (selectedDayIndex s, array_id (allDaysData s)) ->
  statusDeps d = Some (object_id cur) ->
  exists sc, settle renders s d = Settled {| state := s; deps := d |} sc.
Proof.
  intros N L D Hd Hs.
  destruct renders as [|n]; [lia|]; cbn [settle].
  destruct (pass_eq s d cur day L D) as (r & _ & _ & ->).
  rewrite (proj2 (depsChanged_days_false _ _) Hd).
  rewrite (proj2 (depsChanged_status_false _ _) Hs).
  cbn [orb]; rewrite sameHooks_refl, (deps_eta d _ _ Hd Hs).
  now exists (screen r).
Qed.

(** One render is enough after a handler that leaves the selected day,
    the set and the reading sequence as they are. *)
Lemma resume_still (renders : nat) (s : State) (f : Fiber)
  (cur : PlantData) (day : DayData) :
  (1 <= renders)%nat ->
  lastItem (plantData s) = Some cur ->
  nth_error (items (allDaysData s)) (selectedDayIndex s) = Some day ->
  dayDeps (deps f) = Some (selectedDayIndex s, array_id (allDaysData s)) ->
  statusDeps (deps f) = Some (object_id cur) ->
  exists f' sc, resume renders s f = Settled f' sc.
Proof.
  intros N L D Hd Hs; unfold resume.
  destruct (sameHooks (state f) s).
  - destruct (render_ok s cur day L D) as (r & -> & _); eauto.
  - destruct (settle_still renders s (deps f) cur day N L D Hd Hs)
      as [sc ->]; eauto.
Qed.

Section MountingAndPressing.

Variable host : Host.

(** X9. Mounting the dashboard comes to rest on today: on the first
    bucket of the set generated in the first render, with the temperature
    as metric, the picker closed and the status of the last reading of
    today, in a state of the dashboard. *)
Theorem mount_rests_on_today (renders : nat) (w : World) :
  (3 <= renders)%nat ->
  exists (f : Fiber) (shown : Screen) (w' : World) (day0 : DayData)
         (cur : PlantData),
    mount host renders w = (Settled f shown, w') /\
    reachable host f w' /\
    allDaysData (state f) = fst (generateHistoricalData host w) /\
    nth_error (items (allDaysData (state f))) 0 = Some day0 /\
    lastItem (data day0) = Some cur /\
    selectedDayIndex (state f) = 0%nat /\
    plantData (state f) = data day0 /\
    selectedMetric (state f) = Temperature /\
    plantStatus (state f) = statusOf cur /\
    dayPickerVisible (state f) = false.
Proof.
  intros N.
  destruct (mount_settles host renders w N) as (f & sc & w' & M).
  pose proof (reachable_mount host _ _ _ _ _ M) as R.
  assert (E : fst (mount host renders w) = Settled f sc) by now rewrite M.
  destruct (mount_frame host _ _ _ _ E) as (A & B & Cm & V).
  destruct (reachable_selected host _ _ R)
    as (day & cur & _ & Dd & P & _ & Lc & St & _).
  rewrite B in Dd.
  exists f, sc, w', day, cur.
  split; [exact M|]. split; [exact R|]. split; [exact A|].
  split; [exact Dd|]. split; [exact Lc|]. split; [exact B|].
  split; [exact P|]. split; [exact Cm|]. split; [exact St | exact V].
Qed.

(** X3. While the offset of local time from UTC is steady, the bucket of
    today ends with the reading of 22 o'clock, whatever the time of the
    call: this reading lies in the future when the generator is called
    before 22 o'clock, and it is the one the dashboard shows when it has
    mounted, which it does. *)
Theorem generated_today_ends_at_22 (w : World) (offset : Z) :
  let now := clock host (clock_reads w) in
  let tza := LocalTZA host in
  steadyOffset host offset now ->
  exists (day : DayData) (r : PlantData),
    nth_error (items (fst (generateHistoricalData host w))) 0 = Some day /\
    lastItem (data day) = Some r /\
    JSDate.LocalTime tza (datetime r)
    = JSDate.MakeDate (JSDate.localDay tza now) (22 * JSDate.msPerHour) /\
    (now < datetime r <->
     JSDate.TimeWithinDay (JSDate.LocalTime tza now)
     < 22 * JSDate.msPerHour) /\
    (exists (f : Fiber) (shown : Screen) (w' : World),
       mount host 3 w = (Settled f shown, w')) /\
    (forall (renders : nat) (f : Fiber) (shown : Screen) (w' : World),
       mount host renders w = (Settled f shown, w') ->
       lastItem (plantData (state f)) = Some r /\
       shownTemperature shown = temperature r /\
       shownHumidity shown = humidity r /\
       shownSoilMoisture shown = soilMoisture r /\
       shownDay shown = label day).
Proof.
  cbv zeta; intros S.
  destruct (generated_today_last host w offset S) as (day & r & D & L & T & U).
  exists day, r.
  split; [exact D|]. split; [exact L|]. split; [exact T|].
  split; [exact U|].
  split; [exact (mount_settles host 3 w (le_n 3))|].
  clear S T U; intros renders f shown w' M.
  pose proof (reachable_mount host _ _ _ _ _ M) as R.
  assert (E : fst (mount host renders w) = Settled f shown)
    by now rewrite M.
  destruct (mount_frame host _ _ _ _ E) as (A & B & _).
  destruct (mount_shown host _ _ _ _ E) as (r0 & Rr & <-).
  destruct (reachable_presents host f w' r0 R Rr)
    as (day' & cur & D' & L' & X1 & X2 & X3 & X4 & _).
  destruct (reachable_selected host _ _ R)
    as (day'' & _ & _ & D'' & P & _).
  rewrite D' in D''; injection D'' as <-.
  rewrite A, B, D in D'; injection D' as <-.
  rewrite L in L'; injection L' as <-.
  rewrite P; auto.
Qed.

(** X10. Every press the screen offers is handled, whatever the state of
    the dashboard: the handler and the renders that follow end without
    error, three renders being enough, and the dashboard is at rest again
    in a state of the dashboard. *)
Theorem press_is_handled (renders : nat) (e : Event) (f : Fiber)
  (w : World) :
  (3 <= renders)%nat ->
  reachable host f w ->
  offers (state f) e ->
  exists (f' : Fiber) (shown : Screen) (w' : World),
    dispatch host renders e f w = (Settled f' shown, w') /\
    reachable host f' w' /\
    presents (state f') shown.
Proof.
  intros N R O.
  destruct (reachable_invariant host f w R) as [C I].
  destruct (dispatch_settles host renders e f w N C I O)
    as (f' & shown & w' & D).
  pose proof (reachable_event host renders e f f' w w' shown R O D) as R'.
  exists f', shown, w'.
  split; [exact D|]. split; [exact R'|].
  assert (D1 : fst (dispatch host renders e f w) = Settled f' shown)
    by now rewrite D.
  destruct (dispatch_shown host _ _ _ _ _ _ D1) as (r & Rr & <-).
  exact (reachable_presents host f' w' r R' Rr).
Qed.

End MountingAndPressing.

(** ** The labels of the chart *)

Lemma sampleHost_times_by_clock : times_by_clock sampleHost.
Proof.
  intros t1 t2; cbn [sampleHost toLocaleTimeString LocalTZA].
  unfold JSDate.LocalTime, shortTime; cbv zeta.
  generalize (t1 + 3600000), (t2 + 3600000); clear t1 t2; intros t1 t2 H.
  assert (E1 : JSDate.HourFromTime t1 = JSDate.HourFromTime t2).
  { revert H; unfold JSDate.TimeWithinDay, JSDate.HourFromTime,
      JSDate.msPerDay, JSDate.msPerHour; intros H.
    Z.to_euclidean_division_equations; lia. }
  assert (E2 : (t1 / JSDate.msPerMinute) mod 60
               = (t2 / JSDate.msPerMinute) mod 60).
  { revert H; unfold JSDate.TimeWithinDay, JSDate.msPerDay,
      JSDate.msPerMinute; intros H.
    Z.to_euclidean_division_equations; lia. }
  now rewrite E1, E2.
Qed.

Section ChartLabels.

Variable host : Host.

Lemma newReading_displayTime (date hour : Z) (w : World) :
  displayTime (fst (newReading host date hour w))
  = toLocaleTimeString host
      (JSDate.setHours (LocalTZA host) date hour 0 0 0).
Proof. unfold newReading; cbv zeta; rewrite !run_bind; reflexivity. Qed.

(** X11. On a host that formats a time by its time of day, and while the
    offset of local time from UTC is steady, the chart carries the same
    twelve labels whatever the day selected: the readings of every bucket
    are labelled as 0, 2, ..., 22 o'clock of the day of the call are, in
    this order. *)
Theorem generated_display_times (w : World) (offset : Z) (day : DayData) :
  let now := clock host (clock_reads w) in
  times_by_clock host ->
  steadyOffset host offset now ->
  In day (items (fst (generateHistoricalData host w))) ->
  map displayTime (data day)
  = map (fun hour =>
           toLocaleTimeString host
             (JSDate.MakeDate (JSDate.Day (now + offset))
                (hour * JSDate.msPerHour) - offset))
      [0; 2; 4; 6; 8; 10; 12; 14; 16; 18; 20; 22].
Proof.
  cbv zeta; intros F S Hd.
  rewrite generateHistoricalData_items in Hd.
  apply collect_In in Hd; destruct Hd as (k & w1 & Hk & ->).
  apply dayOffsets_range in Hk.
  rewrite newDay_data.
  apply collect_map_In; intros hour w' Hh.
  apply hours_range in Hh.
  rewrite newReading_displayTime; apply F.
  rewrite (steady_local_time host offset _ S k hour Hk Hh).
  pose proof (steady_datetime_near host offset _ S 0 hour
                ltac:(lia) Hh) as Near.
  rewrite Z.sub_0_r in Near.
  destruct S as [_ S].
  rewrite (JSDateFacts.LocalTime_steady _ _ _ _ S _ Near).
  replace (JSDate.MakeDate
             (JSDate.Day (clock host (clock_reads w) + offset))
             (hour * JSDate.msPerHour) - offset + offset)
    with (JSDate.MakeDate
            (JSDate.Day (clock host (clock_reads w) + offset))
            (hour * JSDate.msPerHour)) by lia.
  rewrite !JSDateFacts.TimeWithinDay_MakeDate
    by (unfold JSDate.msPerHour, JSDate.msPerDay; lia).
  reflexivity.
Qed.

End ChartLabels.

(** ** The day picker and the metric buttons *)

Lemma filter_combine_seq_none {A : Type} (l : list A) (a i : nat) :
  (i < a)%nat ->
  filter (fun row : nat * A => Nat.eqb (fst row) i)
    (combine (seq a (length l)) l) = [].
Proof.
  revert a; induction l as [|x l IH]; intros a H; [reflexivity|].
  cbn [length seq combine filter fst].
  destruct (Nat.eqb_spec a i) as [E|_]; [lia|].
  apply IH; lia.
Qed.

(** The one row of a numbered list that has a given number. *)
Lemma filter_combine_seq {A : Type} (l : list A) :
  forall (a i : nat) (x : A),
    nth_error l i = Some x ->
    filter (fun row : nat * A => Nat.eqb (fst row) (a + i))
      (combine (seq a (length l)) l) = [((a + i)%nat, x)].
Proof.
  induction l as [|y l IH]; intros a i x H; [destruct i; discriminate|].
  cbn [length seq combine filter fst].
  destruct i as [|i]; cbn [nth_error] in H.
  - injection H as ->; rewrite Nat.add_0_r, Nat.eqb_refl.
    f_equal; apply filter_combine_seq_none; lia.
  - destruct (Nat.eqb_spec a (a + S i)) as [E|_]; [lia|].
    replace (a + S i)%nat with (S a + i)%nat by lia.
    exact (IH (S a) i x H).
Qed.

Lemma map_fst_combine_same {A B : Type} (l1 : list A) :
  forall l2 : list B,
    length l1 = length l2 -> map fst (combine l1 l2) = l1.
Proof.
  induction l1 as [|a l1 IH]; intros [|b l2] H; try discriminate;
    [reflexivity|].
  cbn [combine map fst]; f_equal; apply IH.
  now injection H.
Qed.

Section PickerAndButtons.

Variable host : Host.

(** X12. While the day picker is open in a state of the dashboard, its
    rows are numbered 0 to 6 and exactly one of them is highlighted and
    carries the check mark: the row of the selected day, whose label is
    the one the day selector shows. *)
Theorem picker_checks_selected_day (f : Fiber) (w : World) (r : Render) :
  reachable host f w ->
  render (state f) = Some r ->
  dayPickerVisible (state f) = true ->
  map fst (pickerItems (screen r)) = seq 0 7 /\
  filter (fun row => pickerRowChecked (state f) (fst row))
    (pickerItems (screen r))
  = [(selectedDayIndex (state f), shownDay (screen r))].
Proof.
  intros R Rr V.
  destruct (reachable_invariant host f w R) as [_ [_ L7]].
  destruct (reachable_presents host f w r R Rr)
    as (day & _ & D & _ & _ & _ & _ & SD & _ & _ & _ & _ & _ & PI).
  rewrite PI, V, SD; clear PI R Rr.
  assert (Ll : length (map label (items (allDaysData (state f)))) = 7%nat)
    by now rewrite length_map.
  split.
  - apply map_fst_combine_same; now rewrite length_seq.
  - rewrite <- Ll.
    unfold pickerRowChecked.
    apply (filter_combine_seq _ 0 (selectedDayIndex (state f))).
    now rewrite nth_error_map, D.
Qed.

(** X13. Selecting a day in a state of the dashboard ends well for the
    seven days of the set, which are those the picker lists, and for no
    other: an index from 7 on would end in a [TypeError] at the first
    render, the selected bucket being [undefined]. *)
Theorem day_press_crashes_iff_unlisted (renders : nat) (f : Fiber)
  (w : World) (index : nat) :
  (3 <= renders)%nat ->
  reachable host f w ->
  ((index < 7)%nat ->
   exists (f' : Fiber) (shown : Screen) (w' : World),
     dispatch host renders (PressDay index) f w = (Settled f' shown, w') /\
     selectedDayIndex (state f') = index) /\
  ((7 <= index)%nat ->
   fst (dispatch host renders (PressDay index) f w) = Crashed).
Proof.
  intros N R.
  destruct (reachable_invariant host f w R)
    as [((r & Rr & _) & (day & D & P) & F) [I7 L7]].
  apply render_Some in Rr; destruct Rr as (_ & Lr & _).
  pose proof (dispatch_day host renders index f w) as E.
  split; intros Hi.
  - destruct (nth_error (items (allDaysData (state f))) index)
      as [day'|] eqn:D'; [|apply nth_error_None in D'; lia].
    destruct (resume_three renders
                (setDayPickerVisible false
                   (setSelectedDayIndex index (state f)))
                f (currentData r) day' N Lr D'
                (bucket_nonempty _ _ _ F D')) as (f' & sc & S).
    rewrite S in E.
    exists f', sc, (snd (dispatch host renders (PressDay index) f w)).
    split; [exact (outcome_pair _ _ E)|].
    exact (proj1 (proj2 (resume_frame _ _ _ _ _ S))).
  - rewrite E; clear E; unfold resume.
    destruct (sameHooks _ _) eqn:Same.
    { apply sameHooks_eq in Same.
      pose proof (f_equal selectedDayIndex Same) as Ei.
      cbn [selectedDayIndex setDayPickerVisible setSelectedDayIndex] in Ei.
      lia. }
    destruct renders as [|n]; [lia|].
    cbn [settle]; unfold pass, render.
    cbn [selectedDayIndex allDaysData plantData setDayPickerVisible
         setSelectedDayIndex].
    assert (D' : nth_error (items (allDaysData (state f))) index = None)
      by (apply nth_error_None; lia).
    rewrite D', Lr.
    now destruct (nth_error (items (allDaysData (state f))) 0).
Qed.

(** X14. Pressing a button of the metric toggle, in a state of the
    dashboard, makes this button the highlighted one, one render being
    enough: the chart is then titled with the caption of the button, the
    suffix of its axis is the unit of its legend, and the square of the
    legend has the colour of the line of the chart, except for the soil
    moisture, where the square is amber-800 and the line amber-900.  The
    button that is highlighted already leaves the component as it is. *)
Theorem metric_button_press (renders : nat) (f : Fiber) (w : World)
  (b : MetricButton) :
  (1 <= renders)%nat ->
  reachable host f w ->
  In b (metricButtons (selectedMetric (state f))) ->
  exists (f' : Fiber) (shown : Screen) (w' : World),
    dispatch host renders (onPress b) f w = (Settled f' shown, w') /\
    title (chartInfo shown) = caption b /\
    map caption
      (filter highlighted (metricButtons (selectedMetric (state f'))))
    = [caption b] /\
    yAxisSuffix (selectedMetric (state f')) = unit (chartInfo shown) /\
    (hexColor (legendColor (selectedMetric (state f')))
     = Some (chartLine shown)
     <-> caption b <> "Soil Moisture"%string) /\
    (highlighted b = true -> f' = f).
Proof.
  intros N R Hb.
  assert (exists m, onPress b = PressMetric m /\
                    caption b = title (getChartInfo m) /\
                    (highlighted b = true -> m = selectedMetric (state f)))
    as (m & Eo & Ec & Eh).
  { destruct (selectedMetric (state f)); cbn [metricButtons In] in Hb;
      destruct Hb as [<-|[<-|[<-|[]]]]; eexists;
      (split; [reflexivity|]); (split; [reflexivity|]);
      vm_compute; congruence. }
  rewrite Eo, Ec; clear Hb Eo Ec.
  destruct (reachable_invariant host f w R)
    as [((r & Rr & Q1 & Q2) & (day & D & P) & F) _].
  apply render_Some in Rr; destruct Rr as (_ & Lr & _).
  destruct (resume_still renders (setSelectedMetric m (state f)) f
              (currentData r) day N Lr D Q1 Q2) as (f' & sc & S).
  pose proof (dispatch_metric host renders m f w) as E.
  rewrite S in E.
  destruct (dispatch_shown host _ _ _ _ _ _ E) as (r' & Rr' & <-).
  destruct (resume_frame _ _ _ _ _ S) as (_ & _ & Em & _).
  cbn [selectedMetric setSelectedMetric] in Em.
  apply render_Some in Rr'.
  destruct Rr' as (_ & _ & _ & _ & _ & _ & CI & _ & CL & _).
  exists f', (screen r'), (snd (dispatch host renders (PressMetric m) f w)).
  split; [exact (outcome_pair _ _ E)|].
  rewrite CI, CL, Em.
  split; [reflexivity|].
  split; [clear; destruct m; reflexivity|].
  split; [clear; destruct m; reflexivity|].
  split; [clear; destruct m; vm_compute; split; congruence|].
  intros Hh; specialize (Eh Hh); subst m.
  apply resume_cases in S; destruct S as [[S _] | S]; [exact S|].
  destruct (settle_still renders (setSelectedMetric
                                   (selectedMetric (state f)) (state f))
              (deps f) (currentData r) day N Lr D Q1 Q2) as [sc' S'].
  rewrite S' in S; injection S as <- _.
  unfold setSelectedMetric; rewrite state_eta; now destruct f.
Qed.


End PickerAndButtons.

(** ** Two calls of the generator on the same day *)

Section SameDay.

Variable host : Host.

(** The time values of a generated set, while the offset of local time is
    steady. *)
Lemma generated_datetimes (w : World) (offset : Z) :
  let now := clock host (clock_reads w) in
  steadyOffset host offset now ->
  map (fun day => map datetime (data day))
    (items (fst (generateHistoricalData host w)))
  = map (fun dayOffset =>
           map (fun hour =>
                  JSDate.MakeDate (JSDate.Day (now + offset) - dayOffset)
                    (hour * JSDate.msPerHour) - offset) hours) dayOffsets.
Proof.
  cbv zeta; intros S.
  rewrite generateHistoricalData_items.
  apply collect_map_In; intros k w' Hk.
  apply (generated_datetimes_of_bucket host offset _ S).
  apply dayOffsets_range, Hk.
Qed.

(** The local day of the date of bucket [k]. *)
Lemma steady_bucket_day (offset now k : Z) :
  steadyOffset host offset now ->
  0 <= k <= 6 ->
  JSDate.localDay (LocalTZA host) (bucketDate host now k)
  = JSDate.Day (now + offset) - k.
Proof.
  intros S Hk.
  rewrite (steady_bucketDate host offset now S k Hk).
  destruct S as [B S]; unfold JSDate.localDay.
  rewrite (JSDateFacts.LocalTime_steady _ _ _ _ S)
    by (unfold JSDate.msPerDay in *; lia).
  replace (now - k * JSDate.msPerDay + offset)
    with (now + offset - k * JSDate.msPerDay) by lia.
  apply JSDateFacts.Day_minus_days.
Qed.

(** X15. Two calls of the generator on the same local day, as a refresh
    some minutes after the last one, produce readings of the same times
    while the offset of local time from UTC is steady; on a host that
    formats a date by its calendar day the buckets carry the same labels
    too: only the measurements are new. *)
Theorem generated_same_day (w1 w2 : World) (offset : Z) :
  let now1 := clock host (clock_reads w1) in
  let now2 := clock host (clock_reads w2) in
  steadyOffset host offset now1 ->
  steadyOffset host offset now2 ->
  JSDate.localDay (LocalTZA host) now1
  = JSDate.localDay (LocalTZA host) now2 ->
  map (fun day => map datetime (data day))
    (items (fst (generateHistoricalData host w1)))
  = map (fun day => map datetime (data day))
      (items (fst (generateHistoricalData host w2))) /\
  (dates_by_day host ->
   map label (items (fst (generateHistoricalData host w1)))
   = map label (items (fst (generateHistoricalData host w2)))).
Proof.
  cbv zeta; intros S1 S2 E.
  rewrite (steady_localDay host offset _ S1) in E.
  rewrite (steady_localDay host offset _ S2) in E.
  split.
  - rewrite (generated_datetimes w1 offset S1).
    rewrite (generated_datetimes w2 offset S2).
    now rewrite E.
  - intros F; rewrite !generateHistoricalData_items.
    rewrite (collect_map_In (newDay host (clock host (clock_reads w1)))
               label
               (fun k => toLocaleDateString host
                           (bucketDate host (clock host (clock_reads w2)) k))),
      (collect_map (newDay host (clock host (clock_reads w2))) label
         (fun k => toLocaleDateString host
                     (bucketDate host (clock host (clock_reads w2)) k)));
      [reflexivity | intros; apply newDay_label |].
    intros k w' Hk; apply dayOffsets_range in Hk.
    rewrite newDay_label; apply F.
    rewrite (steady_bucket_day offset _ k S1 Hk).
    rewrite (steady_bucket_day offset _ k S2 Hk).
    now rewrite E.
Qed.

End SameDay.

(** ** The sample dashboard *)

Lemma sampleOpened_reachable :
  reachable sampleHost sampleOpenedFiber (snd sampleOpened).
Proof.
  destruct sampleOpened_settled as [shown1 E1].
  apply (reachable_event sampleHost 3 PressDaySelector sampleFiber _
           (snd sampleMounted) _ shown1);
    [exact sampleFiber_reachable | vm_compute; exact I | exact E1].
Qed.

Lemma event_sets_hooks_witness :
  reachable sampleHost sampleOpenedFiber (snd sampleOpened) /\
  offers (state sampleOpenedFiber) (PressDay 4) /\
  exists shown : Screen,
    dispatch sampleHost 3 (PressDay 4) sampleOpenedFiber (snd sampleOpened)
    = (Settled sampleDay4Fiber shown, snd sampleDay4) /\
    allDaysData (state sampleDay4Fiber)
    = allDaysData (state sampleOpenedFiber) /\
    selectedDayIndex (state sampleDay4Fiber) = 4%nat /\
    selectedMetric (state sampleDay4Fiber)
    = selectedMetric (state sampleOpenedFiber) /\
    dayPickerVisible (state sampleDay4Fiber) = false /\
    exists (day : DayData) (cur : PlantData),
      nth_error (items (allDaysData (state sampleDay4Fiber)))
        (selectedDayIndex (state sampleDay4Fiber)) = Some day /\
      plantData (state sampleDay4Fiber) = data day /\
      lastItem (data day) = Some cur /\
      plantStatus (state sampleDay4Fiber) = statusOf cur.
Proof.
  destruct sampleDay4_settled as [shown E].
  split; [exact sampleOpened_reachable|].
  split; [exact sampleOpened_offers_day4|].
  exists shown; split; [exact E|].
  exact (event_sets_hooks sampleHost 3 (PressDay 4) sampleOpenedFiber
           sampleDay4Fiber (snd sampleOpened) (snd sampleDay4) shown
           sampleOpened_reachable sampleOpened_offers_day4 E).
Defined.

Lemma screen_presents_selected_day_witness :
  exists shown : Screen,
    mount sampleHost 3 startWorld
    = (Settled sampleFiber shown, snd sampleMounted) /\
    presents (state sampleFiber) shown.
Proof.
  destruct sampleMounted_settled as [shown E].
  exists shown; split; [exact E|].
  exact (proj1 (screen_presents_selected_day sampleHost 3) _ _ _ _ E).
Defined.

Lemma dashboard_never_too_hot_witness :
  random_in_range sampleHost /\
  reachable sampleHost sampleDay4Fiber (snd sampleDay4) /\
  exists r : Render,
    render (state sampleDay4Fiber) = Some r /\
    65 <= shownTemperature (screen r) <= 74 /\
    plantStatus (state sampleDay4Fiber)
    = (if shownSoilMoisture (screen r) <? 45 then NeedsWater
       else if shownHumidity (screen r) <? 55 then LowHumidity
       else Healthy).
Proof.
  split; [exact sampleHost_in_range|].
  split; [exact sampleDay4_reachable|].
  destruct (dashboard_never_too_hot sampleHost sampleDay4Fiber
              (snd sampleDay4) sampleHost_in_range sampleDay4_reachable)
    as (r & Rr & T & _ & _ & _ & St & _).
  exists r; split; [exact Rr|]; split; [exact T | exact St].
Defined.

Lemma mount_rests_on_today_witness :
  (3 <= 3)%nat /\
  exists (f : Fiber) (shown : Screen) (w' : World) (day0 : DayData),
    mount sampleHost 3 startWorld = (Settled f shown, w') /\
    reachable sampleHost f w' /\
    nth_error (items (allDaysData (state f))) 0 = Some day0 /\
    selectedDayIndex (state f) = 0%nat /\
    plantData (state f) = data day0.
Proof.
  split; [lia|].
  destruct (mount_rests_on_today sampleHost 3 startWorld (le_n 3))
    as (f & shown & w' & day0 & cur & M & R & _ & D & _ & B & P & _).
  exists f, shown, w', day0.
  split; [exact M|]. split; [exact R|]. split; [exact D|].
  split; [exact B | exact P].
Defined.

Lemma generated_today_ends_at_22_witness :
  let now := clock sampleHost (clock_reads startWorld) in
  steadyOffset sampleHost 3600000 now /\
  exists (day : DayData) (r : PlantData),
    nth_error (items (fst (generateHistoricalData sampleHost startWorld))) 0
    = Some day /\
    lastItem (data day) = Some r /\
    JSDate.LocalTime (LocalTZA sampleHost) (datetime r)
    = JSDate.MakeDate (JSDate.localDay (LocalTZA sampleHost) now)
        (22 * JSDate.msPerHour) /\
    now < datetime r.
Proof.
  cbv zeta; split; [apply sampleHost_steady|].
  destruct (generated_today_ends_at_22 sampleHost startWorld 3600000
              (sampleHost_steady _)) as (day & r & D & L & T & U & _).
  exists day, r.
  split; [exact D|]. split; [exact L|]. split; [exact T|].
  apply U; vm_compute; reflexivity.
Defined.

Lemma press_is_handled_witness :
  (3 <= 3)%nat /\
  reachable sampleHost sampleOpenedFiber (snd sampleOpened) /\
  offers (state sampleOpenedFiber) (PressDay 4) /\
  exists (f' : Fiber) (shown : Screen) (w' : World),
    dispatch sampleHost 3 (PressDay 4) sampleOpenedFiber (snd sampleOpened)
    = (Settled f' shown, w') /\
    reachable sampleHost f' w' /\
    presents (state f') shown.
Proof.
  split; [lia|].
  split; [exact sampleOpened_reachable|].
  split; [exact sampleOpened_offers_day4|].
  exact (press_is_handled sampleHost 3 (PressDay 4) sampleOpenedFiber
           (snd sampleOpened) (le_n 3) sampleOpened_reachable
           sampleOpened_offers_day4).
Defined.

Lemma generated_display_times_witness :
  let days := fst (generateHistoricalData sampleHost startWorld) in
  let day := nth 5 (items days) noDay in
  let now := clock sampleHost (clock_reads startWorld) in
  times_by_clock sampleHost /\
  steadyOffset sampleHost 3600000 now /\
  In day (items days) /\
  map displayTime (data day)
  = map (fun hour =>
           toLocaleTimeString sampleHost
             (JSDate.MakeDate (JSDate.Day (now + 3600000))
                (hour * JSDate.msPerHour) - 3600000))
      [0; 2; 4; 6; 8; 10; 12; 14; 16; 18; 20; 22].
Proof.
  cbv zeta.
  destruct (readingAt_In (fst (generateHistoricalData sampleHost startWorld))
              5 0) as [Hd _]; [vm_compute; lia | vm_compute; lia |].
  split; [exact sampleHost_times_by_clock|].
  split; [apply sampleHost_steady|].
  split; [exact Hd|].
  exact (generated_display_times sampleHost startWorld 3600000 _
           sampleHost_times_by_clock (sampleHost_steady _) Hd).
Defined.

Lemma picker_checks_selected_day_witness :
  exists r : Render,
    reachable sampleHost sampleOpenedFiber (snd sampleOpened) /\
    render (state sampleOpenedFiber) = Some r /\
    dayPickerVisible (state sampleOpenedFiber) = true /\
    map fst (pickerItems (screen r)) = seq 0 7 /\
    filter (fun row => pickerRowChecked (state sampleOpenedFiber) (fst row))
      (pickerItems (screen r))
    = [(selectedDayIndex (state sampleOpenedFiber), shownDay (screen r))].
Proof.
  destruct (render (state sampleOpenedFiber)) as [r|] eqn:Rr;
    [|vm_compute in Rr; discriminate Rr].
  assert (V : dayPickerVisible (state sampleOpenedFiber) = true)
    by (vm_compute; reflexivity).
  exists r.
  split; [exact sampleOpened_reachable|].
  split; [reflexivity|].
  split; [exact V|].
  exact (picker_checks_selected_day sampleHost sampleOpenedFiber
           (snd sampleOpened) r sampleOpened_reachable Rr V).
Defined.

Lemma day_press_crashes_iff_unlisted_witness :
  (3 <= 3)%nat /\
  reachable sampleHost sampleOpenedFiber (snd sampleOpened) /\
  (exists (f' : Fiber) (shown : Screen) (w' : World),
     dispatch sampleHost 3 (PressDay 6) sampleOpenedFiber (snd sampleOpened)
     = (Settled f' shown, w') /\
     selectedDayIndex (state f') = 6%nat) /\
  fst (dispatch sampleHost 3 (PressDay 7) sampleOpenedFiber
         (snd sampleOpened)) = Crashed.
Proof.
  split; [lia|].
  split; [exact sampleOpened_reachable|].
  split.
  - apply (proj1 (day_press_crashes_iff_unlisted sampleHost 3
                    sampleOpenedFiber (snd sampleOpened) 6 (le_n 3)
                    sampleOpened_reachable)); lia.
  - apply (proj2 (day_press_crashes_iff_unlisted sampleHost 3
                    sampleOpenedFiber (snd sampleOpened) 7 (le_n 3)
                    sampleOpened_reachable)); lia.
Defined.

Lemma metric_button_press_witness :
  let b := nth 2 (metricButtons (selectedMetric (state sampleDay4Fiber)))
             {| className := EmptyString; textClassName := EmptyString;
                caption := EmptyString; onPress := ClosePicker |} in
  (1 <= 1)%nat /\
  reachable sampleHost sampleDay4Fiber (snd sampleDay4) /\
  In b (metricButtons (selectedMetric (state sampleDay4Fiber))) /\
  exists (f' : Fiber) (shown : Screen) (w' : World),
    dispatch sampleHost 1 (onPress b) sampleDay4Fiber (snd sampleDay4)
    = (Settled f' shown, w') /\
    title (chartInfo shown) = caption b /\
    map caption
      (filter highlighted (metricButtons (selectedMetric (state f'))))
    = [caption b].
Proof.
  cbv zeta.
  assert (Hb : In (nth 2 (metricButtons
                            (selectedMetric (state sampleDay4Fiber)))
                     {| className := EmptyString;
                        textClassName := EmptyString;
                        caption := EmptyString; onPress := ClosePicker |})
                 (metricButtons (selectedMetric (state sampleDay4Fiber))))
    by (apply nth_In; vm_compute; lia).
  split; [lia|].
  split; [exact sampleDay4_reachable|].
  split; [exact Hb|].
  destruct (metric_button_press sampleHost 1 sampleDay4Fiber
              (snd sampleDay4) _ (le_n 1) sampleDay4_reachable Hb)
    as (f' & shown & w' & D & T & H & _).
  exists f', shown, w'.
  split; [exact D|]. split; [exact T | exact H].
Defined.

Lemma generated_same_day_witness :
  let w2 := snd (generateHistoricalData sampleHost startWorld) in
  let now1 := clock sampleHost (clock_reads startWorld) in
  let now2 := clock sampleHost (clock_reads w2) in
  steadyOffset sampleHost 3600000 now1 /\
  steadyOffset sampleHost 3600000 now2 /\
  JSDate.localDay (LocalTZA sampleHost) now1
  = JSDate.localDay (LocalTZA sampleHost) now2 /\
  map (fun day => map datetime (data day))
    (items (fst (generateHistoricalData sampleHost startWorld)))
  = map (fun day => map datetime (data day))
      (items (fst (generateHistoricalData sampleHost w2))) /\
  map label (items (fst (generateHistoricalData sampleHost startWorld)))
  = map label (items (fst (generateHistoricalData sampleHost w2))).
Proof.
  cbv zeta.
  assert (E : JSDate.localDay (LocalTZA sampleHost)
                (clock sampleHost (clock_reads startWorld))
              = JSDate.localDay (LocalTZA sampleHost)
                  (clock sampleHost
                     (clock_reads
                        (snd (generateHistoricalData sampleHost
                                startWorld)))))
    by (vm_compute; reflexivity).
  split; [apply sampleHost_steady|].
  split; [apply sampleHost_steady|].
  split; [exact E|].
  destruct (generated_same_day sampleHost startWorld _ 3600000
              (sampleHost_steady _) (sampleHost_steady _) E) as [T L].
  split; [exact T | exact (L sampleHost_dates_by_day)].
Defined.
